(** * The Speaker's Gym: speech metrics, feedback handlers and the
      daily-reminder service worker

    A shallow embedding of [src/api/feedback.js] (the three feedback
    handlers, [parseMultipartForm] and [analyzeMetrics], as a function and
    statement by statement) and of [src/sw.js]
    (the caches, the notification clicks, the database helpers, the daily
    reminder and the events that start it), with the properties the
    specification states about them and further properties of the code.

    JavaScript numbers are IEEE 754 binary64 values; they are modelled by the
    standard library's [spec_float] with precision 53 and maximal exponent
    1024, so that division by zero, [NaN], the two zeros and every rounding
    step behave as they do in the engine.  Strings are sequences of code
    units below 256 (the Latin-1 part of UTF-16), on which [toLowerCase] and
    [trim] are closed. *)

From Stdlib Require Import ZArith List String Ascii Bool Lia.
From Stdlib Require Import Floats.SpecFloat DecimalString.
Import ListNotations.

(* ================================================================== *)
(** * Numbers *)
(* ================================================================== *)

Module JSNumber.

Local Open Scope Z_scope.

Definition number := spec_float.

Definition prec : Z := 53.
Definition emax : Z := 1024.

Definition add : number -> number -> number := SFadd prec emax.
Definition sub : number -> number -> number := SFsub prec emax.
Definition mul : number -> number -> number := SFmul prec emax.
Definition div : number -> number -> number := SFdiv prec emax.

(** [x < y], [x > y], [x <= y], [x >= y], [x === y] on numbers. *)
Definition ltb (x y : number) : bool := SFltb x y.
Definition gtb (x y : number) : bool := SFltb y x.
Definition leb (x y : number) : bool := SFleb x y.
Definition geb (x y : number) : bool := SFleb y x.
Definition eqb (x y : number) : bool := SFeqb x y.

(** The number denoted by an integer (array lengths, counters, integer
    literals); exact below 2^53. *)
Definition ofZ (z : Z) : number := binary_normalize prec emax z 0 false.
Definition ofNat (n : nat) : number := ofZ (Z.of_nat n).

Definition zero : number := S754_zero false.
Definition NaN : number := S754_nan.
Definition Infinity : number := S754_infinity false.

(** The literals [0.2], [0.3] and [0.1]: the doubles nearest to 1/5, 3/10
    and 1/10. *)
Definition lit_0_2 : number := S754_finite false 7205759403792794 (-55).
Definition lit_0_3 : number := S754_finite false 5404319552844595 (-54).
Definition lit_0_1 : number := S754_finite false 7205759403792794 (-56).

Definition isNaN (x : number) : bool :=
  match x with S754_nan => true | _ => false end.

Definition isFinite (x : number) : bool :=
  match x with
  | S754_zero _ | S754_finite _ _ _ => true
  | S754_infinity _ | S754_nan => false
  end.

(** ToBoolean on a number: [0], [-0] and [NaN] are falsy. *)
Definition truthy (x : number) : bool :=
  match x with
  | S754_zero _ | S754_nan => false
  | _ => true
  end.

(** The number [x] is the integer [z], exactly. *)
Definition denotes (x : number) (z : Z) : Prop :=
  match x with
  | S754_zero _ => z = 0
  | S754_finite s m e => e <= 0 /\ cond_Zopp s (Zpos m) = z * 2 ^ (- e)
  | _ => False
  end.

(** [floor (m * 2^e + 1/2)], computed on integers. *)
Definition round_half_up (m e : Z) : Z :=
  match e with
  | Zneg k => (2 * m + 2 ^ Zpos k) / 2 ^ (Zpos k + 1)
  | _ => m * 2 ^ e
  end.

(** [Math.round]: the integral number closest to [x], the larger one on a
    tie; [-0] for [-0.5 <= x < 0]; integral numbers, infinities and [NaN]
    are returned as they are. *)
Definition Math_round (x : number) : number :=
  match x with
  | S754_finite s m (Zneg k) =>
      let z := round_half_up (cond_Zopp s (Zpos m)) (Zneg k) in
      if z =? 0 then S754_zero s else ofZ z
  | _ => x
  end.

(** [Math.max(...args)]: starts from [-Infinity]; a [NaN] argument makes
    the result [NaN]; [+0] is larger than [-0].  (An engine's bound on the
    number of spread arguments is not part of the language and is not
    modelled.) *)
Definition max_step (highest x : number) : number :=
  match x, highest with
  | S754_zero false, S754_zero true => x
  | _, _ => if gtb x highest then x else highest
  end.

Fixpoint max_from (highest : number) (args : list number) : number :=
  match args with
  | [] => highest
  | S754_nan :: _ => S754_nan
  | x :: rest => max_from (max_step highest x) rest
  end.

Definition Math_max (args : list number) : number :=
  max_from (S754_infinity true) args.

(** The order of two finite numbers of one sign is the lexicographic order
    of exponent and mantissa. *)
Definition lex (e1 : Z) (m1 : positive) (e2 : Z) (m2 : positive)
  : comparison :=
  match e1 ?= e2 with
  | Lt => Lt
  | Gt => Gt
  | Eq => Pos.compare_cont Eq m1 m2
  end.

(** ** Number to string *)

Definition digits (n : Z) : string :=
  NilZero.string_of_uint (N.to_uint (Z.to_N n)).

Fixpoint zeros (n : nat) : string :=
  match n with
  | O => EmptyString
  | S n' => String "0" (zeros n')
  end.

(** The digits of [n] with a point before the last [f] of them, padded
    with zeros on the left so that a digit precedes the point. *)
Definition fixed_digits (f : nat) (n : Z) : string :=
  let m := digits n in
  match f with
  | O => m
  | _ =>
      let k := String.length m in
      let m := if (k <=? f)%nat then (zeros (f + 1 - k) ++ m)%string else m in
      let k := String.length m in
      (substring 0 (k - f) m ++ "." ++ substring (k - f) f m)%string
  end.

(** [10^21 <= m * 2^e], for [m > 0]. *)
Definition at_least_1e21 (m : positive) (e : Z) : bool :=
  match e with
  | Zneg k => 10 ^ 21 * 2 ^ Zpos k <=? Zpos m
  | _ => 10 ^ 21 <=? Zpos m * 2 ^ e
  end.

(** Number::toString for a finite number at or above 10^21, which is an
    integer [v = m * 2^e]: the shortest digit string [s] (of length [k])
    such that [s * 10^(n-k)] rounds to the number, the closest such [s]
    when there are several, written in exponent notation. *)
Section Shortest.
Variables (m : positive) (e : Z).

Definition int_value : Z := Zpos m * 2 ^ e.

(** Twice the bounds of the interval of reals that round to the number:
    half an ulp above, half the distance to the predecessor below (a
    quarter of an ulp at a power of two); the bounds themselves round
    to it when the mantissa is even. *)
Definition hi2 : Z := 2 * int_value + 2 ^ e.
Definition lo2 : Z :=
  if Zpos m =? 2 ^ 52
  then 2 * int_value - 2 ^ (e - 1)
  else 2 * int_value - 2 ^ e.

Definition rounds_here (y : Z) : bool :=
  if Z.even (Zpos m)
  then (lo2 <=? 2 * y) && (2 * y <=? hi2)
  else (lo2 <? 2 * y) && (2 * y <? hi2).

(** The candidates with [k] digits and decimal exponent [n], each with
    its distance to the number. *)
Definition candidates (n k : Z) : list (Z * (Z * Z)) :=
  let p := 10 ^ (n - k) in
  let s0 := int_value / p in
  flat_map
    (fun s =>
       if (10 ^ (k - 1) <=? s) && (s <? 10 ^ k) && rounds_here (s * p)
       then [(Z.abs (s * p - int_value), (s, n))] else [])
    [s0; s0 + 1].

Definition closer (best : option (Z * (Z * Z))) (c : Z * (Z * Z))
  : option (Z * (Z * Z)) :=
  match best with
  | None => Some c
  | Some b =>
      if (fst c <? fst b) || ((fst c =? fst b) && Z.even (fst (snd c)))
      then Some c else best
  end.

Definition closest (cs : list (Z * (Z * Z))) : option (Z * Z) :=
  option_map snd (fold_left closer cs None).

Fixpoint shortest (fuel : nat) (n0 k : Z) : Z * Z :=
  match fuel with
  | O => (int_value, n0)
  | S fuel' =>
      match closest (candidates n0 k ++ candidates (n0 + 1) k) with
      | Some sn => sn
      | None => shortest fuel' n0 (k + 1)
      end
  end.

Definition toString_large : string :=
  let n0 := Z.of_nat (String.length (digits int_value)) in
  let '(s, n) := shortest (Z.to_nat n0) n0 1 in
  let d := digits s in
  let mantissa :=
    match d with
    | String c EmptyString => d
    | String c rest => String c (String "." rest)
    | EmptyString => d
    end in
  (mantissa ++ "e+" ++ digits (n - 1))%string.
End Shortest.

Definition isDigit (c : ascii) : bool :=
  let n := nat_of_ascii c in ((48 <=? n) && (n <=? 57))%nat.

Fixpoint allDigits (s : string) : bool :=
  match s with
  | EmptyString => true
  | String c rest => isDigit c && allDigits rest
  end.

(** The integer written by a string of decimal digits, from the left. *)
Fixpoint digitsValue (acc : Z) (s : string) : option Z :=
  match s with
  | EmptyString => Some acc
  | String c rest =>
      if isDigit c
      then digitsValue (10 * acc + Z.of_nat (nat_of_ascii c - 48)) rest
      else None
  end.

(** [x.toFixed(f)] for [f <= 100]. *)
Definition toFixed (f : nat) (x : number) : string :=
  match x with
  | S754_nan => "NaN"%string
  | S754_infinity false => "Infinity"%string
  | S754_infinity true => "-Infinity"%string
  | S754_zero _ => fixed_digits f 0
  | S754_finite s m e =>
      let sign := if s then "-"%string else EmptyString in
      if at_least_1e21 m e
      then (sign ++ toString_large m e)%string
      else
        let n := round_half_up (Zpos m * 10 ^ Z.of_nat f) e in
        (sign ++ fixed_digits f n)%string
  end.

(** A string with two decimal places: an optional minus sign, at least one
    digit, a point, two digits. *)
Definition twoDecimals (s : string) : Prop :=
  exists sign a b,
    s = (sign ++ a ++ "." ++ b)%string
    /\ (sign = EmptyString \/ sign = "-"%string)
    /\ (1 <= String.length a)%nat /\ allDigits a = true
    /\ String.length b = 2%nat /\ allDigits b = true.

(** The numbers [toFixed] writes in fixed notation: the finite ones below
    10^21. *)
Definition fixedRange (x : number) : bool :=
  match x with
  | S754_zero _ => true
  | S754_finite _ m e => negb (at_least_1e21 m e)
  | _ => false
  end.

End JSNumber.

(* ================================================================== *)
(** * Strings *)
(* ================================================================== *)

Module JSString.

Local Open Scope nat_scope.

(** [toLowerCase] on a code unit below 256: the letters A-Z and the
    Latin-1 capitals U+00C0-U+00DE (the multiplication sign U+00D7 apart)
    move 32 places up; every other code unit is its own lower case. *)
Definition lower_unit (c : ascii) : ascii :=
  let n := nat_of_ascii c in
  if ((65 <=? n) && (n <=? 90))
     || ((192 <=? n) && (n <=? 222) && negb (n =? 215))
  then ascii_of_nat (n + 32) else c.

Fixpoint toLowerCase (s : string) : string :=
  match s with
  | EmptyString => EmptyString
  | String c rest => String (lower_unit c) (toLowerCase rest)
  end.

(** White space and line terminators below 256: TAB, LF, VT, FF, CR,
    SPACE and NO-BREAK SPACE. *)
Definition is_space (c : ascii) : bool :=
  let n := nat_of_ascii c in
  ((9 <=? n) && (n <=? 13)) || (n =? 32) || (n =? 160).

Fixpoint trimStart (s : string) : string :=
  match s with
  | EmptyString => EmptyString
  | String c rest => if is_space c then trimStart rest else s
  end.

Fixpoint trimEnd (s : string) : string :=
  match s with
  | EmptyString => EmptyString
  | String c rest =>
      match trimEnd rest with
      | EmptyString => if is_space c then EmptyString else String c EmptyString
      | kept => String c kept
      end
  end.

Definition trim (s : string) : string := trimEnd (trimStart s).

(** [Array.prototype.includes] on an array of strings. *)
Definition includes (l : list string) (s : string) : bool :=
  existsb (String.eqb s) l.

End JSString.

(* ================================================================== *)
(** * Values *)
(* ================================================================== *)

Module JSValue.
Import JSNumber.

(** The values that cross the boundaries of the modelled functions; an
    object is the ordered list of its own properties. *)
#[warnings="-register-all"]
Inductive value : Type :=
| VUndefined
| VNull
| VBool (b : bool)
| VNum (x : number)
| VStr (s : string)
| VObj (fields : list (string * value)).

Fixpoint lookup (k : string) (fields : list (string * value)) : value :=
  match fields with
  | [] => VUndefined
  | (k', v) :: rest => if String.eqb k k' then v else lookup k rest
  end.

(** Property read [o.k]. *)
Definition get (o : value) (k : string) : value :=
  match o with
  | VObj fields => lookup k fields
  | _ => VUndefined
  end.

(** [Object.keys(o)]. *)
Definition keys (o : value) : list string :=
  match o with
  | VObj fields => map fst fields
  | _ => []
  end.

(** [k in o]. *)
Definition has (o : value) (k : string) : bool :=
  existsb (String.eqb k) (keys o).

(** [typeof v]. *)
Definition typeof (v : value) : string :=
  match v with
  | VUndefined => "undefined"
  | VNull => "object"
  | VBool _ => "boolean"
  | VNum _ => "number"
  | VStr _ => "string"
  | VObj _ => "object"
  end.

End JSValue.

(* ================================================================== *)
(** * src/api/feedback.js: analyzeMetrics *)
(* ================================================================== *)

Module Metrics.
Import JSNumber JSString JSValue.

Local Open Scope string_scope.

(** One entry of the transcription's word list. *)
Record Word : Type := mkWord {
  word : string;
  start : number;
  end_ : number
}.

(** The [words] argument: [undefined], [null] or an array of entries. *)
Inductive wordsArg : Type :=
| WordsUndefined
| WordsNull
| WordsArray (ws : list Word).

(** [!words || words.length === 0] *)
Definition noWords (words : wordsArg) : bool :=
  match words with
  | WordsUndefined | WordsNull => true
  | WordsArray ws => (List.length ws =? 0)%nat
  end.

Definition elements (words : wordsArg) : list Word :=
  match words with
  | WordsArray ws => ws
  | _ => []
  end.

Definition fillerWords : list string :=
  ["um"; "uh"; "like"; "you know"; "so"; "basically"; "actually"; "literally"].

(** The body of the [forEach] callback, on the counter [fillerCount]. *)
Definition countStep (fillerCount : nat) (w : Word) : nat :=
  let wordText := trim (toLowerCase (word w)) in
  if includes fillerWords wordText then S fillerCount else fillerCount.

Definition countFillers (words : list Word) : nat :=
  fold_left countStep words 0%nat.

(** The loop [for (let i = 1; i < words.length; i++)], with the array
    [pauses] it pushes to.  [fuel] bounds the number of iterations; the
    loop is started with as many as the array has entries. *)
Fixpoint pauseLoop (words : list Word) (fuel i : nat) (pauses : list number)
  : list number :=
  match fuel with
  | O => pauses
  | S fuel' =>
      if (i <? List.length words)%nat then
        match nth_error words i, nth_error words (i - 1) with
        | Some cur, Some prev =>
            let pause := sub (start cur) (end_ prev) in
            pauseLoop words fuel' (S i)
              (if gtb pause lit_0_2 then pauses ++ [pause] else pauses)
        | _, _ => pauses
        end
      else pauses
  end.

Definition collectPauses (words : list Word) : list number :=
  pauseLoop words (List.length words) 1 [].

(** [pauses.reduce((a, b) => a + b, 0)] *)
Definition sumPauses (pauses : list number) : number :=
  fold_left add pauses zero.

Definition analyzeMetrics (words : wordsArg) (duration : number) : value :=
  if noWords words then
    VObj [ ("wordsPerMinute", VNum zero);
           ("averagePauseDuration", VNum zero);
           ("longestPause", VNum zero);
           ("fillerWordCount", VNum zero);
           ("pacingVariation", VStr "unknown") ]
  else
    let ws := elements words in
    let fillerCount := countFillers ws in
    let pauses := collectPauses ws in
    let wordsPerMinute :=
      Math_round (mul (div (ofNat (List.length ws)) duration) (ofZ 60)) in
    let pacingVariation :=
      if gtb (ofNat (List.length pauses)) (mul (ofNat (List.length ws)) lit_0_3)
      then "halting"
      else if ltb (ofNat (List.length pauses))
                  (mul (ofNat (List.length ws)) lit_0_1)
              && gtb wordsPerMinute (ofZ 150)
      then "rushed"
      else "steady" in
    VObj [ ("wordsPerMinute", VNum wordsPerMinute);
           ("averagePauseDuration",
             if (0 <? List.length pauses)%nat
             then VStr (toFixed 2 (div (sumPauses pauses)
                                       (ofNat (List.length pauses))))
             else VNum zero);
           ("longestPause",
             if (0 <? List.length pauses)%nat
             then VStr (toFixed 2 (Math_max pauses))
             else VNum zero);
           ("fillerWordCount", VNum (ofNat fillerCount));
           ("pauseCount", VNum (ofNat (List.length pauses)));
           ("pacingVariation", VStr pacingVariation) ].

(** ** The statistics in the words of the specification *)

(** The gap before entry [i]: [words[i].start - words[i-1].end]. *)
Definition gapAt (words : list Word) (i : nat) : option number :=
  match nth_error words (i - 1), nth_error words i with
  | Some prev, Some cur => Some (sub (start cur) (end_ prev))
  | _, _ => None
  end.

(** A gap counts as a pause when it is strictly above 0.2 seconds. *)
Definition isPause (gap : number) : bool := gtb gap lit_0_2.

(** The pause before entry [i], if there is one. *)
Definition pauseAt (words : list Word) (i : nat) : list number :=
  match gapAt words i with
  | Some gap => if isPause gap then [gap] else []
  | None => []
  end.

(** The pauses of a word sequence: the gaps of its consecutive pairs
    [(i-1, i)], [1 <= i < length], that are pauses, in order. *)
Definition pauseGaps (words : list Word) : list number :=
  flat_map (pauseAt words) (seq 1 (List.length words - 1)).

(** The arithmetic mean: the sum of the values divided by their number. *)
Definition mean (xs : list number) : number :=
  div (fold_left add xs zero) (ofNat (List.length xs)).

(** A largest element of a list. *)
Definition isMaximumOf (m : number) (xs : list number) : Prop :=
  In m xs /\ forall x, In x xs -> leb x m = true.

(** An entry is a filler when its text, lowercased and trimmed, is one of
    the eight filler words. *)
Definition isFiller (w : Word) : Prop :=
  let t := trim (toLowerCase (word w)) in
  t = "um" \/ t = "uh" \/ t = "like" \/ t = "you know" \/ t = "so"
  \/ t = "basically" \/ t = "actually" \/ t = "literally".

(** [countOf P xs n]: exactly [n] entries of [xs] satisfy [P]. *)
Inductive countOf {A : Type} (P : A -> Prop) : list A -> nat -> Prop :=
| countOf_nil : countOf P [] 0
| countOf_yes x xs n : P x -> countOf P xs n -> countOf P (x :: xs) (S n)
| countOf_no x xs n : ~ P x -> countOf P xs n -> countOf P (x :: xs) n.

(** [r] is [x] rounded to the nearest integer [z], the larger one on a tie
    (and [-0] rather than [0] from below): [z - 1/2 <= x < z + 1/2], and
    [r] is [z] exactly, for every [x] whose mantissa has at most 53 bits,
    as a double's has.  A number that is integral, infinite or [NaN] has
    nothing to round. *)
Definition roundedToNearest (x r : number) : Prop :=
  match x with
  | S754_finite s m (Zneg k) =>
      exists z : Z,
        (2 ^ Zpos k * (2 * z - 1) <= 2 * cond_Zopp s (Zpos m)
         /\ 2 * cond_Zopp s (Zpos m) < 2 ^ Zpos k * (2 * z + 1))%Z
        /\ (z = 0%Z -> r = S754_zero s)
        /\ (Zpos m < 2 ^ 53 -> denotes r z)%Z
  | _ => r = x
  end.

(** The result for missing or empty input. *)
Definition defaultMetrics : value :=
  VObj [ ("wordsPerMinute", VNum zero);
         ("averagePauseDuration", VNum zero);
         ("longestPause", VNum zero);
         ("fillerWordCount", VNum zero);
         ("pacingVariation", VStr "unknown") ].

(** A word sequence to run the function on. *)
Definition sampleWords : list Word :=
  [ mkWord " Um" (ofZ 0) (ofZ 1);
    mkWord "well" (ofZ 2) (ofZ 3);
    mkWord "LIKE " (ofZ 3) (ofZ 4) ].

(** A word sequence to run the function on. *)
Definition twoWords : list Word :=
  [ mkWord "so" (ofZ 0) (ofZ 1); mkWord "then" (ofZ 2) (ofZ 3) ].

(** Two words 10^21 seconds apart, and two words of which the second
    starts at [Infinity]. *)
Definition distantWords : list Word :=
  [ mkWord "so" zero zero; mkWord "then" (ofZ (10 ^ 21)) (ofZ (10 ^ 21)) ].

Definition endlessWords : list Word :=
  [ mkWord "so" zero zero; mkWord "then" Infinity Infinity ].

End Metrics.

(* ================================================================== *)
(** * Effects: computations that may throw, over a world *)
(* ================================================================== *)

Module Effect.

(** What is thrown: an error object with its [status] (absent on plain
    errors, the HTTP status on the API client's errors) and [message]. *)
Record JsError : Type := mkError {
  status : option Z;
  message : string
}.

Inductive outcome (A : Type) : Type :=
| Resolved (a : A)
| Rejected (e : JsError).
Arguments Resolved {A} a.
Arguments Rejected {A} e.

(** An (async) computation over the world [W]: it ends with a value or
    with a thrown error, and with the world it leaves. *)
Definition M (W A : Type) : Type := W -> outcome A * W.

Definition ret {W A : Type} (a : A) : M W A := fun w => (Resolved a, w).

Definition throw {W A : Type} (e : JsError) : M W A :=
  fun w => (Rejected e, w).

Definition bind {W A B : Type} (c : M W A) (k : A -> M W B) : M W B :=
  fun w =>
    match c w with
    | (Resolved a, w') => k a w'
    | (Rejected e, w') => (Rejected e, w')
    end.

(** [try { c } catch (error) { handler error }] *)
Definition tryCatch {W A : Type} (c : M W A) (handler : JsError -> M W A)
  : M W A :=
  fun w =>
    match c w with
    | (Resolved a, w') => (Resolved a, w')
    | (Rejected e, w') => handler e w'
    end.

Definition modify {W : Type} (f : W -> W) : M W unit :=
  fun w => (Resolved tt, f w).

Declare Scope effect_scope.
Delimit Scope effect_scope with effect.
Notation "x <- c ;; k" := (bind c (fun x => k))
  (at level 61, c at next level, right associativity) : effect_scope.
Notation "c ;; k" := (bind c (fun _ => k))
  (at level 61, right associativity) : effect_scope.

End Effect.

(* ================================================================== *)
(** * src/api/feedback.js: the handlers *)
(* ================================================================== *)

Module Handlers.
Import JSNumber JSString JSValue Metrics Effect.

Local Open Scope string_scope.
Local Open Scope effect_scope.

(** ** The world of a handler invocation *)

Inductive Level : Type := ConsoleLog | ConsoleError.

(** A console line: [console.log] or [console.error], its fixed text and
    the values printed with it. *)
Record LogEntry : Type := mkLog {
  level : Level;
  text : string;
  details : list value
}.

(** The calls a handler makes outside itself. *)
Inductive Call : Type :=
| ParseForm
| Transcribe (model : string)
| ChatCompletion (model : string).

Record World : Type := mkWorld {
  console : list LogEntry;
  calls : list Call
}.

Record AudioFile : Type := mkAudio {
  filename : string;
  size : nat
}.

(** The result of [parseMultipartForm]: [fields.duration], [files.audio]. *)
Record Form : Type := mkForm {
  duration_field : option string;
  audio : option AudioFile
}.

(** The transcription: [text], [words], [duration]. *)
Record Transcription : Type := mkTranscription {
  t_text : string;
  t_words : option (list Word);
  t_duration : option number
}.

(** What the surroundings answer to each call, and whether
    [process.env.OPENAI_API_KEY] is set.  The reading and splitting of the
    request body by [parseMultipartForm] is one of these calls: it answers
    with any form or fails with any error (a missing boundary, a broken
    stream). *)
Record Env : Type := mkEnv {
  form_outcome : outcome Form;
  transcription_outcome : outcome Transcription;
  (** [completion.choices?.[0]?.message?.content] *)
  completion_outcome : outcome (option string);
  OPENAI_API_KEY : bool
}.

Record Request : Type := mkRequest {
  method : string;
  (** [req.headers['content-type']] *)
  content_type : option string;
  (** [(req.body || {}).text] *)
  body_text : value
}.

Record Response : Type := mkResponse {
  code : Z;
  headers : list (string * string);
  (** [json(...)], or nothing after [end()] *)
  body : option value
}.

Definition logLine (l : Level) (t : string) (d : list value) : M World unit :=
  modify (fun w => mkWorld (console w ++ [mkLog l t d]) (calls w)).

Definition call {A : Type} (c : Call) (answer : outcome A) : M World A :=
  fun w => (answer, mkWorld (console w) (calls w ++ [c])).

(** [needle] occurs in [s]: [s.includes(needle)]. *)
Fixpoint contains (needle s : string) : bool :=
  prefix needle s
  || match s with
     | EmptyString => false
     | String _ rest => contains needle rest
     end.

(** [!text || typeof text !== 'string' || !text.trim()] fails: the text
    to send, trimmed. *)
Definition transcriptText (v : value) : option string :=
  match v with
  | VStr s => match trim s with
              | EmptyString => None
              | t => Some t
              end
  | _ => None
  end.

(** [completion.choices?.[0]?.message?.content?.trim()
     || 'No feedback generated.'] *)
Definition feedbackOf (content : option string) : string :=
  match content with
  | Some c => match trim c with
              | EmptyString => "No feedback generated."
              | t => t
              end
  | None => "No feedback generated."
  end.

Definition json (c : Z) (hs : list (string * string)) (v : value) : Response :=
  mkResponse c hs (Some v).

Definition errorBody (msg : string) : value := VObj [("error", VStr msg)].

(** [analyzeMetrics] as a step of a computation over a world: the body
    of the function has no statement that reads or writes anything
    outside its arguments and its local variables. *)
Definition analyzeMetricsIn {W : Type} (words : wordsArg) (duration : number)
  : M W value :=
  ret (analyzeMetrics words duration).

Section WithEnvironment.
(** The engine's [parseFloat]. *)
Variable parseFloat : string -> number.
Variable env : Env.

(** ** The two text-only handlers

    They differ in the model they name (and in the prompt they send):
    ['gpt-4o-mini'] and ['gpt-4o']. *)
Definition textHandler (model : string) (req : Request) : M World Response :=
  if negb (method req =? "POST") then
    ret (json 405 [("Allow", "POST")] (errorBody "Method not allowed"))
  else
    match transcriptText (body_text req) with
    | None => ret (json 400 [] (errorBody "Missing transcript text"))
    | Some _ =>
        tryCatch
          (completion <- call (ChatCompletion model) (completion_outcome env) ;;
           ret (json 200 [] (VObj [("feedback", VStr (feedbackOf completion))])))
          (fun error =>
             logLine ConsoleError "Feedback generation failed:"
                     [VStr (message error)] ;;
             ret (json 500 [] (errorBody "Failed to generate feedback")))
    end.

Definition handler_gpt4o_mini : Request -> M World Response :=
  textHandler "gpt-4o-mini".

Definition handler_gpt4o : Request -> M World Response :=
  textHandler "gpt-4o".

(** ** The audio handler *)

Definition cors : list (string * string) :=
  [ ("Access-Control-Allow-Credentials", "true");
    ("Access-Control-Allow-Origin", "*");
    ("Access-Control-Allow-Methods", "POST, OPTIONS");
    ("Access-Control-Allow-Headers", "Content-Type") ].

(** [fields.duration ? parseFloat(fields.duration)
                     : transcription.duration || 0] *)
Definition durationOf (fields : Form) (transcription : Transcription)
  : number :=
  match duration_field fields with
  | Some (String c rest) => parseFloat (String c rest)
  | _ =>
      match t_duration transcription with
      | Some d => if truthy d then d else zero
      | None => zero
      end
  end.

(** The [try] block. *)
Definition handlerBody (req : Request) : M World Response :=
  let contentType :=
    match content_type req with Some c => c | None => EmptyString end in
  if contains "multipart/form-data" contentType then
    form <- call ParseForm (form_outcome env) ;;
    match audio form with
    | None => ret (json 400 cors (errorBody "No audio file provided"))
    | Some audioFile =>
        logLine ConsoleLog "Processing audio file"
                [VStr (filename audioFile); VNum (ofNat (size audioFile))] ;;
        transcription <-
          call (Transcribe "whisper-1") (transcription_outcome env) ;;
        let transcript := t_text transcription in
        let words :=
          match t_words transcription with Some ws => ws | None => [] end in
        let duration := durationOf form transcription in
        logLine ConsoleLog "Transcription complete"
                [VNum (ofNat (List.length words)); VNum duration] ;;
        metrics <- analyzeMetricsIn (WordsArray words) duration ;;
        logLine ConsoleLog "Metrics:" [metrics] ;;
        completion <-
          call (ChatCompletion "gpt-5.1") (completion_outcome env) ;;
        ret (json 200 cors
                  (VObj [ ("feedback", VStr (feedbackOf completion));
                          ("transcript", VStr transcript);
                          ("metrics", metrics) ]))
    end
  else
    match transcriptText (body_text req) with
    | None =>
        ret (json 400 cors
                  (errorBody "Missing transcript text or audio file"))
    | Some _ =>
        completion <-
          call (ChatCompletion "gpt-5.1") (completion_outcome env) ;;
        ret (json 200 cors
                  (VObj [("feedback", VStr (feedbackOf completion))]))
    end.

(** [if (error.status)]: the status when it is there and not zero. *)
Definition truthyStatus (error : JsError) : option Z :=
  match status error with
  | Some st => if (st =? 0)%Z then None else Some st
  | None => None
  end.

(** The [catch] block. *)
Definition handlerCatch (error : JsError) : M World Response :=
  logLine ConsoleError "Feedback generation failed:" [VStr (message error)] ;;
  logLine ConsoleError "Error details:" [VStr (message error)] ;;
  logLine ConsoleError "Error stack:" [] ;;
  match truthyStatus error with
  | Some st =>
      logLine ConsoleError "OpenAI API Status:" [VNum (ofZ st)] ;;
      logLine ConsoleError "OpenAI API Error:" [] ;;
      ret (json st cors
                (VObj [ ("error", VStr "OpenAI API error");
                        ("details", VStr (message error));
                        ("status", VNum (ofZ st)) ]))
  | None =>
      if negb (OPENAI_API_KEY env) then
        ret (json 500 cors
                  (VObj [ ("error", VStr "OpenAI API key not configured");
                          ("details",
                            VStr "OPENAI_API_KEY environment variable is missing") ]))
      else
        ret (json 500 cors
                  (VObj [ ("error", VStr "Failed to generate feedback");
                          ("details", VStr (message error)) ]))
  end.

Definition handler (req : Request) : M World Response :=
  if method req =? "OPTIONS" then
    ret (mkResponse 200 cors None)
  else if negb (method req =? "POST") then
    ret (json 405 (cors ++ [("Allow", "POST")])
              (errorBody "Method not allowed"))
  else
    tryCatch (handlerBody req) handlerCatch.

End WithEnvironment.

(** ** Statements about responses and traces *)

(** A JSON error response: a body with an [error] text. *)
Definition isErrorResponse (r : Response) : Prop :=
  exists v msg, body r = Some v /\ get v "error" = VStr msg.

(** A 4xx or 5xx status. *)
Definition isErrorStatus (c : Z) : Prop := (400 <= c < 600)%Z.

Definition logged (t : string) (w : World) : Prop :=
  exists d, In (mkLog ConsoleError t d) (console w).

Definition emptyWorld : World := mkWorld [] [].

(** A [parseFloat] for runs on unsigned decimal integers; anything else
    is [NaN]. *)
Definition parseDigits (s : string) : number :=
  match s with
  | EmptyString => NaN
  | _ => match digitsValue 0 s with
         | Some z => ofZ z
         | None => NaN
         end
  end.

(** A run of the audio handler in which every call succeeds, the form
    has no [duration] field and the transcription no [duration]. *)
Definition multipartRequest : Request :=
  mkRequest "POST" (Some "multipart/form-data; boundary=x") VUndefined.

Definition zeroDurationEnv : Env :=
  mkEnv (Resolved (mkForm None (Some (mkAudio "speech.webm" 1000))))
        (Resolved (mkTranscription "Um well like" (Some sampleWords) None))
        (Resolved (Some "Summary: fine."))
        true.

(** A text request, and a run in which the completion call fails without
    a status (a connection error). *)
Definition textRequest : Request :=
  mkRequest "POST" (Some "application/json") (VStr " Hello everyone. ").

Definition offlineEnv : Env :=
  mkEnv (Resolved (mkForm None None))
        (Resolved (mkTranscription EmptyString None None))
        (Rejected (mkError None "Connection error."))
        true.

(** A run in which the transcription call is refused with the given
    status. *)
Definition refusedEnv (st : Z) : Env :=
  mkEnv (Resolved (mkForm None (Some (mkAudio "speech.webm" 1000))))
        (Rejected (mkError (Some st) "The request was refused"))
        (Resolved (Some "Summary: fine."))
        true.

End Handlers.

(* ================================================================== *)
(** * src/api/feedback.js: analyzeMetrics, statement by statement *)
(* ================================================================== *)

Module MetricsBody.
Import JSNumber JSString JSValue Metrics Effect.

Local Open Scope string_scope.
Local Open Scope effect_scope.

(** The variables the body assigns to after their declaration:
    [fillerCount], the array [pauses], the index [i] of the loop and
    [pacingVariation]. *)
Record Variables : Type := mkVariables {
  fillerCount : nat;
  pauses : list number;
  i : nat;
  pacingVariation : string
}.

(** The state a call runs in: the cells of its variables, with whatever
    they held before, and the rest of the program's state, the console
    and the calls made outside, as the handlers have them. *)
Record State : Type := mkState {
  variables : Variables;
  outside : Handlers.World
}.

Definition set_fillerCount (n : nat) (v : Variables) : Variables :=
  mkVariables n (pauses v) (i v) (pacingVariation v).

Definition set_pauses (ps : list number) (v : Variables) : Variables :=
  mkVariables (fillerCount v) ps (i v) (pacingVariation v).

Definition set_i (n : nat) (v : Variables) : Variables :=
  mkVariables (fillerCount v) (pauses v) n (pacingVariation v).

Definition set_pacingVariation (t : string) (v : Variables) : Variables :=
  mkVariables (fillerCount v) (pauses v) (i v) t.

(** An assignment to a variable, and the reading of one. *)
Definition assignTo (f : Variables -> Variables) : M State unit :=
  modify (fun s => mkState (f (variables s)) (outside s)).

Definition valueOf {A : Type} (f : Variables -> A) : M State A :=
  fun s => (Resolved (f (variables s)), s).

(** [words.forEach(callback)] *)
Fixpoint forEach (words : list Word) (callback : Word -> M State unit)
  : M State unit :=
  match words with
  | [] => ret tt
  | w :: rest => callback w ;; forEach rest callback
  end.

(** The callback: [fillerCount++] when the word is a filler. *)
Definition countFiller (w : Word) : M State unit :=
  let wordText := trim (toLowerCase (word w)) in
  if includes fillerWords wordText
  then assignTo (fun v => set_fillerCount (S (fillerCount v)) v)
  else ret tt.

(** What is thrown when [words[i]] is [undefined], and what ends a loop
    that was given too few iterations. *)
Definition noSuchWord : JsError :=
  mkError None "Cannot read properties of undefined (reading 'start')".

Definition cutShort : JsError := mkError None "The loop was cut short".

(** [for (...; i < words.length; i++) { ... }], after [let i = 1], run
    for at most [fuel] tests of its condition. *)
Fixpoint pauseFor (fuel : nat) (words : list Word) : M State unit :=
  match fuel with
  | O => throw cutShort
  | S fuel' =>
      index <- valueOf i ;;
      if (index <? List.length words)%nat then
        match nth_error words index, nth_error words (index - 1) with
        | Some cur, Some prev =>
            let pause := sub (start cur) (end_ prev) in
            (if gtb pause lit_0_2
             then assignTo (fun v => set_pauses (pauses v ++ [pause]) v)
             else ret tt) ;;
            assignTo (fun v => set_i (S (i v)) v) ;;
            pauseFor fuel' words
        | _, _ => throw noSuchWord
        end
      else ret tt
  end.

(** The body of [analyzeMetrics]. *)
Definition analyzeMetricsBody (fuel : nat) (words : wordsArg)
    (duration : number) : M State value :=
  if noWords words then
    ret (VObj [ ("wordsPerMinute", VNum zero);
                ("averagePauseDuration", VNum zero);
                ("longestPause", VNum zero);
                ("fillerWordCount", VNum zero);
                ("pacingVariation", VStr "unknown") ])
  else
    let ws := elements words in
    assignTo (set_fillerCount 0) ;;
    assignTo (set_pauses []) ;;
    forEach ws countFiller ;;
    assignTo (set_i 1) ;;
    pauseFor fuel ws ;;
    let wordsPerMinute :=
      Math_round (mul (div (ofNat (List.length ws)) duration) (ofZ 60)) in
    assignTo (set_pacingVariation "steady") ;;
    found <- valueOf pauses ;;
    (if gtb (ofNat (List.length found)) (mul (ofNat (List.length ws)) lit_0_3)
     then assignTo (set_pacingVariation "halting")
     else if ltb (ofNat (List.length found))
                 (mul (ofNat (List.length ws)) lit_0_1)
             && gtb wordsPerMinute (ofZ 150)
     then assignTo (set_pacingVariation "rushed")
     else ret tt) ;;
    v <- valueOf (fun v => v) ;;
    ret (VObj [ ("wordsPerMinute", VNum wordsPerMinute);
                ("averagePauseDuration",
                  if (0 <? List.length (pauses v))%nat
                  then VStr (toFixed 2 (div (sumPauses (pauses v))
                                            (ofNat (List.length (pauses v)))))
                  else VNum zero);
                ("longestPause",
                  if (0 <? List.length (pauses v))%nat
                  then VStr (toFixed 2 (Math_max (pauses v)))
                  else VNum zero);
                ("fillerWordCount", VNum (ofNat (fillerCount v)));
                ("pauseCount", VNum (ofNat (List.length (pauses v))));
                ("pacingVariation", VStr (pacingVariation v)) ]).

(** Two states to call the function in: a first call, and a call after
    others, in a program that has logged and called outside. *)
Definition firstCall : State :=
  mkState (mkVariables 0 [] 0 EmptyString) (Handlers.mkWorld [] []).

Definition laterCall : State :=
  mkState (mkVariables 7 [ofZ 1; ofZ 2] 5 "rushed")
          (Handlers.mkWorld
             [Handlers.mkLog Handlers.ConsoleLog "Metrics:" []]
             [Handlers.ParseForm; Handlers.Transcribe "whisper-1"]).

End MetricsBody.

(* ================================================================== *)
(** * src/sw.js: the daily reminder *)
(* ================================================================== *)

Module ServiceWorker.
Import JSNumber JSString JSValue Effect.

Local Open Scope string_scope.
Local Open Scope effect_scope.

Definition MESSAGES : list string :=
  [ "Time to flex your speaking muscles!";
    "Your voice is waiting to be heard. Let's practice!";
    "A quick speech a day keeps stage fright away!";
    "Ready to build your speaking confidence?";
    "Your daily speaking workout awaits!";
    "Just 2 minutes of practice makes a difference!";
    "Champions practice daily. Your turn!" ].

(** The database: for a store name and a key, the [value] of the record
    stored there, [undefined] when there is none. *)
Definition DB : Type := string -> string -> value.

Definition put (storeName key : string) (v : value) (db : DB) : DB :=
  fun s k => if (s =? storeName) && (k =? key) then v else db s k.

(** A reading of the clock, [new Date()], through the three accessors the
    worker uses: [toDateString()], [getHours()], [getMinutes()]. *)
Record Date : Type := mkDate {
  toDateString : string;
  getHours : Z;
  getMinutes : Z
}.

(** The arguments of [showNotification]. *)
Record Notification : Type := mkNotification {
  title : string;
  body : string;
  icon : string;
  badge : string;
  tag : string;
  vibrate : list Z;
  requireInteraction : bool;
  actions : list (string * string)
}.

(** What the surroundings answer: the clock at its [n]-th reading, whether
    the database request made after [n] others fails, whether the [n]-th
    [showNotification] is refused, the [n]-th random draw (as the index
    it selects). *)
Record Env : Type := mkEnv {
  clock : nat -> Date;
  dbFails : nat -> bool;
  showFails : nat -> bool;
  draw : nat -> nat
}.

(** A request to the database. *)
Inductive DbRequest : Type :=
| Get (storeName key : string)
| Put (storeName key : string).

Record World : Type := mkWorld {
  db : DB;
  shown : list Notification;
  console : list string;
  clockReads : nat;
  dbRequests : list DbRequest;
  showRequests : nat;
  draws : nat
}.

(** The worlds after one more database request, clock reading, write,
    notification shown or refused, console line, random draw. *)
Definition requested (r : DbRequest) (w : World) : World :=
  mkWorld (db w) (shown w) (console w) (clockReads w)
          (dbRequests w ++ [r]) (showRequests w) (draws w).

Definition tick (w : World) : World :=
  mkWorld (db w) (shown w) (console w) (S (clockReads w))
          (dbRequests w) (showRequests w) (draws w).

Definition stored (storeName key : string) (v : value) (w : World) : World :=
  mkWorld (put storeName key v (db w)) (shown w) (console w) (clockReads w)
          (dbRequests w) (showRequests w) (draws w).

Definition displayed (n : Notification) (w : World) : World :=
  mkWorld (db w) (shown w ++ [n]) (console w) (clockReads w)
          (dbRequests w) (S (showRequests w)) (draws w).

Definition refused (w : World) : World :=
  mkWorld (db w) (shown w) (console w) (clockReads w)
          (dbRequests w) (S (showRequests w)) (draws w).

Definition printed (t : string) (w : World) : World :=
  mkWorld (db w) (shown w) (console w ++ [t]) (clockReads w)
          (dbRequests w) (showRequests w) (draws w).

Definition drawn (w : World) : World :=
  mkWorld (db w) (shown w) (console w) (clockReads w)
          (dbRequests w) (showRequests w) (S (draws w)).

(** ToBoolean. *)
Definition toBoolean (v : value) : bool :=
  match v with
  | VUndefined | VNull => false
  | VBool b => b
  | VNum x => truthy x
  | VStr EmptyString => false
  | VStr _ => true
  | VObj _ => true
  end.

(** [o.k = v] on an object; on anything else the assignment is lost. *)
Fixpoint assign (fields : list (string * value)) (k : string) (v : value)
  : list (string * value) :=
  match fields with
  | [] => [(k, v)]
  | (k', v') :: rest =>
      if k =? k' then (k, v) :: rest else (k', v') :: assign rest k v
  end.

Definition set (o : value) (k : string) (v : value) : value :=
  match o with
  | VObj fields => VObj (assign fields k v)
  | _ => o
  end.

(** [s.split(':')] *)
Fixpoint split (s : string) : list string :=
  match s with
  | EmptyString => [EmptyString]
  | String c rest =>
      if Ascii.eqb c ":" then EmptyString :: split rest
      else match split rest with
           | first :: others => String c first :: others
           | [] => [String c EmptyString]
           end
  end.

Section WithEnvironment.
(** The engine's conversion of a string to a number, [Number(s)]. *)
Variable Number : string -> number.
Variable env : Env.

(** ToNumber. *)
Definition toNumber (v : value) : number :=
  match v with
  | VUndefined => NaN
  | VNull => zero
  | VBool true => ofZ 1
  | VBool false => zero
  | VNum x => x
  | VStr s => Number s
  | VObj _ => NaN
  end.

Definition dbError : JsError := mkError None "The database request failed".
Definition typeError : JsError :=
  mkError None "Cannot read properties of undefined (reading 'split')".
Definition notAllowed : JsError :=
  mkError None "No notification permission has been granted".

Definition request (r : DbRequest) : M World bool :=
  fun w =>
    (Resolved (dbFails env (List.length (dbRequests w))), requested r w).

(** [getFromDB(storeName, key)]: [request.result?.value], or the
    request's error. *)
Definition getFromDB (storeName key : string) : M World value :=
  failed <- request (Get storeName key) ;;
  if (failed : bool) then throw dbError
  else fun w => (Resolved (db w storeName key), w).

(** [saveToDB(storeName, key, value)] *)
Definition saveToDB (storeName key : string) (v : value) : M World unit :=
  failed <- request (Put storeName key) ;;
  if (failed : bool) then throw dbError
  else modify (stored storeName key v).

(** [new Date()] *)
Definition newDate : M World Date :=
  fun w => (Resolved (clock env (clockReads w)), tick w).

(** [Math.floor(Math.random() * MESSAGES.length)] *)
Definition randomIndex : M World nat :=
  fun w =>
    (Resolved (draw env (draws w) mod List.length MESSAGES)%nat, drawn w).

(** [self.registration.showNotification(title, options)] *)
Definition showNotification (n : Notification) : M World unit :=
  fun w =>
    if showFails env (showRequests w)
    then (Rejected notAllowed, refused w)
    else (Resolved tt, displayed n w).

Definition consoleError (t : string) : M World unit := modify (printed t).

(** [stats && stats.lastDate === today && stats.todaySpeeches > 0] *)
Definition practicedToday (stats : value) (today : string) : bool :=
  toBoolean stats
  && match get stats "lastDate" with
     | VStr d => d =? today
     | _ => false
     end
  && gtb (toNumber (get stats "todaySpeeches")) zero.

(** [settings.lastNotificationDate === today] *)
Definition sentToday (settings : value) (today : string) : bool :=
  match get settings "lastNotificationDate" with
  | VStr d => d =? today
  | _ => false
  end.

(** [currentHours > targetHours ||
     (currentHours === targetHours && currentMinutes >= targetMinutes)] *)
Definition isPastTime (now : Date) (targetHours targetMinutes : number)
  : bool :=
  let currentHours := ofZ (getHours now) in
  let currentMinutes := ofZ (getMinutes now) in
  gtb currentHours targetHours
  || (eqb currentHours targetHours && geb currentMinutes targetMinutes).

(** [settings.time.split(':').map(Number)], destructured into its first
    two elements; a missing second element compares as [NaN]. *)
Definition target (time : string) : number * number :=
  let parts := map Number (split time) in
  (nth 0 parts NaN, nth 1 parts NaN).

(** The [try] block of [shouldSendNotification]. *)
Definition eligibility : M World bool :=
  settings <- getFromDB "settings" "notifications" ;;
  if negb (toBoolean settings) || negb (toBoolean (get settings "enabled"))
  then ret false
  else
    stats <- getFromDB "stats" "daily" ;;
    date <- newDate ;;
    let today := toDateString date in
    if practicedToday stats today then ret false
    else if sentToday settings today then ret false
    else
      now <- newDate ;;
      match get settings "time" with
      | VStr time =>
          ret (isPastTime now (fst (target time)) (snd (target time)))
      | _ => throw typeError
      end.

Definition shouldSendNotification : M World bool :=
  tryCatch eligibility
    (fun e =>
       consoleError "Error checking notification status:" ;;
       ret false).

Definition reminder (message : string) : Notification :=
  mkNotification "The Speaker's Gym" message "/icon-192.png"
                 "/icon-192.png" "daily-reminder" [200; 100; 200]%Z true
                 [("practice", "Practice Now")].

(** The block under "Mark as sent today". *)
Definition markAsSent : M World unit :=
  tryCatch
    (settings <- getFromDB "settings" "notifications" ;;
     if toBoolean settings then
       date <- newDate ;;
       saveToDB "settings" "notifications"
                (set settings "lastNotificationDate"
                     (VStr (toDateString date)))
     else ret tt)
    (fun e =>
       consoleError "Error updating notification date:" ;;
       ret tt).

Definition sendDailyReminder : M World unit :=
  shouldSend <- shouldSendNotification ;;
  if negb shouldSend then ret tt
  else
    i <- randomIndex ;;
    let message := nth i MESSAGES EmptyString in
    showNotification (reminder message) ;;
    markAsSent.

(** The four conditions of a reminder, on the world a run starts in:
    notifications are enabled in the stored settings; the stored stats
    do not record a practiced speech for today; no reminder was sent
    today; the clock is at or past the scheduled time.  Today is the
    run's first reading of the clock, the time of day its second. *)
Definition eligible (w : World) : Prop :=
  let settings := db w "settings" "notifications" in
  let stats := db w "stats" "daily" in
  let today := toDateString (clock env (clockReads w)) in
  let now := clock env (S (clockReads w)) in
  toBoolean (get settings "enabled") = true
  /\ practicedToday stats today = false
  /\ sentToday settings today = false
  /\ exists time,
       get settings "time" = VStr time
       /\ isPastTime now (fst (target time)) (snd (target time)) = true.

(** Runs of the reminder one after the other, as the sync events and
    the page's requests start them; a run that ends with an error does
    not stop the later ones. *)
Fixpoint runs (n : nat) (w : World) : World :=
  match n with
  | O => w
  | S n' => runs n' (snd (sendDailyReminder w))
  end.

End WithEnvironment.

(** [Number] on the strings of unsigned decimal digits, [NaN] elsewhere;
    enough to run the worker on times such as ["09:30"]. *)
Definition NumberOfDigits (s : string) : number :=
  match digitsValue 0 s with
  | Some z => ofZ z
  | None => NaN
  end.

(** ** Worlds to run the worker in *)

Definition tenOClock : Date := mkDate "Mon Nov 02 2026" 10 0.

(** Notifications enabled for 09:00, none sent yet. *)
Definition enabledSettings : value :=
  VObj [("enabled", VBool true); ("time", VStr "09:00")].

Definition emptyDB : DB := fun _ _ => VUndefined.

Definition startWorld : World :=
  mkWorld (put "settings" "notifications" enabledSettings emptyDB)
          [] [] 0 [] 0 0.

(** It stays ten o'clock on the same day; nothing fails. *)
Definition steadyEnv : Env :=
  mkEnv (fun _ => tenOClock) (fun _ => false) (fun _ => false) (fun n => n).

(** As [steadyEnv], but the fourth database request (the write of the
    first run's marking) fails. *)
Definition flakyEnv : Env :=
  mkEnv (fun _ => tenOClock) (fun n => (n =? 3)%nat) (fun _ => false)
        (fun n => n).

(** As [steadyEnv], but the first database request of all fails. *)
Definition slowStartEnv : Env :=
  mkEnv (fun _ => tenOClock) (fun n => (n =? 0)%nat) (fun _ => false)
        (fun n => n).

(** As [steadyEnv], but showing a notification is refused. *)
Definition deniedEnv : Env :=
  mkEnv (fun _ => tenOClock) (fun _ => false) (fun _ => true) (fun n => n).

(** As [steadyEnv], but every database request fails. *)
Definition brokenEnv : Env :=
  mkEnv (fun _ => tenOClock) (fun _ => true) (fun _ => false) (fun n => n).

End ServiceWorker.

(* ================================================================== *)
(** * src/sw.js: caches, clients, the database schema, the events *)
(* ================================================================== *)

Module Worker.
Import JSNumber JSString JSValue Effect ServiceWorker.

Local Open Scope string_scope.
Local Open Scope effect_scope.

Definition CACHE_NAME : string := "speakers-gym-v2".

Definition ASSETS : list string :=
  [ "/"; "/index.html"; "/manifest.json"; "/icon-192.png"; "/icon-512.png" ].

(** ** The cache storage

    A cache maps request URLs to responses; the storage is the list of the
    named caches, in the order of their creation. *)
Definition Response : Type := string.
Definition Cache : Type := list (string * Response).
Definition CacheStorage : Type := list (string * Cache).

(** [caches.keys()] *)
Definition cacheKeys (storage : CacheStorage) : list string := map fst storage.

(** [caches.delete(key)] *)
Definition cacheDelete (key : string) (storage : CacheStorage) : CacheStorage :=
  filter (fun c => negb (fst c =? key)) storage.

(** The cache of that name, if there is one. *)
Fixpoint cacheNamed (name : string) (storage : CacheStorage) : option Cache :=
  match storage with
  | [] => None
  | (n, c) :: rest => if n =? name then Some c else cacheNamed name rest
  end.

(** [cache.match(url)] *)
Fixpoint cacheMatch (url : string) (cache : Cache) : option Response :=
  match cache with
  | [] => None
  | (u, r) :: rest => if u =? url then Some r else cacheMatch url rest
  end.

(** [cache.put(url, response)]: an entry for the same URL is replaced. *)
Fixpoint cachePut (url : string) (r : Response) (cache : Cache) : Cache :=
  match cache with
  | [] => [(url, r)]
  | (u, r') :: rest =>
      if u =? url then (url, r) :: rest else (u, r') :: cachePut url r rest
  end.

(** [caches.match(request)]: the first cache that has the URL answers. *)
Fixpoint cachesMatch (url : string) (storage : CacheStorage) : option Response :=
  match storage with
  | [] => None
  | (_, c) :: rest =>
      match cacheMatch url c with
      | Some r => Some r
      | None => cachesMatch url rest
      end
  end.

(** The cache called [name] replaced by [cache], or added last when the
    storage has none of that name (as [caches.open] creates it). *)
Fixpoint cacheStore (name : string) (cache : Cache) (storage : CacheStorage)
  : CacheStorage :=
  match storage with
  | [] => [(name, cache)]
  | (n, c) :: rest =>
      if n =? name then (name, cache) :: rest
      else (n, c) :: cacheStore name cache rest
  end.

(** The network: the response to a GET of a URL, [None] when the request
    fails or the response is not ok. *)
Definition Network : Type := string -> option Response.

(** The responses to all the URLs, if every one of them is fetched. *)
Fixpoint fetchAll (network : Network) (urls : list string)
  : option (list (string * Response)) :=
  match urls with
  | [] => Some []
  | u :: rest =>
      match network u, fetchAll network rest with
      | Some r, Some rs => Some ((u, r) :: rs)
      | _, _ => None
      end
  end.

(** The [install] listener:
    [caches.open(CACHE_NAME).then(cache => cache.addAll(ASSETS))].  The
    assets are requested at the worker's origin; [addAll] stores all the
    responses or, when one request fails, none.  The result tells whether
    the installation succeeded. *)
Definition install (origin : string) (network : Network)
    (storage : CacheStorage) : bool * CacheStorage :=
  let cache :=
    match cacheNamed CACHE_NAME storage with Some c => c | None => [] end in
  let opened := cacheStore CACHE_NAME cache storage in
  match fetchAll network (map (append origin) ASSETS) with
  | Some responses =>
      (true,
       cacheStore CACHE_NAME
         (fold_left (fun c ur => cachePut (fst ur) (snd ur) c) responses cache)
         opened)
  | None => (false, opened)
  end.

(** The [activate] listener: every cache whose key is not [CACHE_NAME] is
    deleted. *)
Definition activate (storage : CacheStorage) : CacheStorage :=
  fold_left (fun s key => cacheDelete key s)
            (filter (fun key => negb (key =? CACHE_NAME)) (cacheKeys storage))
            storage.

Record FetchRequest : Type := mkFetch {
  fetch_method : string;
  fetch_url : string
}.

(** What the [fetch] listener does with a request: nothing (the browser
    handles it), or [respondWith] the cached response, or with the
    network's when no cache has one. *)
Inductive Served : Type :=
| NotIntercepted
| FromCache (r : Response)
| FromNetwork (r : option Response).

Definition onFetch (storage : CacheStorage) (network : Network)
    (request : FetchRequest) : Served :=
  if negb (fetch_method request =? "GET")
     || Handlers.contains "/api/" (fetch_url request)
  then NotIntercepted
  else match cachesMatch (fetch_url request) storage with
       | Some r => FromCache r
       | None => FromNetwork (network (fetch_url request))
       end.

(** ** Notification clicks *)

(** A window client: its URL and whether it has a [focus] method. *)
Record Client : Type := mkClient {
  client_url : string;
  can_focus : bool
}.

Inductive ClickAction : Type :=
| Focus (c : Client)
| OpenWindow (url : string)
| NoAction.

(** The loop over [clientList]. *)
Fixpoint firstFocusable (origin : string) (clientList : list Client)
  : option Client :=
  match clientList with
  | [] => None
  | client :: rest =>
      if Handlers.contains origin (client_url client) && can_focus client
      then Some client
      else firstFocusable origin rest
  end.

(** The [notificationclick] listener, after [event.notification.close()];
    [canOpen] tells whether [clients.openWindow] exists. *)
Definition onNotificationClick (origin : string) (canOpen : bool)
    (clientList : list Client) : ClickAction :=
  match firstFocusable origin clientList with
  | Some client => Focus client
  | None => if canOpen then OpenWindow "/" else NoAction
  end.

(** ** The database schema *)

(** [request.onupgradeneeded]: the object stores ['settings'] and ['stats']
    are created when the database does not have them. *)
Definition createIfMissing (name : string) (objectStoreNames : list string)
  : list string :=
  if existsb (String.eqb name) objectStoreNames
  then objectStoreNames
  else objectStoreNames ++ [name].

Definition onUpgradeNeeded (objectStoreNames : list string) : list string :=
  createIfMissing "stats" (createIfMissing "settings" objectStoreNames).

(** ** The events that start a reminder *)






Section WithEnvironment.
Variable Number : string -> number.
Variable env : Env.




End WithEnvironment.



(** A string without a colon. *)
Fixpoint colonFree (s : string) : bool :=
  match s with
  | EmptyString => true
  | String c rest => negb (Ascii.eqb c ":") && colonFree rest
  end.

(** Notifications enabled, but no [time] stored. *)
Definition untimedWorld : World :=
  mkWorld (put "settings" "notifications"
               (VObj [("enabled", VBool true)]) emptyDB)
          [] [] 0 [] 0 0.


End Worker.

(* ================================================================== *)
(** * src/api/feedback.js: the pace label of the prompt *)
(* ================================================================== *)

Module Prompt.
Import JSNumber JSString JSValue.

Local Open Scope string_scope.

(** The label the audio handler writes after the pace:
    [wordsPerMinute < 120 ? 'slow' : wordsPerMinute > 160 ? 'fast'
                                                          : 'moderate'] *)
Definition paceLabel (wordsPerMinute : number) : string :=
  if ltb wordsPerMinute (ofZ 120) then "slow"
  else if gtb wordsPerMinute (ofZ 160) then "fast"
  else "moderate".

(** The label by the thresholds on an integer pace. *)
Definition labelOf (z : Z) : string :=
  if (z <? 120)%Z then "slow" else if (160 <? z)%Z then "fast" else "moderate".

(** A number of the sign [s] that is not [NaN]. *)
Definition signed (s : bool) (x : number) : Prop :=
  match x with
  | S754_zero s' | S754_infinity s' | S754_finite s' _ _ => s' = s
  | S754_nan => False
  end.

End Prompt.

(* ================================================================== *)
(** * src/api/feedback.js: parseMultipartForm *)
(* ================================================================== *)

Module Multipart.
Import JSNumber JSString JSValue Effect Handlers.

Local Open Scope string_scope.

(** The request body is read as a binary string: one code unit below 256
    for each byte. *)

Definition quote : ascii := "034"%char.
Definition CR : ascii := "013"%char.
Definition LF : ascii := "010"%char.
Definition CRLF : string := String CR (String LF EmptyString).

(** [s.indexOf(needle)], [None] for the result [-1]. *)
Fixpoint indexOf (needle s : string) : option nat :=
  if prefix needle s then Some 0%nat
  else match s with
       | EmptyString => None
       | String _ rest => option_map S (indexOf needle rest)
       end.

(** [s.lastIndexOf(needle)], [None] for the result [-1]. *)
Fixpoint lastIndexOf (needle s : string) : option nat :=
  match s with
  | EmptyString => if prefix needle s then Some 0%nat else None
  | String _ rest =>
      match lastIndexOf needle rest with
      | Some i => Some (S i)
      | None => if prefix needle s then Some 0%nat else None
      end
  end.

(** [s.substring(start, finish)]: both indices are clamped to the string
    and exchanged when the first is the larger one. *)
Definition substringJS (s : string) (start finish : Z) : string :=
  let len := Z.of_nat (String.length s) in
  let a := Z.min (Z.max start 0) len in
  let b := Z.min (Z.max finish 0) len in
  substring (Z.to_nat (Z.min a b)) (Z.to_nat (Z.max a b - Z.min a b)) s.

(** [s.split(sep)] for a separator that is not empty: the pieces between
    the occurrences of [sep], found from the left, none overlapping the
    one before it.  [skip] counts the characters of a found occurrence
    that are still to be passed. *)
Fixpoint splitFrom (sep : string) (skip : nat) (s : string) : list string :=
  match s with
  | EmptyString => [EmptyString]
  | String c rest =>
      match skip with
      | S k => splitFrom sep k rest
      | O =>
          if prefix sep s
          then EmptyString :: splitFrom sep (String.length sep - 1) rest
          else match splitFrom sep 0 rest with
               | first :: others => String c first :: others
               | [] => [String c EmptyString]
               end
      end
  end.

Definition splitOn (sep s : string) : list string := splitFrom sep 0 s.

(** [req.headers['content-type']?.split('boundary=')[1]], when it is not
    [undefined] and not empty. *)
Definition boundaryOf (contentType : option string) : option string :=
  match contentType with
  | None => None
  | Some ct =>
      match nth_error (splitOn "boundary=" ct) 1 with
      | Some (String c rest) => Some (String c rest)
      | _ => None
      end
  end.

(** The characters before the first quote of [s], if it has one. *)
Fixpoint untilQuote (s : string) : option string :=
  match s with
  | EmptyString => None
  | String c rest =>
      if Ascii.eqb c quote then Some EmptyString
      else option_map (String c) (untilQuote rest)
  end.

(** [s] without its prefix [p]. *)
Fixpoint afterPrefix (p s : string) : option string :=
  match p, s with
  | EmptyString, _ => Some s
  | String a p', String b s' =>
      if Ascii.eqb a b then afterPrefix p' s' else None
  | _, _ => None
  end.

(** A match of [opening([^"]+)"] at the head of [s]: its group. *)
Definition matchHere (opening s : string) : option string :=
  match afterPrefix opening s with
  | Some tail =>
      match untilQuote tail with
      | Some (String c run) => Some (String c run)
      | _ => None
      end
  | None => None
  end.

(** The group of the leftmost match of [opening([^"]+)"] in [s]. *)
Fixpoint matchQuoted (opening s : string) : option string :=
  match matchHere opening s with
  | Some group => Some group
  | None =>
      match s with
      | EmptyString => None
      | String _ rest => matchQuoted opening rest
      end
  end.

(** [part.match(/name="([^"]+)"/)] and [part.match(/filename="([^"]+)"/)] *)
Definition nameMatch (part : string) : option string :=
  matchQuoted ("name=" ++ String quote EmptyString) part.

Definition filenameMatch (part : string) : option string :=
  matchQuoted ("filename=" ++ String quote EmptyString) part.

(** An uploaded file: [filename] and [data] (the bytes of the content). *)
Record File : Type := mkFile {
  file_name : string;
  data : string
}.

(** [result]: the own properties of [fields] and of [files]. *)
Record Parsed : Type := mkParsed {
  fields : list (string * string);
  files : list (string * File)
}.

Fixpoint setOwn {A : Type} (k : string) (v : A) (o : list (string * A))
  : list (string * A) :=
  match o with
  | [] => [(k, v)]
  | (k', v') :: rest =>
      if k =? k' then (k, v) :: rest else (k', v') :: setOwn k v rest
  end.

(** [o[k] = v] on an object literal: an assignment to ['__proto__']
    makes no own property. *)
Definition assignProperty {A : Type} (k : string) (v : A)
    (o : list (string * A)) : list (string * A) :=
  if k =? "__proto__" then o else setOwn k v o.

Fixpoint own {A : Type} (k : string) (o : list (string * A)) : option A :=
  match o with
  | [] => None
  | (k', v) :: rest => if k =? k' then Some v else own k rest
  end.

(** The body of the loop over the parts. *)
Definition parsePart (result : Parsed) (part : string) : Parsed :=
  if contains "Content-Disposition" part then
    match nameMatch part with
    | Some name =>
        let contentStart :=
          match indexOf (CRLF ++ CRLF) part with
          | Some i => (Z.of_nat i + 4)%Z
          | None => 3%Z
          end in
        let contentEnd :=
          match lastIndexOf CRLF part with
          | Some i => Z.of_nat i
          | None => (-1)%Z
          end in
        let content := substringJS part contentStart contentEnd in
        match filenameMatch part with
        | Some filename =>
            mkParsed (fields result)
                     (assignProperty name (mkFile filename content)
                                     (files result))
        | None =>
            mkParsed (assignProperty name content (fields result))
                     (files result)
        end
    | None => result
    end
  else result.

(** What the loop stores a part as: nothing, or a field ([false]) or a
    file ([true]) under a name; and the content it stores. *)
Definition partKey (part : string) : option (bool * string) :=
  if contains "Content-Disposition" part then
    match nameMatch part with
    | Some name =>
        Some (match filenameMatch part with
              | Some _ => true
              | None => false
              end, name)
    | None => None
    end
  else None.

Definition partContent (part : string) : string :=
  substringJS part
    (match indexOf (CRLF ++ CRLF) part with
     | Some i => (Z.of_nat i + 4)%Z
     | None => 3%Z
     end)
    (match lastIndexOf CRLF part with
     | Some i => Z.of_nat i
     | None => (-1)%Z
     end).

(** [`--${boundary}`] *)
Definition delimiter (boundary : string) : string := "--" ++ boundary.

(** [parseMultipartForm(req)] once the body has arrived: the promise is
    rejected when there is no boundary and resolved with [result]
    otherwise.  (A stream that fails before its end rejects it as well;
    that is an answer of the surroundings.) *)
Definition parseMultipartForm (contentType : option string) (body : string)
  : outcome Parsed :=
  match boundaryOf contentType with
  | None => Rejected (mkError None "No boundary found")
  | Some boundary =>
      Resolved (fold_left parsePart (splitOn (delimiter boundary) body)
                          (mkParsed [] []))
  end.

(** What the handler reads of the result: [fields.duration] and
    [files.audio], with [audioFile.data.length]. *)
Definition formOf (result : Parsed) : Form :=
  mkForm (own "duration" (fields result))
         (option_map (fun f => mkAudio (file_name f) (String.length (data f)))
                     (own "audio" (files result))).

(** The surroundings of a handler run in which the form is parsed from
    the body that arrived. *)
Definition uploadEnv (req : Request) (body : string)
    (transcription : outcome Transcription)
    (completion : outcome (option string)) (key : bool) : Env :=
  mkEnv (match parseMultipartForm (content_type req) body with
         | Resolved result => Resolved (formOf result)
         | Rejected e => Rejected e
         end)
        transcription completion key.

(** ** A well-formed upload *)

Definition q : string := String quote EmptyString.

(** A part with a field, and a part with a file: the headers, an empty
    line, the content and the line break before the next delimiter. *)
Definition fieldHead (name : string) : string :=
  CRLF ++ "Content-Disposition: form-data; name=" ++ q ++ name ++ q
  ++ CRLF ++ CRLF.

Definition fieldPart (name value : string) : string :=
  fieldHead name ++ value ++ CRLF.

Definition fileHead (name filename type : string) : string :=
  CRLF ++ "Content-Disposition: form-data; name=" ++ q ++ name ++ q
  ++ "; filename=" ++ q ++ filename ++ q
  ++ CRLF ++ "Content-Type: " ++ type ++ CRLF ++ CRLF.

Definition filePart (name filename type content : string) : string :=
  fileHead name filename type ++ content ++ CRLF.

(** The body of an upload of a recording with its duration. *)
Definition upload (boundary duration filename content : string) : string :=
  delimiter boundary ++ fieldPart "duration" duration
  ++ delimiter boundary ++ filePart "audio" filename "audio/webm" content
  ++ delimiter boundary ++ "--" ++ CRLF.

(** No character of [s] is [c]. *)
Fixpoint without (c : ascii) (s : string) : bool :=
  match s with
  | EmptyString => true
  | String c' rest => negb (Ascii.eqb c' c) && without c rest
  end.

(** [needle] is not a prefix of [s], whatever follows [s]. *)
Fixpoint clash (needle s : string) : bool :=
  match needle, s with
  | String a needle', String b s' =>
      if Ascii.eqb a b then clash needle' s' else true
  | _, _ => false
  end.

(** [needle] starts at no position of [h], whatever follows [h]. *)
Fixpoint clashes (needle h : string) : bool :=
  match h with
  | EmptyString => true
  | String _ rest => clash needle h && clashes needle rest
  end.

(** [sep] occurs in [part ++ sep] at the end only. *)
Definition endsPart (sep part : string) : bool :=
  match indexOf sep (part ++ sep) with
  | Some i => (i =? String.length part)%nat
  | None => false
  end.

(** The upload is well formed for the parser: the boundary is not empty
    and is all that follows [boundary=] in the content type; the
    delimiter occurs in neither part, nor in the closing dashes; the
    duration holds no quote; the file name is not empty and holds
    neither a quote nor a carriage return. *)
Definition wellFormedUpload (boundary duration filename content : string)
  : bool :=
  negb (boundary =? EmptyString)
  && negb (contains "boundary=" boundary)
  && endsPart (delimiter boundary) (fieldPart "duration" duration)
  && endsPart (delimiter boundary)
              (filePart "audio" filename "audio/webm" content)
  && negb (contains (delimiter boundary) ("--" ++ CRLF))
  && without quote duration
  && negb (filename =? EmptyString)
  && without quote filename
  && without CR filename.

(** A file part that gives the file name before the name. *)
Definition reversedPart (filename : string) : string :=
  (CRLF ++ "Content-Disposition: form-data; ")
  ++ "filename=" ++ q ++ filename ++ q
  ++ "; name=" ++ q ++ "audio" ++ q ++ CRLF ++ CRLF ++ "RIFF-data" ++ CRLF.

(** An upload that gives the duration twice. *)
Definition repeatedUpload : string :=
  delimiter "XYZ" ++ fieldPart "duration" "12"
  ++ delimiter "XYZ" ++ fieldPart "duration" "30"
  ++ delimiter "XYZ" ++ "--" ++ CRLF.

Definition sampleUpload : string :=
  upload "XYZ" "12" "speech.webm" "RIFF-data".

Definition uploadRequest : Request :=
  mkRequest "POST" (Some "multipart/form-data; boundary=XYZ") VUndefined.

Definition unboundedRequest : Request :=
  mkRequest "POST" (Some "multipart/form-data") VUndefined.

End Multipart.

(* ================================================================== *)
(** * Properties of numbers *)
(* ================================================================== *)

Module JSNumberFacts.
Import JSNumber.

Local Open Scope Z_scope.

Lemma compare_antisym (x y : number) (c : comparison) :
  SFcompare x y = Some c -> SFcompare y x = Some (CompOpp c).
Proof.
  destruct x as [sx|sx| |sx mx ex], y as [sy|sy| |sy my ey];
    try destruct sx; try destruct sy; simpl;
    intros H; try discriminate; inversion H; subst; clear H;
    try reflexivity;
    rewrite (Z.compare_antisym ex ey);
    destruct (ex ?= ey); simpl; try reflexivity;
    change (PosDef.Pos.compare_cont Eq my mx) with (Pos.compare my mx);
    change (PosDef.Pos.compare_cont Eq mx my) with (Pos.compare mx my);
    rewrite (Pos.compare_antisym mx my);
    destruct (Pos.compare mx my); reflexivity.
Qed.

Lemma compare_defined (x y : number) :
  isNaN x = false -> isNaN y = false -> exists c, SFcompare x y = Some c.
Proof.
  destruct x as [sx|sx| |sx mx ex], y as [sy|sy| |sy my ey];
    simpl; intros Hx Hy; try discriminate; eexists; reflexivity.
Qed.

Lemma ltb_not_nan (x y : number) :
  ltb x y = true -> isNaN x = false /\ isNaN y = false.
Proof.
  unfold ltb, SFltb.
  destruct x as [sx|sx| |sx mx ex], y as [sy|sy| |sy my ey];
    simpl; intros H; try discriminate; split; reflexivity.
Qed.

Lemma leb_refl (x : number) : isNaN x = false -> leb x x = true.
Proof.
  unfold leb, SFleb.
  destruct x as [s|s| |s m e]; simpl; intros H; try discriminate;
    try destruct s; try reflexivity;
    rewrite Z.compare_refl;
    change (PosDef.Pos.compare_cont Eq m m) with (Pos.compare m m);
    rewrite Pos.compare_refl; reflexivity.
Qed.

(** When [x > y] is false on two numbers that are not [NaN], [x <= y]. *)
Lemma not_gtb_leb (x y : number) :
  isNaN x = false -> isNaN y = false -> gtb x y = false -> leb x y = true.
Proof.
  intros Hx Hy H. unfold gtb, SFltb in H. unfold leb, SFleb.
  destruct (compare_defined y x Hy Hx) as [c Hc].
  rewrite Hc in H. rewrite (compare_antisym y x c Hc).
  destruct c; simpl; try reflexivity; discriminate.
Qed.

Lemma gtb_leb (x y : number) : gtb x y = true -> leb y x = true.
Proof.
  unfold gtb, leb, SFltb, SFleb.
  destruct (SFcompare y x) as [[ | | ]|]; intros H; try discriminate;
    reflexivity.
Qed.

Lemma lex_spec e1 m1 e2 m2 :
  match lex e1 m1 e2 m2 with
  | Lt => e1 < e2 \/ (e1 = e2 /\ (m1 < m2)%positive)
  | Eq => e1 = e2 /\ m1 = m2
  | Gt => e2 < e1 \/ (e1 = e2 /\ (m2 < m1)%positive)
  end.
Proof.
  unfold lex. destruct (Z.compare_spec e1 e2) as [He|He|He].
  - change (Pos.compare_cont Eq m1 m2) with (Pos.compare m1 m2).
    destruct (Pos.compare_spec m1 m2); auto.
  - auto.
  - auto.
Qed.

Lemma lex_le_trans e1 m1 e2 m2 e3 m3 :
  lex e1 m1 e2 m2 <> Gt -> lex e2 m2 e3 m3 <> Gt -> lex e1 m1 e3 m3 <> Gt.
Proof.
  intros H12 H23 H13.
  pose proof (lex_spec e1 m1 e2 m2) as S12.
  pose proof (lex_spec e2 m2 e3 m3) as S23.
  pose proof (lex_spec e1 m1 e3 m3) as S13.
  rewrite H13 in S13.
  destruct (lex e1 m1 e2 m2); try congruence;
    destruct (lex e2 m2 e3 m3); try congruence; lia.
Qed.

Lemma lex_ge_trans e1 m1 e2 m2 e3 m3 :
  lex e1 m1 e2 m2 <> Lt -> lex e2 m2 e3 m3 <> Lt -> lex e1 m1 e3 m3 <> Lt.
Proof.
  intros H12 H23 H13.
  pose proof (lex_spec e1 m1 e2 m2) as S12.
  pose proof (lex_spec e2 m2 e3 m3) as S23.
  pose proof (lex_spec e1 m1 e3 m3) as S13.
  rewrite H13 in S13.
  destruct (lex e1 m1 e2 m2); try congruence;
    destruct (lex e2 m2 e3 m3); try congruence; lia.
Qed.

Lemma leb_trans (x y z : number) :
  leb x y = true -> leb y z = true -> leb x z = true.
Proof.
  unfold leb, SFleb.
  destruct x as [sx|sx| |sx mx ex], y as [sy|sy| |sy my ey],
           z as [sz|sz| |sz mz ez];
    try destruct sx; try destruct sy; try destruct sz; simpl;
    intros H1 H2; try discriminate; try reflexivity.
  - (* three negative finite numbers *)
    assert (E : forall e1 m1 e2 m2,
               match e1 ?= e2 with
               | Eq => CompOpp (PosDef.Pos.compare_cont Eq m1 m2)
               | Lt => Gt
               | Gt => Lt
               end = CompOpp (lex e1 m1 e2 m2))
      by (intros e1 m1 e2 m2; unfold lex; destruct (e1 ?= e2); reflexivity).
    rewrite E in H1, H2 |- *.
    pose proof (lex_ge_trans ex mx ey my ez mz) as T.
    destruct (lex ex mx ey my); try discriminate;
      destruct (lex ey my ez mz); try discriminate;
      destruct (lex ex mx ez mz); simpl; try reflexivity;
      exfalso; apply T; congruence.
  - (* three positive finite numbers *)
    change (match lex ex mx ey my with Gt => false | _ => true end = true)
      in H1.
    change (match lex ey my ez mz with Gt => false | _ => true end = true)
      in H2.
    change (match lex ex mx ez mz with Gt => false | _ => true end = true).
    pose proof (lex_le_trans ex mx ey my ez mz) as T.
    destruct (lex ex mx ey my); try discriminate;
      destruct (lex ey my ez mz); try discriminate;
      destruct (lex ex mx ez mz); simpl; try reflexivity;
      exfalso; apply T; congruence.
Qed.

Lemma leb_neg_infinity (x : number) :
  leb x (S754_infinity true) = true -> x = S754_infinity true.
Proof.
  unfold leb, SFleb.
  destruct x as [s|s| |s m e]; try destruct s; simpl; intros H;
    try discriminate; reflexivity.
Qed.

Lemma max_step_spec (h x : number) :
  isNaN h = false -> isNaN x = false ->
  (max_step h x = h \/ max_step h x = x)
  /\ leb h (max_step h x) = true /\ leb x (max_step h x) = true.
Proof.
  intros Hh Hx.
  assert (G : (if gtb x h then x else h) = h
              \/ (if gtb x h then x else h) = x).
  { destruct (gtb x h); auto. }
  assert (L : leb h (if gtb x h then x else h) = true
              /\ leb x (if gtb x h then x else h) = true).
  { destruct (gtb x h) eqn:E.
    - split; [apply gtb_leb; exact E | apply leb_refl; exact Hx].
    - split; [apply leb_refl; exact Hh | apply not_gtb_leb; assumption]. }
  unfold max_step.
  destruct x as [[|]|sx| |sx mx ex]; try (split; [exact G | exact L]);
    destruct h as [[|]|sh| |sh mh eh]; try (split; [exact G | exact L]).
  split; [right; reflexivity | split; reflexivity].
Qed.

Lemma max_from_cons (h x : number) (rest : list number) :
  isNaN x = false ->
  max_from h (x :: rest) = max_from (max_step h x) rest.
Proof. destruct x; simpl; intros H; try discriminate; reflexivity. Qed.

Lemma max_from_spec (xs : list number) :
  forall h, isNaN h = false ->
  Forall (fun x => isNaN x = false) xs ->
  (max_from h xs = h \/ In (max_from h xs) xs)
  /\ leb h (max_from h xs) = true
  /\ (forall x, In x xs -> leb x (max_from h xs) = true).
Proof.
  induction xs as [|x rest IH]; intros h Hh Hxs.
  - simpl. split; [left; reflexivity|].
    split; [apply leb_refl; exact Hh | intros x []].
  - inversion Hxs as [|x' rest' Hx Hrest]; subst.
    rewrite (max_from_cons h x rest Hx).
    destruct (max_step_spec h x Hh Hx) as [Hsel [Hle1 Hle2]].
    assert (Hh' : isNaN (max_step h x) = false)
      by (destruct Hsel as [E|E]; rewrite E; assumption).
    destruct (IH (max_step h x) Hh' Hrest) as [Hin [Hle Hall]].
    split; [|split].
    + destruct Hin as [E|Hin].
      * rewrite E. destruct Hsel as [E'|E']; rewrite E';
          [left; reflexivity | right; left; reflexivity].
      * right; right; exact Hin.
    + apply (leb_trans _ _ _ Hle1 Hle).
    + intros y [Hy|Hy].
      * subst y. apply (leb_trans _ _ _ Hle2 Hle).
      * apply Hall; exact Hy.
Qed.

(** [Math.max] of a non-empty list without [NaN] is one of its elements
    and is at least each of them. *)
Lemma Math_max_maximum (xs : list number) :
  xs <> [] -> Forall (fun x => isNaN x = false) xs ->
  In (Math_max xs) xs /\ forall x, In x xs -> leb x (Math_max xs) = true.
Proof.
  intros Hne Hxs. unfold Math_max.
  destruct (max_from_spec xs (S754_infinity true) eq_refl Hxs)
    as [Hin [_ Hall]].
  split; [|exact Hall].
  destruct Hin as [E|Hin]; [|exact Hin].
  destruct xs as [|x rest]; [contradiction Hne; reflexivity|].
  pose proof (Hall x (or_introl eq_refl)) as Hx.
  rewrite E in Hx |- *. apply leb_neg_infinity in Hx.
  left; exact Hx.
Qed.

(** ** The literals and the renderings *)

Example literal_0_2 : lit_0_2 = div (ofZ 2) (ofZ 10).
Proof. vm_compute. reflexivity. Qed.

Example literal_0_3 : lit_0_3 = div (ofZ 3) (ofZ 10).
Proof. vm_compute. reflexivity. Qed.

Example literal_0_1 : lit_0_1 = div (ofZ 1) (ofZ 10).
Proof. vm_compute. reflexivity. Qed.

(** 0.1 + 0.2 is not 0.3. *)
Example sum_of_tenths : eqb (add lit_0_1 lit_0_2) lit_0_3 = false.
Proof. vm_compute. reflexivity. Qed.

(** [(1.005).toFixed(2)] is ["1.00"]: the double below 1.005 is rendered,
    not the decimal. *)
Example toFixed_1_005 :
  toFixed 2 (div (ofZ 1005) (ofZ 1000)) = "1.00"%string.
Proof. vm_compute. reflexivity. Qed.

Example toFixed_third : toFixed 2 (div (ofZ 1) (ofZ 3)) = "0.33"%string.
Proof. vm_compute. reflexivity. Qed.

Example toFixed_small_negative :
  toFixed 2 (div (ofZ (-1)) (ofZ 1000)) = "-0.00"%string.
Proof. vm_compute. reflexivity. Qed.

Example toFixed_large :
  toFixed 2 (ofZ (2 ^ 70)) = "1.1805916207174113e+21"%string.
Proof. vm_compute. reflexivity. Qed.

Example round_ties_upwards :
  Math_round (div (ofZ 5) (ofZ 2)) = ofZ 3
  /\ Math_round (div (ofZ (-5)) (ofZ 2)) = ofZ (-2)
  /\ Math_round (div (ofZ (-1)) (ofZ 2)) = S754_zero true.
Proof. repeat split; vm_compute; reflexivity. Qed.

Lemma length_append (s t : string) :
  String.length (s ++ t) = (String.length s + String.length t)%nat.
Proof.
  induction s as [|c s IH]; simpl; [reflexivity | rewrite IH; reflexivity].
Qed.

Lemma length_zeros (n : nat) : String.length (zeros n) = n.
Proof. induction n; simpl; congruence. Qed.

Lemma length_substring (s : string) :
  forall i n, (i + n <= String.length s)%nat ->
              String.length (substring i n s) = n.
Proof.
  induction s as [|c s IH]; intros i n H; simpl in H.
  - assert (i = 0 /\ n = 0)%nat as [-> ->] by lia. reflexivity.
  - destruct i as [|i]; simpl.
    + destruct n as [|n]; simpl; [reflexivity|].
      rewrite IH by lia. reflexivity.
    + apply IH. lia.
Qed.

Lemma allDigits_append (s t : string) :
  allDigits s = true -> allDigits t = true -> allDigits (s ++ t) = true.
Proof.
  induction s as [|c s IH]; simpl; intros Hs Ht; [exact Ht|].
  apply andb_true_iff in Hs. destruct Hs as [Hc Hs].
  rewrite Hc, (IH Hs Ht). reflexivity.
Qed.

Lemma allDigits_zeros (n : nat) : allDigits (zeros n) = true.
Proof. induction n; simpl; [reflexivity | exact IHn]. Qed.

Lemma allDigits_substring (s : string) :
  allDigits s = true -> forall i n, allDigits (substring i n s) = true.
Proof.
  induction s as [|c s IH]; intros H i n.
  - destruct i, n; reflexivity.
  - simpl in H. apply andb_true_iff in H. destruct H as [Hc Hs].
    destruct i as [|i]; simpl.
    + destruct n as [|n]; simpl; [reflexivity|].
      rewrite Hc, (IH Hs). reflexivity.
    + apply IH. exact Hs.
Qed.

Lemma allDigits_digits (n : Z) : allDigits (digits n) = true.
Proof.
  unfold digits. generalize (N.to_uint (Z.to_N n)). intros d.
  assert (H : allDigits (NilEmpty.string_of_uint d) = true)
    by (induction d; simpl; try reflexivity; assumption).
  destruct d; try reflexivity; exact H.
Qed.

Lemma fixed_digits_two (n : Z) :
  exists a b,
    fixed_digits 2 n = (a ++ "." ++ b)%string
    /\ (1 <= String.length a)%nat /\ allDigits a = true
    /\ String.length b = 2%nat /\ allDigits b = true.
Proof.
  unfold fixed_digits.
  set (m1 := if (String.length (digits n) <=? 2)%nat
             then (zeros (2 + 1 - String.length (digits n)) ++ digits n)%string
             else digits n).
  assert (Hlen : (3 <= String.length m1)%nat).
  { subst m1. destruct (String.length (digits n) <=? 2)%nat eqn:E.
    - apply Nat.leb_le in E. rewrite length_append, length_zeros. lia.
    - apply Nat.leb_gt in E. lia. }
  assert (Hdig : allDigits m1 = true).
  { subst m1. destruct (String.length (digits n) <=? 2)%nat.
    - apply allDigits_append; [apply allDigits_zeros | apply allDigits_digits].
    - apply allDigits_digits. }
  exists (substring 0 (String.length m1 - 2) m1),
         (substring (String.length m1 - 2) 2 m1).
  split; [reflexivity|].
  split; [rewrite length_substring by lia; lia|].
  split; [apply allDigits_substring; exact Hdig|].
  split; [apply length_substring; lia|].
  apply allDigits_substring; exact Hdig.
Qed.

(** [toFixed(2)] writes two decimal places for every finite number below
    10^21 (beyond, it writes the number as [toString] does). *)
Lemma toFixed_two_decimals (x : number) :
  fixedRange x = true -> twoDecimals (toFixed 2 x).
Proof.
  unfold twoDecimals, fixedRange, toFixed.
  destruct x as [s|s| |s m e]; intros H; try discriminate.
  - destruct (fixed_digits_two 0) as [a [b [E R]]].
    exists EmptyString, a, b.
    split; [exact E|]. split; [left; reflexivity | exact R].
  - apply negb_true_iff in H. rewrite H.
    destruct (fixed_digits_two (round_half_up (Zpos m * 10 ^ Z.of_nat 2) e))
      as [a [b [E R]]].
    exists (if s then "-"%string else EmptyString), a, b.
    split; [rewrite E; reflexivity|].
    split; [destruct s; [right|left]; reflexivity | exact R].
Qed.

(** ** Integers as numbers *)

Lemma digits2_pos_iter (p k : positive) :
  digits2_pos (Pos.iter xO p k) = (digits2_pos p + k)%positive.
Proof.
  induction k using Pos.peano_ind.
  - simpl. lia.
  - rewrite Pos.iter_succ. simpl. rewrite IHk. lia.
Qed.

Lemma value_iter (p k : positive) :
  Zpos (Pos.iter xO p k) = Zpos p * 2 ^ Zpos k.
Proof.
  induction k using Pos.peano_ind.
  - simpl. lia.
  - rewrite Pos.iter_succ, Pos2Z.inj_succ, Z.pow_succ_r by lia.
    rewrite Pos2Z.inj_xO, IHk. lia.
Qed.

Lemma digits2_pos_lower (p : positive) :
  2 ^ (Zpos (digits2_pos p) - 1) <= Zpos p.
Proof.
  induction p as [q IH|q IH|]; simpl digits2_pos.
  - rewrite Pos2Z.inj_succ.
    replace (Z.succ (Zpos (digits2_pos q)) - 1)
      with (Z.succ (Zpos (digits2_pos q) - 1)) by lia.
    rewrite Z.pow_succ_r by lia. lia.
  - rewrite Pos2Z.inj_succ.
    replace (Z.succ (Zpos (digits2_pos q)) - 1)
      with (Z.succ (Zpos (digits2_pos q) - 1)) by lia.
    rewrite Z.pow_succ_r by lia. lia.
  - simpl. lia.
Qed.

Lemma digits2_pos_bound (p : positive) :
  Zpos p < 2 ^ 53 -> (digits2_pos p <= 53)%positive.
Proof.
  intros H. pose proof (digits2_pos_lower p) as L.
  destruct (Pos.leb_spec (digits2_pos p) 53) as [Hle|Hgt]; [exact Hle|].
  exfalso.
  assert (2 ^ 53 <= 2 ^ (Zpos (digits2_pos p) - 1))
    by (apply Z.pow_le_mono_r; lia).
  lia.
Qed.

(** A mantissa of 53 bits with an exponent in range needs no rounding. *)
Lemma round_aux_exact (s : bool) (m : positive) (e : Z) :
  digits2_pos m = 53%positive -> -1074 <= e <= 971 ->
  binary_round_aux prec emax s (Zpos m) e loc_Exact = S754_finite s m e.
Proof.
  intros Hd He.
  unfold binary_round_aux, shr_fexp, fexp, emin, Zdigits2, prec, emax.
  rewrite Hd.
  replace (Z.max (53 + e - 53) (3 - 1024 - 53) - e) with 0 by lia.
  cbn [shr shr_record_of_loc shr_m loc_of_shr_record round_nearest_even
       Zdigits2].
  rewrite Hd.
  replace (Z.max (53 + e - 53) (3 - 1024 - 53) - e) with 0 by lia.
  cbn [shr shr_record_of_loc shr_m].
  replace (e <=? 1024 - 53) with true by (symmetry; apply Z.leb_le; lia).
  reflexivity.
Qed.

Lemma round_exact (s : bool) (p : positive) :
  (digits2_pos p <= 53)%positive ->
  exists m k, binary_round prec emax s p 0 = S754_finite s m (- Z.of_nat k)
              /\ Zpos m = Zpos p * 2 ^ Z.of_nat k.
Proof.
  intros Hd.
  unfold binary_round, shl_align, fexp, emin, prec, emax.
  replace (Z.max (Zpos (digits2_pos p) + 0 - 53) (3 - 1024 - 53))
    with (Zpos (digits2_pos p) - 53) by lia.
  destruct (Zpos (digits2_pos p) - 53 - 0) as [|q|q] eqn:E; try lia.
  - exists p, 0%nat.
    rewrite (round_aux_exact s p); [|lia|lia].
    replace (Zpos (digits2_pos p) - 53) with 0 by lia.
    split; [reflexivity | simpl; lia].
  - exists (Pos.iter xO p q), (Pos.to_nat q).
    rewrite (round_aux_exact s).
    + rewrite positive_nat_Z. split; [f_equal; lia | apply value_iter].
    + rewrite digits2_pos_iter. lia.
    + lia.
Qed.

(** An integer of at most 53 bits becomes the number that is this integer:
    array lengths, counters and rounded values are exact. *)
Lemma ofZ_exact (z : Z) : - 2 ^ 53 < z < 2 ^ 53 -> denotes (ofZ z) z.
Proof.
  intros H. destruct z as [|p|p]; unfold ofZ, binary_normalize, denotes.
  - reflexivity.
  - destruct (round_exact false p) as [m [k [E V]]];
      [apply digits2_pos_bound; lia|].
    rewrite E. cbn [cond_Zopp]. split; [lia|].
    rewrite Z.opp_involutive. exact V.
  - destruct (round_exact true p) as [m [k [E V]]];
      [apply digits2_pos_bound; lia|].
    rewrite E. cbn [cond_Zopp]. split; [lia|].
    rewrite Z.opp_involutive, V.
    change (Zneg p) with (- Zpos p). lia.
Qed.

(** [round_half_up m (-k)] is the integer nearest to [m / 2^k], the larger
    one when two are equally near. *)
Lemma round_half_up_nearest (m : Z) (k : positive) :
  2 ^ Zpos k * (2 * round_half_up m (Zneg k) - 1) <= 2 * m
  /\ 2 * m < 2 ^ Zpos k * (2 * round_half_up m (Zneg k) + 1).
Proof.
  unfold round_half_up.
  assert (P : 0 < 2 ^ Zpos k) by (apply Z.pow_pos_nonneg; lia).
  replace (2 ^ (Zpos k + 1)) with (2 * 2 ^ Zpos k)
    by (rewrite Z.pow_add_r by lia; lia).
  set (p := 2 ^ Zpos k) in *.
  pose proof (Z.div_mod (2 * m + p) (2 * p) ltac:(lia)) as D.
  pose proof (Z.mod_pos_bound (2 * m + p) (2 * p) ltac:(lia)) as B.
  set (z := (2 * m + p) / (2 * p)) in *.
  split; nia.
Qed.

Lemma round_half_up_small (m : Z) (k : positive) :
  - 2 ^ 53 < m < 2 ^ 53 ->
  - 2 ^ 53 < round_half_up m (Zneg k) < 2 ^ 53.
Proof.
  intros Hm.
  destruct (round_half_up_nearest m k) as [L U].
  assert (P : 2 <= 2 ^ Zpos k).
  { change 2 with (2 ^ 1) at 1. apply Z.pow_le_mono_r; lia. }
  set (p := 2 ^ Zpos k) in *.
  set (z := round_half_up m (Zneg k)) in *.
  split; nia.
Qed.

End JSNumberFacts.

(* ================================================================== *)
(** * Properties of analyzeMetrics *)
(* ================================================================== *)

Module MetricsFacts.
Import JSNumber JSString JSValue Metrics JSNumberFacts.

Local Open Scope string_scope.

(** ** The pause loop *)

Lemma pauseLoop_spec (words : list Word) :
  forall fuel i pauses,
    (1 <= i)%nat -> (List.length words - i < fuel)%nat ->
    pauseLoop words fuel i pauses
    = (pauses ++ flat_map (pauseAt words) (seq i (List.length words - i)))%list.
Proof.
  induction fuel as [|fuel IH]; intros i pauses Hi Hfuel; [lia|].
  simpl pauseLoop.
  destruct (i <? List.length words)%nat eqn:Hlt.
  - apply Nat.ltb_lt in Hlt.
    destruct (nth_error words i) as [cur|] eqn:Hcur;
      [|apply nth_error_None in Hcur; lia].
    destruct (nth_error words (i - 1)) as [prev|] eqn:Hprev;
      [|apply nth_error_None in Hprev; lia].
    rewrite IH by lia.
    replace (List.length words - i)%nat
      with (S (List.length words - S i)) by lia.
    simpl seq. simpl flat_map.
    unfold pauseAt at 2, gapAt. rewrite Hprev, Hcur.
    unfold isPause.
    destruct (gtb (sub (start cur) (end_ prev)) lit_0_2).
    + rewrite <- app_assoc. reflexivity.
    + reflexivity.
  - apply Nat.ltb_ge in Hlt.
    replace (List.length words - i)%nat with 0%nat by lia.
    simpl. rewrite app_nil_r. reflexivity.
Qed.

Lemma collectPauses_pauseGaps (words : list Word) :
  collectPauses words = pauseGaps words.
Proof.
  unfold collectPauses, pauseGaps.
  destruct words as [|w0 rest]; [reflexivity|].
  rewrite pauseLoop_spec by (simpl; lia).
  reflexivity.
Qed.

Lemma pauseGaps_In (words : list Word) (g : number) :
  In g (pauseGaps words)
  <-> exists i, (1 <= i < List.length words)%nat
                /\ gapAt words i = Some g /\ isPause g = true.
Proof.
  unfold pauseGaps. rewrite in_flat_map. split.
  - intros [i [Hi Hg]]. apply in_seq in Hi.
    exists i. split; [lia|]. unfold pauseAt in Hg.
    destruct (gapAt words i) as [gap|]; [|contradiction].
    destruct (isPause gap) eqn:E; [|contradiction].
    destruct Hg as [Hg|[]]. subst gap. split; [reflexivity | exact E].
  - intros [i [Hi [Hgap Hp]]]. exists i. split.
    + apply in_seq. lia.
    + unfold pauseAt. rewrite Hgap, Hp. left; reflexivity.
Qed.

Lemma pauseGaps_not_nan (words : list Word) :
  Forall (fun x => isNaN x = false) (pauseGaps words).
Proof.
  apply Forall_forall. intros g Hg.
  apply pauseGaps_In in Hg. destruct Hg as [i [_ [_ Hp]]].
  unfold isPause, gtb in Hp.
  apply (ltb_not_nan lit_0_2 g Hp).
Qed.

(** ** The filler count *)

Lemma isFiller_includes (w : Word) :
  includes fillerWords (trim (toLowerCase (word w))) = true <-> isFiller w.
Proof.
  unfold includes, fillerWords, isFiller. simpl existsb.
  repeat rewrite orb_true_iff. repeat rewrite String.eqb_eq.
  intuition discriminate.
Qed.

Lemma countFillers_from (words : list Word) :
  forall c, exists n,
    countOf isFiller words n /\ fold_left countStep words c = (c + n)%nat.
Proof.
  induction words as [|w rest IH]; intros c.
  - exists 0%nat. split; [constructor | simpl; lia].
  - simpl fold_left. unfold countStep at 2.
    destruct (includes fillerWords (trim (toLowerCase (word w)))) eqn:E.
    + destruct (IH (S c)) as [n [Hn Hf]].
      exists (S n). split; [|rewrite Hf; lia].
      apply countOf_yes; [apply isFiller_includes; exact E | exact Hn].
    + destruct (IH c) as [n [Hn Hf]].
      exists n. split; [|exact Hf].
      apply countOf_no; [|exact Hn].
      intros F. apply isFiller_includes in F. congruence.
Qed.

Lemma countOf_functional {A : Type} (P : A -> Prop) (xs : list A) :
  forall n n', countOf P xs n -> countOf P xs n' -> n = n'.
Proof.
  induction xs as [|x rest IH]; intros n n' H H';
    inversion H; subst; inversion H'; subst;
    try reflexivity; try contradiction;
    try (f_equal; eapply IH; eassumption); eapply IH; eassumption.
Qed.

(** ** The shape of the result *)

Lemma analyzeMetrics_nonempty (w0 : Word) (rest : list Word) (d : number) :
  analyzeMetrics (WordsArray (w0 :: rest)) d
  = let ws := w0 :: rest in
    let pauses := collectPauses ws in
    let wordsPerMinute :=
      Math_round (mul (div (ofNat (List.length ws)) d) (ofZ 60)) in
    VObj [ ("wordsPerMinute", VNum wordsPerMinute);
           ("averagePauseDuration",
             if (0 <? List.length pauses)%nat
             then VStr (toFixed 2 (div (sumPauses pauses)
                                       (ofNat (List.length pauses))))
             else VNum zero);
           ("longestPause",
             if (0 <? List.length pauses)%nat
             then VStr (toFixed 2 (Math_max pauses))
             else VNum zero);
           ("fillerWordCount", VNum (ofNat (countFillers ws)));
           ("pauseCount", VNum (ofNat (List.length pauses)));
           ("pacingVariation",
             VStr (if gtb (ofNat (List.length pauses))
                          (mul (ofNat (List.length ws)) lit_0_3)
                   then "halting"
                   else if ltb (ofNat (List.length pauses))
                               (mul (ofNat (List.length ws)) lit_0_1)
                           && gtb wordsPerMinute (ofZ 150)
                   then "rushed"
                   else "steady")) ].
Proof. reflexivity. Qed.

Lemma analyzeMetrics_noWords (words : wordsArg) (d : number) :
  noWords words = true -> analyzeMetrics words d = defaultMetrics.
Proof. intros H. unfold analyzeMetrics. rewrite H. reflexivity. Qed.

Lemma nonempty_length {A : Type} (xs : list A) :
  xs <> [] -> (0 <? List.length xs)%nat = true.
Proof. destruct xs; [congruence | reflexivity]. Qed.

(** C1.  When [words] is [null], [undefined] or an empty array,
    [analyzeMetrics] returns the default result, with zero for the four
    numbers and ['unknown'] for the pacing variation, whatever the
    duration is. *)
Theorem analyzeMetrics_default (duration : number) :
  analyzeMetrics WordsNull duration = defaultMetrics
  /\ analyzeMetrics WordsUndefined duration = defaultMetrics
  /\ analyzeMetrics (WordsArray []) duration = defaultMetrics.
Proof. repeat split; reflexivity. Qed.

(** C2 (as amended).  For a non-empty word sequence the pauses recorded
    are exactly the gaps [words[i].start - words[i-1].end] of the
    consecutive pairs that are strictly above 0.2; [pauseCount] is their
    number, and when there is at least one, [longestPause] is the largest
    of them and [averagePauseDuration] their arithmetic mean, both through
    [toFixed(2)]: with two decimal places when the value written is
    finite and below 10^21, as the largest gap is when every gap is. *)
Theorem analyzeMetrics_pauses (ws : list Word) (duration : number) :
  ws <> [] ->
  let r := analyzeMetrics (WordsArray ws) duration in
  let ps := pauseGaps ws in
  collectPauses ws = ps
  /\ (forall g, In g ps <->
                exists i, (1 <= i < List.length ws)%nat
                          /\ gapAt ws i = Some g /\ gtb g lit_0_2 = true)
  /\ get r "pauseCount" = VNum (ofNat (List.length ps))
  /\ (ps <> [] ->
      exists m, isMaximumOf m ps
                /\ get r "longestPause" = VStr (toFixed 2 m)
                /\ get r "averagePauseDuration" = VStr (toFixed 2 (mean ps))
                /\ (fixedRange m = true -> twoDecimals (toFixed 2 m))
                /\ (fixedRange (mean ps) = true ->
                    twoDecimals (toFixed 2 (mean ps)))
                /\ ((forall g, In g ps -> fixedRange g = true) ->
                    fixedRange m = true)).
Proof.
  intros Hne r ps. subst r ps.
  destruct ws as [|w0 rest]; [contradiction Hne; reflexivity|].
  rewrite analyzeMetrics_nonempty. cbv zeta.
  rewrite collectPauses_pauseGaps.
  split; [reflexivity|]. split; [apply pauseGaps_In|].
  split; [reflexivity|].
  intros Hps. exists (Math_max (pauseGaps (w0 :: rest))).
  assert (Hmax : isMaximumOf (Math_max (pauseGaps (w0 :: rest)))
                             (pauseGaps (w0 :: rest)))
    by (apply Math_max_maximum; [exact Hps | apply pauseGaps_not_nan]).
  split; [exact Hmax|]. split; [|split; [|split; [|split]]].
  - unfold get, lookup. simpl String.eqb.
    rewrite (nonempty_length _ Hps). reflexivity.
  - unfold get, lookup. simpl String.eqb.
    rewrite (nonempty_length _ Hps). reflexivity.
  - apply toFixed_two_decimals.
  - apply toFixed_two_decimals.
  - intros Hall. apply Hall. apply Hmax.
Qed.

Lemma analyzeMetrics_pauses_witness :
  twoWords <> []
  /\ (let r := analyzeMetrics (WordsArray twoWords) (ofZ 3) in
      let ps := pauseGaps twoWords in
      collectPauses twoWords = ps
      /\ (forall g, In g ps <->
                    exists i, (1 <= i < List.length twoWords)%nat
                              /\ gapAt twoWords i = Some g
                              /\ gtb g lit_0_2 = true)
      /\ get r "pauseCount" = VNum (ofNat (List.length ps))
      /\ (ps <> [] ->
          exists m, isMaximumOf m ps
                    /\ get r "longestPause" = VStr (toFixed 2 m)
                    /\ get r "averagePauseDuration"
                       = VStr (toFixed 2 (mean ps))
                    /\ (fixedRange m = true -> twoDecimals (toFixed 2 m))
                    /\ (fixedRange (mean ps) = true ->
                        twoDecimals (toFixed 2 (mean ps)))
                    /\ ((forall g, In g ps -> fixedRange g = true) ->
                        fixedRange m = true))).
Proof.
  split; [discriminate|].
  apply (analyzeMetrics_pauses twoWords (ofZ 3)). discriminate.
Defined.

(** C2 as stated fails: a gap of 10^21 seconds is a pause, and both
    fields are then written in exponent notation, without decimal
    places. *)
Lemma pauses_without_decimal_places :
  distantWords <> []
  /\ pauseGaps distantWords = [ofZ (10 ^ 21)]
  /\ get (analyzeMetrics (WordsArray distantWords) (ofZ 4)) "longestPause"
     = VStr "1e+21"
  /\ get (analyzeMetrics (WordsArray distantWords) (ofZ 4))
         "averagePauseDuration"
     = VStr "1e+21"
  /\ ~ twoDecimals "1e+21".
Proof.
  split; [discriminate|].
  split; [vm_compute; reflexivity|].
  split; [vm_compute; reflexivity|].
  split; [vm_compute; reflexivity|].
  intros [sign [a [b [E [Hs [Ha [Hda _]]]]]]].
  destruct Hs as [Hs|Hs]; subst sign; simpl in E; [|discriminate E].
  destruct a as [|c1 a]; [simpl in Ha; lia|].
  simpl in E. injection E as E1 E. subst c1.
  destruct a as [|c2 a]; simpl in E; [discriminate E|].
  injection E as E2 E. subst c2. simpl in Hda. discriminate Hda.
Qed.

(** C3.  For a non-empty word sequence [fillerWordCount] is the number of
    entries whose text, lowercased and trimmed, is one of the eight
    filler words. *)
Theorem analyzeMetrics_fillers (ws : list Word) (duration : number) :
  ws <> [] ->
  exists n, countOf isFiller ws n
            /\ (forall n', countOf isFiller ws n' -> n' = n)
            /\ get (analyzeMetrics (WordsArray ws) duration) "fillerWordCount"
               = VNum (ofNat n).
Proof.
  intros Hne.
  destruct ws as [|w0 rest]; [contradiction Hne; reflexivity|].
  destruct (countFillers_from (w0 :: rest) 0) as [n [Hn Hf]].
  exists n. split; [exact Hn|]. split.
  - intros n' Hn'. apply (countOf_functional isFiller _ _ _ Hn' Hn).
  - rewrite analyzeMetrics_nonempty. cbv zeta.
    unfold countFillers. rewrite Hf. reflexivity.
Qed.

Lemma analyzeMetrics_fillers_witness :
  sampleWords <> []
  /\ exists n, countOf isFiller sampleWords n
               /\ (forall n', countOf isFiller sampleWords n' -> n' = n)
               /\ get (analyzeMetrics (WordsArray sampleWords) (ofZ 4))
                      "fillerWordCount" = VNum (ofNat n).
Proof.
  split; [discriminate|].
  apply (analyzeMetrics_fillers sampleWords (ofZ 4)). discriminate.
Defined.

Example sample_metrics :
  analyzeMetrics (WordsArray sampleWords) (ofZ 4)
  = VObj [ ("wordsPerMinute", VNum (ofZ 45));
           ("averagePauseDuration", VStr "1.00");
           ("longestPause", VStr "1.00");
           ("fillerWordCount", VNum (ofZ 2));
           ("pauseCount", VNum (ofZ 1));
           ("pacingVariation", VStr "halting") ].
Proof. vm_compute. reflexivity. Qed.

(** C4.  For a non-empty word sequence, [wordsPerMinute] is the number of
    words divided by the duration, times 60, rounded to the nearest
    integer. *)
Theorem analyzeMetrics_wordsPerMinute (ws : list Word) (duration : number) :
  ws <> [] ->
  let pace := mul (div (ofNat (List.length ws)) duration) (ofZ 60) in
  exists r, get (analyzeMetrics (WordsArray ws) duration) "wordsPerMinute"
            = VNum r
            /\ r = Math_round pace
            /\ roundedToNearest pace r.
Proof.
  intros Hne pace.
  destruct ws as [|w0 rest]; [contradiction Hne; reflexivity|].
  exists (Math_round pace). split; [reflexivity|]. split; [reflexivity|].
  unfold roundedToNearest, Math_round.
  destruct pace as [s|s| |s m e]; try reflexivity.
  destruct e as [|k|k]; try reflexivity.
  exists (round_half_up (cond_Zopp s (Zpos m)) (Zneg k)).
  split; [apply round_half_up_nearest|]. split.
  - intros Hz. rewrite Hz. reflexivity.
  - intros Hm.
    destruct (round_half_up (cond_Zopp s (Zpos m)) (Zneg k) =? 0)%Z eqn:E.
    + apply Z.eqb_eq in E. exact E.
    + apply ofZ_exact. apply round_half_up_small.
      destruct s; cbn [cond_Zopp]; lia.
Qed.

Lemma analyzeMetrics_wordsPerMinute_witness :
  sampleWords <> []
  /\ exists r, get (analyzeMetrics (WordsArray sampleWords) (ofZ 7))
                   "wordsPerMinute" = VNum r
               /\ r = Math_round (mul (div (ofNat 3) (ofZ 7)) (ofZ 60))
               /\ roundedToNearest (mul (div (ofNat 3) (ofZ 7)) (ofZ 60)) r.
Proof.
  split; [discriminate|].
  apply (analyzeMetrics_wordsPerMinute sampleWords (ofZ 7)). discriminate.
Defined.

Example pace_3_words_in_7_seconds :
  get (analyzeMetrics (WordsArray sampleWords) (ofZ 7)) "wordsPerMinute"
  = VNum (ofZ 26).
Proof. vm_compute. reflexivity. Qed.

(** C9.  The result for a non-empty word sequence has a [pauseCount]
    property; the default result, returned for missing or empty words,
    has none: the two results do not have the same properties. *)
Theorem analyzeMetrics_shape
    (ws : list Word) (words : wordsArg) (d d' : number) :
  ws <> [] -> noWords words = true ->
  has (analyzeMetrics (WordsArray ws) d) "pauseCount" = true
  /\ has (analyzeMetrics words d') "pauseCount" = false
  /\ keys (analyzeMetrics (WordsArray ws) d)
     <> keys (analyzeMetrics words d').
Proof.
  intros Hne Hno.
  destruct ws as [|w0 rest]; [contradiction Hne; reflexivity|].
  rewrite (analyzeMetrics_noWords words d' Hno).
  rewrite analyzeMetrics_nonempty. cbv zeta.
  split; [reflexivity|]. split; [reflexivity|].
  unfold keys, defaultMetrics. simpl map. intros H. discriminate H.
Qed.

Lemma analyzeMetrics_shape_witness :
  sampleWords <> [] /\ noWords WordsNull = true
  /\ has (analyzeMetrics (WordsArray sampleWords) (ofZ 4)) "pauseCount" = true
  /\ has (analyzeMetrics WordsNull (ofZ 4)) "pauseCount" = false
  /\ keys (analyzeMetrics (WordsArray sampleWords) (ofZ 4))
     <> keys (analyzeMetrics WordsNull (ofZ 4)).
Proof.
  split; [discriminate|]. split; [reflexivity|].
  apply (analyzeMetrics_shape sampleWords WordsNull (ofZ 4) (ofZ 4));
    [discriminate | reflexivity].
Defined.

(** C10 (as amended).  For a non-empty word sequence,
    [averagePauseDuration] and [longestPause] are strings made by
    [toFixed(2)] when at least one pause was detected, with two decimal
    places when the value written is finite and below 10^21, and the
    number 0 when none was: their type depends on the input. *)
Theorem analyzeMetrics_pause_types (ws : list Word) (duration : number) :
  ws <> [] ->
  let r := analyzeMetrics (WordsArray ws) duration in
  (pauseGaps ws <> [] ->
   (exists a, get r "averagePauseDuration" = VStr (toFixed 2 a)
              /\ a = mean (pauseGaps ws)
              /\ (fixedRange a = true -> twoDecimals (toFixed 2 a)))
   /\ (exists l, get r "longestPause" = VStr (toFixed 2 l)
                 /\ In l (pauseGaps ws)
                 /\ (fixedRange l = true -> twoDecimals (toFixed 2 l)))
   /\ typeof (get r "averagePauseDuration") = "string"
   /\ typeof (get r "longestPause") = "string")
  /\ (pauseGaps ws = [] ->
      get r "averagePauseDuration" = VNum zero
      /\ get r "longestPause" = VNum zero
      /\ typeof (get r "averagePauseDuration") = "number"
      /\ typeof (get r "longestPause") = "number").
Proof.
  intros Hne r. subst r.
  destruct ws as [|w0 rest]; [contradiction Hne; reflexivity|].
  rewrite analyzeMetrics_nonempty. cbv zeta.
  rewrite collectPauses_pauseGaps.
  unfold get, lookup. simpl String.eqb.
  split.
  - intros Hps. rewrite (nonempty_length _ Hps).
    split; [|split; [|split; reflexivity]].
    + eexists. split; [reflexivity|]. split; [reflexivity|].
      apply toFixed_two_decimals.
    + eexists. split; [reflexivity|]. split.
      * apply Math_max_maximum; [exact Hps | apply pauseGaps_not_nan].
      * apply toFixed_two_decimals.
  - intros Hps. rewrite Hps. simpl.
    repeat split; reflexivity.
Qed.

Lemma analyzeMetrics_pause_types_witness :
  sampleWords <> []
  /\ typeof (get (analyzeMetrics (WordsArray sampleWords) (ofZ 4))
                 "longestPause") = "string"
  /\ typeof (get (analyzeMetrics (WordsArray [mkWord "so" zero zero]) (ofZ 4))
                 "longestPause") = "number".
Proof.
  split; [discriminate|]. split.
  - apply (analyzeMetrics_pause_types sampleWords (ofZ 4));
      [discriminate | vm_compute; discriminate].
  - apply (analyzeMetrics_pause_types [mkWord "so" zero zero] (ofZ 4));
      [discriminate | reflexivity].
Defined.

(** C10 as stated fails: after a word that starts at [Infinity] both
    fields are the string ['Infinity'], a string without decimal
    places. *)
Lemma pause_strings_without_decimal_places :
  endlessWords <> []
  /\ pauseGaps endlessWords = [Infinity]
  /\ get (analyzeMetrics (WordsArray endlessWords) (ofZ 4)) "longestPause"
     = VStr "Infinity"
  /\ get (analyzeMetrics (WordsArray endlessWords) (ofZ 4))
         "averagePauseDuration"
     = VStr "Infinity"
  /\ ~ twoDecimals "Infinity".
Proof.
  split; [discriminate|].
  split; [vm_compute; reflexivity|].
  split; [vm_compute; reflexivity|].
  split; [vm_compute; reflexivity|].
  intros [sign [a [b [E [Hs [Ha [Hda _]]]]]]].
  destruct Hs as [Hs|Hs]; subst sign; simpl in E; [|discriminate E].
  destruct a as [|c1 a]; [simpl in Ha; lia|].
  simpl in E. injection E as E1 E. subst c1.
  simpl in Hda. discriminate Hda.
Qed.

End MetricsFacts.

(* ================================================================== *)
(** * Properties of the handlers *)
(* ================================================================== *)

Module HandlersFacts.
Import JSNumber JSString JSValue Metrics Effect Handlers MetricsBody.
Import JSNumberFacts MetricsFacts.

Local Open Scope string_scope.

(** The [try] block calls outside at most three times, each operation at
    most once, whatever the calls answer. *)
Lemma handlerBody_calls
    (parseFloat : string -> number) (env : Env) (req : Request) (w : World) :
  exists cs,
    calls (snd (handlerBody parseFloat env req w)) = (calls w ++ cs)%list
    /\ NoDup cs.
Proof.
  unfold handlerBody.
  destruct (contains "multipart/form-data"
              (match content_type req with
               | Some c => c
               | None => EmptyString
               end)).
  - unfold bind at 1, call at 1.
    destruct (form_outcome env) as [form|e].
    + destruct (audio form) as [audioFile|].
      * unfold bind, call, logLine, modify, analyzeMetricsIn, ret.
        cbn [fst snd console calls].
        destruct (transcription_outcome env) as [t|e];
          [destruct (completion_outcome env) as [c|e]|];
          cbn [fst snd console calls];
          rewrite <- ?app_assoc; eexists; (split; [reflexivity|]);
          repeat constructor; simpl; intuition discriminate.
      * exists [ParseForm]. split; [reflexivity|].
        repeat constructor; simpl; intuition.
    + exists [ParseForm]. split; [reflexivity|].
      repeat constructor; simpl; intuition.
  - destruct (transcriptText (body_text req)).
    + unfold bind, call, ret.
      destruct (completion_outcome env) as [c|e];
        exists [ChatCompletion "gpt-5.1"]; (split; [reflexivity|]);
        repeat constructor; simpl; intuition.
    + exists []. split; [simpl; rewrite app_nil_r; reflexivity | constructor].
Qed.

(** The [catch] block answers with a JSON error, after logging, and calls
    nothing. *)
Lemma handlerCatch_response (env : Env) (e : JsError) (w1 : World) :
  exists resp w2,
    handlerCatch env e w1 = (Resolved resp, w2)
    /\ isErrorResponse resp
    /\ code resp = match truthyStatus e with Some st => st | None => 500%Z end
    /\ logged "Feedback generation failed:" w2
    /\ calls w2 = calls w1.
Proof.
  unfold handlerCatch, bind, logLine, modify, ret, logged, isErrorResponse.
  destruct (truthyStatus e) as [st|]; [|destruct (OPENAI_API_KEY env)];
    cbn [negb fst snd console calls];
    do 2 eexists; (split; [reflexivity|]);
    (split; [do 2 eexists; split; reflexivity|]);
    (split; [reflexivity|]);
    (split; [|reflexivity]);
    exists [VStr (message e)]; cbn [console];
    rewrite <- ?app_assoc; apply in_or_app; right; left; reflexivity.
Qed.

Lemma handler_post
    (parseFloat : string -> number) (env : Env) (req : Request) :
  method req = "POST" ->
  handler parseFloat env req
  = tryCatch (handlerBody parseFloat env req) (handlerCatch env).
Proof. intros H. unfold handler. rewrite H. reflexivity. Qed.

(** Division by a zero is never finite, and stays so through the
    multiplication by 60 and the rounding. *)
Lemma pace_over_zero (x : number) (s : bool) :
  isFinite (Math_round (mul (div x (S754_zero s)) (ofZ 60))) = false.
Proof.
  remember (ofZ 60) as sixty eqn:E. vm_compute in E. subst sixty.
  destruct x as [sx|sx| |sx m e]; destruct s; try destruct sx; reflexivity.
Qed.

(** ** The body of [analyzeMetrics] *)

(** The [forEach] adds the number of fillers to [fillerCount] and touches
    nothing else. *)
Lemma forEach_countFiller (ws : list Word) :
  forall s,
    forEach ws countFiller s
    = (Resolved tt,
       mkState (set_fillerCount
                  (fold_left countStep ws (fillerCount (variables s)))
                  (variables s))
               (outside s)).
Proof.
  induction ws as [|w rest IH]; intros [[f p j t] o]; [reflexivity|].
  cbn [forEach]. unfold bind at 1. unfold countFiller at 1.
  cbn [fold_left]. unfold countStep at 2.
  destruct (includes fillerWords (trim (toLowerCase (word w))));
    unfold assignTo, modify, ret; rewrite IH; reflexivity.
Qed.

(** The loop ends by its condition, never on a missing word, once it is
    given as many tests as words are left; it appends the pauses from
    [i] on to [pauses] and touches nothing else but [i]. *)
Lemma pauseFor_pauses (ws : list Word) :
  forall fuel s,
    (1 <= i (variables s))%nat ->
    (List.length ws - i (variables s) < fuel)%nat ->
    pauseFor fuel ws s
    = (Resolved tt,
       mkState (mkVariables
                  (fillerCount (variables s))
                  (pauses (variables s)
                   ++ flat_map (pauseAt ws)
                        (seq (i (variables s))
                             (List.length ws - i (variables s))))
                  (Nat.max (i (variables s)) (List.length ws))
                  (pacingVariation (variables s)))
               (outside s)).
Proof.
  induction fuel as [|fuel IH]; intros [[f p j t] o] Hi Hfuel;
    cbn [variables i fillerCount pauses pacingVariation outside] in *;
    [lia|].
  cbn [pauseFor]. unfold bind at 1, valueOf at 1. cbn [variables i].
  destruct (j <? List.length ws)%nat eqn:Hlt.
  - apply Nat.ltb_lt in Hlt.
    destruct (nth_error ws j) as [cur|] eqn:Hcur;
      [|apply nth_error_None in Hcur; lia].
    destruct (nth_error ws (j - 1)) as [prev|] eqn:Hprev;
      [|apply nth_error_None in Hprev; lia].
    replace (List.length ws - j)%nat with (S (List.length ws - S j)) by lia.
    cbn [seq flat_map]. unfold pauseAt at 1, gapAt. rewrite Hprev, Hcur.
    unfold isPause.
    destruct (gtb (sub (start cur) (end_ prev)) lit_0_2);
      unfold bind, assignTo, modify, ret, set_i, set_pauses;
      cbn [variables outside fillerCount pauses i pacingVariation];
      rewrite IH
        by (cbn [variables i fillerCount pauses pacingVariation outside];
            lia);
      cbn [variables i fillerCount pauses pacingVariation outside];
      rewrite <- ?app_assoc;
      replace (Nat.max (S j) (List.length ws))
        with (Nat.max j (List.length ws)) by lia;
      reflexivity.
  - apply Nat.ltb_ge in Hlt.
    replace (List.length ws - j)%nat with 0%nat by lia.
    cbn [seq flat_map]. rewrite app_nil_r.
    replace (Nat.max j (List.length ws)) with j by lia.
    reflexivity.
Qed.

(** A call of the body: it returns what [analyzeMetrics] gives for the
    arguments, whatever the state it starts in, and leaves the state
    outside its variables as it found it. *)
Lemma analyzeMetricsBody_run
    (fuel : nat) (words : wordsArg) (d : number) (s : State) :
  (List.length (elements words) <= fuel)%nat ->
  fst (analyzeMetricsBody fuel words d s) = Resolved (analyzeMetrics words d)
  /\ outside (snd (analyzeMetricsBody fuel words d s)) = outside s.
Proof.
  intros Hfuel.
  assert (H : exists v,
             analyzeMetricsBody fuel words d s
             = (Resolved (analyzeMetrics words d), mkState v (outside s))).
  { unfold analyzeMetricsBody, analyzeMetrics.
    destruct s as [[f p j t] o].
    destruct (noWords words) eqn:Hno; [eexists; reflexivity|].
    assert (Hlen : (1 <= List.length (elements words))%nat).
    { destruct words as [| |[|w ws]]; try discriminate Hno. simpl. lia. }
    unfold bind at 1, assignTo at 1, modify at 1.
    unfold bind at 1, assignTo at 1, modify at 1.
    unfold bind at 1. rewrite forEach_countFiller.
    unfold bind at 1, assignTo at 1, modify at 1.
    unfold bind at 1.
    unfold set_i, set_fillerCount, set_pauses.
    cbn [variables outside fillerCount pauses i pacingVariation].
    rewrite pauseFor_pauses
      by (cbn [variables i fillerCount pauses pacingVariation outside]; lia).
    cbn [variables outside fillerCount pauses i pacingVariation app].
    change (flat_map (pauseAt (elements words))
                     (seq 1 (List.length (elements words) - 1)))
      with (pauseGaps (elements words)).
    rewrite collectPauses_pauseGaps.
    change (fold_left countStep (elements words) 0%nat)
      with (countFillers (elements words)).
    unfold bind, assignTo, modify, valueOf, ret, set_pacingVariation.
    cbn [variables outside pauses fillerCount i pacingVariation].
    destruct (gtb (ofNat (List.length (pauseGaps (elements words))))
                  (mul (ofNat (List.length (elements words))) lit_0_3));
      [eexists; reflexivity|].
    destruct (ltb (ofNat (List.length (pauseGaps (elements words))))
                  (mul (ofNat (List.length (elements words))) lit_0_1)
              && gtb (Math_round
                        (mul (div (ofNat (List.length (elements words))) d)
                             (ofZ 60)))
                     (ofZ 150));
      eexists; reflexivity. }
  destruct H as [v H]. rewrite H. split; reflexivity.
Qed.

(** C6.  [analyzeMetrics] is a pure, deterministic summary.  Its body,
    run statement by statement from any state of its variables and of
    the rest of the program, returns what the function of the two
    arguments gives: two calls with equal arguments return equal results
    whatever the states they start in, the second call of two in a row
    as well; the result does not depend on the state outside, and the
    call leaves that state, the console and the calls made, as it found
    it, which is how the handler runs it. *)
Theorem analyzeMetrics_deterministic
    (words words' : wordsArg) (d d' : number) (fuel fuel' : nat)
    (s s' : State) :
  words = words' -> d = d' ->
  (List.length (elements words) <= fuel)%nat ->
  (List.length (elements words') <= fuel')%nat ->
  fst (analyzeMetricsBody fuel words d s) = Resolved (analyzeMetrics words d)
  /\ fst (analyzeMetricsBody fuel words d s)
     = fst (analyzeMetricsBody fuel' words' d' s')
  /\ fst (analyzeMetricsBody fuel' words' d'
            (snd (analyzeMetricsBody fuel words d s)))
     = fst (analyzeMetricsBody fuel words d s)
  /\ outside (snd (analyzeMetricsBody fuel words d s)) = outside s
  /\ analyzeMetricsIn words d (outside s)
     = (fst (analyzeMetricsBody fuel words d s),
        outside (snd (analyzeMetricsBody fuel words d s))).
Proof.
  intros Hw Hd Hfuel Hfuel'. subst words' d'.
  destruct (analyzeMetricsBody_run fuel words d s Hfuel) as [R1 O1].
  destruct (analyzeMetricsBody_run fuel' words d s' Hfuel') as [R2 _].
  destruct (analyzeMetricsBody_run
              fuel' words d (snd (analyzeMetricsBody fuel words d s)) Hfuel')
    as [R3 _].
  split; [exact R1|]. split; [rewrite R1, R2; reflexivity|].
  split; [rewrite R3, R1; reflexivity|]. split; [exact O1|].
  rewrite R1, O1. reflexivity.
Qed.

Lemma analyzeMetrics_deterministic_witness :
  fst (analyzeMetricsBody 3 (WordsArray sampleWords) (ofZ 4) firstCall)
  = Resolved (analyzeMetrics (WordsArray sampleWords) (ofZ 4))
  /\ fst (analyzeMetricsBody 3 (WordsArray sampleWords) (ofZ 4) firstCall)
     = fst (analyzeMetricsBody 5 (WordsArray sampleWords) (ofZ 4) laterCall)
  /\ fst (analyzeMetricsBody 5 (WordsArray sampleWords) (ofZ 4)
            (snd (analyzeMetricsBody 3 (WordsArray sampleWords) (ofZ 4)
                                     firstCall)))
     = fst (analyzeMetricsBody 3 (WordsArray sampleWords) (ofZ 4) firstCall)
  /\ outside (snd (analyzeMetricsBody 3 (WordsArray sampleWords) (ofZ 4)
                                      firstCall))
     = outside firstCall
  /\ analyzeMetricsIn (WordsArray sampleWords) (ofZ 4) (outside firstCall)
     = (fst (analyzeMetricsBody 3 (WordsArray sampleWords) (ofZ 4) firstCall),
        outside (snd (analyzeMetricsBody 3 (WordsArray sampleWords) (ofZ 4)
                                         firstCall))).
Proof.
  apply (analyzeMetrics_deterministic
           (WordsArray sampleWords) (WordsArray sampleWords)
           (ofZ 4) (ofZ 4) 3 5 firstCall laterCall);
    try reflexivity; simpl; lia.
Defined.

(** With fewer tests than words the loop is cut short; with enough of
    them the variables end with the counts of this call, whatever they
    held before. *)
Example body_needs_its_iterations :
  fst (analyzeMetricsBody 2 (WordsArray sampleWords) (ofZ 4) firstCall)
  = Rejected cutShort
  /\ variables (snd (analyzeMetricsBody 3 (WordsArray sampleWords) (ofZ 4)
                                        laterCall))
     = mkVariables 2 [ofZ 1] 3 "halting".
Proof. split; vm_compute; reflexivity. Qed.

(** C8.  With a non-empty word sequence and a duration of zero (of
    either sign) the division is carried out and [wordsPerMinute] is not
    a finite number; the multipart handler passes the duration 0 when
    the form has no [duration] field and the transcription no
    [duration], and then answers 200 with such metrics. *)
Theorem zero_duration_pace
    (parseFloat : string -> number) (env : Env) (req : Request) (w : World)
    (ws : list Word) (s : bool)
    (form : Form) (file : AudioFile) (t : Transcription)
    (content : option string) :
  ws <> [] ->
  method req = "POST" ->
  (exists ct, content_type req = Some ct
              /\ contains "multipart/form-data" ct = true) ->
  form_outcome env = Resolved form ->
  audio form = Some file ->
  duration_field form = None ->
  transcription_outcome env = Resolved t ->
  t_words t = Some ws ->
  t_duration t = None ->
  completion_outcome env = Resolved content ->
  (exists x,
      get (analyzeMetrics (WordsArray ws) (S754_zero s)) "wordsPerMinute"
      = VNum x
      /\ isFinite x = false)
  /\ durationOf parseFloat form t = zero
  /\ exists resp w' metrics x,
       handler parseFloat env req w = (Resolved resp, w')
       /\ code resp = 200%Z
       /\ body resp
          = Some (VObj [ ("feedback", VStr (feedbackOf content));
                         ("transcript", VStr (t_text t));
                         ("metrics", metrics) ])
       /\ metrics = analyzeMetrics (WordsArray ws) zero
       /\ get metrics "wordsPerMinute" = VNum x
       /\ isFinite x = false.
Proof.
  intros Hne Hm Hct Hform Haudio Hfield Ht Hws Hdur Hc.
  destruct ws as [|w0 rest]; [contradiction Hne; reflexivity|].
  assert (Hd : durationOf parseFloat form t = zero).
  { unfold durationOf. rewrite Hfield, Hdur. reflexivity. }
  split; [|split; [exact Hd|]].
  - eexists. rewrite analyzeMetrics_nonempty. cbv zeta.
    split; [reflexivity | apply pace_over_zero].
  - rewrite (handler_post parseFloat env req Hm).
    destruct Hct as [ct [Hct Hin]].
    unfold tryCatch, handlerBody. rewrite Hct, Hin.
    unfold bind, call, logLine, modify, analyzeMetricsIn, ret.
    rewrite Hform, Haudio, Ht, Hc, Hws, Hd.
    cbn [fst snd].
    do 4 eexists. split; [reflexivity|].
    split; [reflexivity|]. split; [reflexivity|]. split; [reflexivity|].
    rewrite analyzeMetrics_nonempty. cbv zeta.
    split; [reflexivity | apply pace_over_zero].
Qed.

Lemma zero_duration_pace_witness :
  exists resp w' x,
    handler parseDigits zeroDurationEnv multipartRequest emptyWorld
    = (Resolved resp, w')
    /\ code resp = 200%Z
    /\ (exists fields, body resp = Some (VObj fields)
                       /\ get (lookup "metrics" fields) "wordsPerMinute"
                          = VNum x)
    /\ isFinite x = false.
Proof.
  destruct (zero_duration_pace parseDigits zeroDurationEnv multipartRequest
              emptyWorld sampleWords false
              (mkForm None (Some (mkAudio "speech.webm" 1000)))
              (mkAudio "speech.webm" 1000)
              (mkTranscription "Um well like" (Some sampleWords) None)
              (Some "Summary: fine."))
    as [_ [_ [resp [w' [metrics [x [H [Hcode [Hbody [Hmet [Hx Hfin]]]]]]]]]]];
    try reflexivity; try discriminate;
    [exists "multipart/form-data; boundary=x"; split; reflexivity|].
  exists resp, w', x.
  split; [exact H|]. split; [exact Hcode|]. split; [|exact Hfin].
  eexists. split; [exact Hbody|]. exact Hx.
Defined.

Example zero_duration_is_infinite :
  get (analyzeMetrics (WordsArray sampleWords) zero) "wordsPerMinute"
  = VNum Infinity.
Proof. vm_compute. reflexivity. Qed.

End HandlersFacts.

(* ================================================================== *)
(** * Properties of the daily reminder *)
(* ================================================================== *)

Module ServiceWorkerFacts.
Import JSNumber JSString JSValue Effect ServiceWorker.

Local Open Scope string_scope.

Section WithEnvironment.
Variable Number : string -> number.
Variable env : Env.

(** The eligibility check, step by step. *)
Lemma eligibility_steps (w : World) :
  eligibility Number env w
  = let settings := db w "settings" "notifications" in
    let stats := db w "stats" "daily" in
    let today := toDateString (clock env (clockReads w)) in
    let now := clock env (S (clockReads w)) in
    let w1 := requested (Get "settings" "notifications") w in
    let w2 := requested (Get "stats" "daily") w1 in
    if dbFails env (List.length (dbRequests w))
    then (Rejected dbError, w1)
    else if negb (toBoolean settings)
            || negb (toBoolean (get settings "enabled"))
    then (Resolved false, w1)
    else if dbFails env (S (List.length (dbRequests w)))
    then (Rejected dbError, w2)
    else if practicedToday Number stats today
    then (Resolved false, tick w2)
    else if sentToday settings today
    then (Resolved false, tick w2)
    else match get settings "time" with
         | VStr time =>
             (Resolved (isPastTime now (fst (target Number time))
                                   (snd (target Number time))),
              tick (tick w2))
         | _ => (Rejected typeError, tick (tick w2))
         end.
Proof.
  destruct w as [d sh co cr rq sr dr].
  cbv [eligibility getFromDB request newDate throw ret bind
       requested tick
       db shown console clockReads dbRequests showRequests draws].
  destruct (dbFails env (List.length rq)); [reflexivity|].
  destruct (negb (toBoolean (d "settings" "notifications"))
            || negb (toBoolean (get (d "settings" "notifications")
                                    "enabled"))); [reflexivity|].
  rewrite length_app. cbn [List.length]. rewrite Nat.add_1_r.
  destruct (dbFails env (S (List.length rq))); [reflexivity|].
  destruct (practicedToday Number (d "stats" "daily")
                           (toDateString (clock env cr))); [reflexivity|].
  destruct (sentToday (d "settings" "notifications")
                      (toDateString (clock env cr))); [reflexivity|].
  destruct (get (d "settings" "notifications") "time"); reflexivity.
Qed.

Lemma shouldSendNotification_steps (w : World) :
  shouldSendNotification Number env w
  = match eligibility Number env w with
    | (Resolved b, w1) => (Resolved b, w1)
    | (Rejected _, w1) =>
        (Resolved false, printed "Error checking notification status:" w1)
    end.
Proof.
  unfold shouldSendNotification, tryCatch.
  destruct (eligibility Number env w) as [[b|e] w1]; reflexivity.
Qed.

Lemma markAsSent_steps (w : World) :
  markAsSent env w
  = let settings := db w "settings" "notifications" in
    let w1 := requested (Get "settings" "notifications") w in
    let w2 := requested (Put "settings" "notifications") (tick w1) in
    let today := toDateString (clock env (clockReads w)) in
    if dbFails env (List.length (dbRequests w))
    then (Resolved tt, printed "Error updating notification date:" w1)
    else if toBoolean settings
    then if dbFails env (S (List.length (dbRequests w)))
         then (Resolved tt, printed "Error updating notification date:" w2)
         else (Resolved tt,
               stored "settings" "notifications"
                      (set settings "lastNotificationDate" (VStr today)) w2)
    else (Resolved tt, w1).
Proof.
  destruct w as [d sh co cr rq sr dr].
  cbv [markAsSent tryCatch getFromDB saveToDB request newDate throw ret
       bind modify consoleError requested tick stored printed
       db shown console clockReads dbRequests showRequests draws].
  destruct (dbFails env (List.length rq)); [reflexivity|].
  destruct (toBoolean (d "settings" "notifications")); [|reflexivity].
  rewrite length_app. cbn [List.length]. rewrite Nat.add_1_r.
  destruct (dbFails env (S (List.length rq))); reflexivity.
Qed.

Lemma sendDailyReminder_steps (w : World) :
  sendDailyReminder Number env w
  = match shouldSendNotification Number env w with
    | (Resolved true, w1) =>
        let i := (draw env (draws w1) mod List.length MESSAGES)%nat in
        if showFails env (showRequests w1)
        then (Rejected notAllowed, refused (drawn w1))
        else markAsSent env
               (displayed (reminder (nth i MESSAGES EmptyString)) (drawn w1))
    | (Resolved false, w1) => (Resolved tt, w1)
    | (Rejected e, w1) => (Rejected e, w1)
    end.
Proof.
  unfold sendDailyReminder, bind at 1.
  destruct (shouldSendNotification Number env w) as [[[|]|e] w1];
    try reflexivity.
  cbn [negb]. unfold bind, randomIndex, showNotification.
  cbn [showRequests drawn].
  destruct (showFails env (showRequests w1)); reflexivity.
Qed.

(** The check leaves the database and the notifications as they are. *)
Lemma eligibility_frame (w : World) :
  db (snd (eligibility Number env w)) = db w
  /\ shown (snd (eligibility Number env w)) = shown w.
Proof.
  rewrite eligibility_steps. cbv zeta.
  repeat match goal with
         | |- context [if ?c then _ else _] => destruct c
         | |- context [match ?v with VStr _ => _ | _ => _ end] => destruct v
         end; split; reflexivity.
Qed.

(** The check answers [true] only when the four conditions hold, after
    two database reads that succeeded and two readings of the clock. *)
Lemma shouldSendNotification_true (w w1 : World) :
  shouldSendNotification Number env w = (Resolved true, w1) ->
  eligible Number env w
  /\ dbFails env (List.length (dbRequests w)) = false
  /\ dbFails env (S (List.length (dbRequests w))) = false
  /\ toBoolean (db w "settings" "notifications") = true
  /\ w1 = tick (tick (requested (Get "stats" "daily")
                        (requested (Get "settings" "notifications") w))).
Proof.
  rewrite shouldSendNotification_steps, eligibility_steps. cbv zeta.
  unfold eligible.
  destruct (dbFails env (List.length (dbRequests w))); [discriminate|].
  destruct (toBoolean (db w "settings" "notifications"));
    [|discriminate].
  destruct (toBoolean (get (db w "settings" "notifications") "enabled"));
    [|discriminate].
  cbn [negb orb].
  destruct (dbFails env (S (List.length (dbRequests w)))); [discriminate|].
  destruct (practicedToday Number (db w "stats" "daily") _);
    [discriminate|].
  destruct (sentToday (db w "settings" "notifications") _);
    [discriminate|].
  destruct (get (db w "settings" "notifications") "time");
    try discriminate.
  intros H. injection H as Hpast Hw.
  split; [|repeat split; try reflexivity; symmetry; exact Hw].
  split; [reflexivity|]. split; [reflexivity|]. split; [reflexivity|].
  exists s. split; [reflexivity | exact Hpast].
Qed.

(** The check never ends with an error. *)
Lemma shouldSendNotification_resolves (w : World) :
  exists b w1,
    shouldSendNotification Number env w = (Resolved b, w1)
    /\ db w1 = db w /\ shown w1 = shown w.
Proof.
  rewrite shouldSendNotification_steps.
  destruct (eligibility_frame w) as [Hdb Hshown].
  destruct (eligibility Number env w) as [[b|e] w1]; cbn [snd] in *;
    do 2 eexists; (split; [reflexivity|]); split; assumption.
Qed.

(** A reminder already sent today stops the check. *)
Lemma shouldSendNotification_sent (w : World) :
  sentToday (db w "settings" "notifications")
            (toDateString (clock env (clockReads w))) = true ->
  exists w1, shouldSendNotification Number env w = (Resolved false, w1).
Proof.
  intros Hsent.
  rewrite shouldSendNotification_steps, eligibility_steps. cbv zeta.
  rewrite Hsent.
  repeat match goal with
         | |- context [if ?c then _ else _] => destruct c
         end; eexists; reflexivity.
Qed.

Lemma lookup_assign (fields : list (string * value)) (k : string) (v : value) :
  lookup k (assign fields k v) = v.
Proof.
  induction fields as [|[k' v'] rest IH]; simpl.
  - rewrite String.eqb_refl. reflexivity.
  - destruct (k =? k') eqn:E; simpl.
    + rewrite String.eqb_refl. reflexivity.
    + rewrite E. exact IH.
Qed.

Lemma get_set (o : value) (k : string) (v : value) :
  toBoolean (get o "enabled") = true -> get (set o k v) k = v.
Proof.
  destruct o; simpl; try discriminate.
  intros _. apply lookup_assign.
Qed.

(** One run: either it shows nothing and writes nothing, or it shows one
    reminder, in a world where the four conditions held; and then, when
    the two database requests of the marking succeed, the settings are
    written back with today's date as [lastNotificationDate]. *)
Lemma sendDailyReminder_run (w : World) :
  let w' := snd (sendDailyReminder Number env w) in
  (shown w' = shown w /\ db w' = db w)
  \/ (exists message,
         In message MESSAGES
         /\ shown w' = (shown w ++ [reminder message])%list
         /\ eligible Number env w
         /\ (dbFails env (2 + List.length (dbRequests w)) = false ->
             dbFails env (3 + List.length (dbRequests w)) = false ->
             db w' = put "settings" "notifications"
                         (set (db w "settings" "notifications")
                              "lastNotificationDate"
                              (VStr (toDateString
                                       (clock env (2 + clockReads w)))))
                         (db w))
         /\ (dbFails env (2 + List.length (dbRequests w)) = true
             \/ dbFails env (3 + List.length (dbRequests w)) = true ->
             db w' = db w
             /\ In "Error updating notification date:" (console w'))).
Proof.
  cbv zeta. rewrite sendDailyReminder_steps.
  destruct (shouldSendNotification_resolves w) as [b [w1 [E [Hdb Hshown]]]].
  rewrite E. destruct b.
  - (* the check passed *)
    destruct (shouldSendNotification_true w w1 E)
      as [Hel [F0 [F1 [Hset Hw1]]]].
    cbv zeta.
    destruct (showFails env (showRequests w1)).
    + left. cbn [snd refused drawn shown db]. split; assumption.
    + right.
      exists (nth (draw env (draws w1) mod List.length MESSAGES)
                  MESSAGES EmptyString).
      split.
      { apply nth_In. apply Nat.mod_upper_bound. discriminate. }
      rewrite markAsSent_steps. cbv zeta.
      cbn [displayed drawn db shown console clockReads dbRequests
           showRequests draws].
      assert (Hlen : List.length (dbRequests w1)
                     = (2 + List.length (dbRequests w))%nat).
      { rewrite Hw1. cbn [tick requested dbRequests].
        rewrite !length_app. simpl. lia. }
      assert (Hclock : clockReads w1 = (2 + clockReads w)%nat).
      { rewrite Hw1. reflexivity. }
      rewrite Hdb, Hset, Hlen, Hclock.
      change (S (2 + List.length (dbRequests w)))%nat
        with (3 + List.length (dbRequests w))%nat.
      destruct (dbFails env (2 + List.length (dbRequests w)));
        [|destruct (dbFails env (3 + List.length (dbRequests w)))];
        cbn [snd printed requested tick stored displayed drawn shown db
             console];
        rewrite ?Hshown, ?Hdb;
        (split; [reflexivity|]);
        (split; [exact Hel|]);
        (split;
         [ intros H2 H3; try discriminate; reflexivity
         | intros [H|H]; try discriminate;
           (split; [reflexivity | apply in_or_app; right; left; reflexivity]) ]).
  - left. cbn [snd]. split; assumption.
Qed.

Lemma sendDailyReminder_sent (w : World) :
  sentToday (db w "settings" "notifications")
            (toDateString (clock env (clockReads w))) = true ->
  shown (snd (sendDailyReminder Number env w)) = shown w
  /\ db (snd (sendDailyReminder Number env w)) = db w.
Proof.
  intros Hsent. rewrite sendDailyReminder_steps.
  destruct (shouldSendNotification_sent w Hsent) as [w1 E].
  destruct (shouldSendNotification_resolves w) as [b [w1' [E' [Hdb Hsh]]]].
  rewrite E in E'. injection E' as Hb Hw. subst b w1'.
  rewrite E. cbn [snd]. split; assumption.
Qed.

(** ** Within one day *)

Section OneDay.
Variable today : string.
Hypothesis same_day : forall n, toDateString (clock env n) = today.

Lemma runs_sent (n : nat) :
  forall w,
    sentToday (db w "settings" "notifications") today = true ->
    shown (runs Number env n w) = shown w.
Proof.
  induction n as [|n IH]; intros w Hsent; [reflexivity|].
  cbn [runs].
  assert (Hsent' : sentToday (db w "settings" "notifications")
                     (toDateString (clock env (clockReads w))) = true)
    by (rewrite same_day; exact Hsent).
  destruct (sendDailyReminder_sent w Hsent') as [Hsh Hdb].
  rewrite IH; [exact Hsh | rewrite Hdb; exact Hsent].
Qed.

Lemma runs_at_most_one (n : nat) :
  (forall k, dbFails env k = false) ->
  forall w,
    (List.length (shown (runs Number env n w))
     <= List.length (shown w) + 1)%nat.
Proof.
  intros Hdb. induction n as [|n IH]; intros w; [simpl; lia|].
  cbn [runs].
  destruct (sendDailyReminder_run w)
    as [[Hsh _]|[m [_ [Hsh [Hel [Hmark _]]]]]].
  - specialize (IH (snd (sendDailyReminder Number env w))).
    rewrite Hsh in IH. exact IH.
  - rewrite runs_sent.
    + rewrite Hsh, length_app. simpl. lia.
    + rewrite (Hmark (Hdb _) (Hdb _)).
      unfold put. rewrite !String.eqb_refl. cbn [andb].
      unfold sentToday. rewrite get_set by apply Hel.
      rewrite same_day. apply String.eqb_refl.
Qed.
(** At most one reminder, when the marking succeeds in each run that
    shows one; the other database requests may fail. *)
Lemma runs_at_most_one_marked (n : nat) :
  forall w,
    (forall k, (k < n)%nat ->
       shown (snd (sendDailyReminder Number env (runs Number env k w)))
       <> shown (runs Number env k w) ->
       dbFails env (2 + List.length (dbRequests (runs Number env k w)))
       = false
       /\ dbFails env (3 + List.length (dbRequests (runs Number env k w)))
          = false) ->
    (List.length (shown (runs Number env n w))
     <= List.length (shown w) + 1)%nat.
Proof.
  induction n as [|n IH]; intros w Hmarked; [simpl; lia|].
  cbn [runs].
  destruct (sendDailyReminder_run w)
    as [[Hsh _]|[m [_ [Hsh [Hel [Hmark _]]]]]].
  - specialize (IH (snd (sendDailyReminder Number env w))).
    rewrite Hsh in IH. apply IH.
    intros k Hk. apply (Hmarked (S k)). lia.
  - rewrite runs_sent.
    + rewrite Hsh, length_app. simpl. lia.
    + destruct (Hmarked 0%nat) as [F2 F3]; [lia| |].
      { cbn [runs]. rewrite Hsh. intros E.
        apply (f_equal (@List.length Notification)) in E.
        rewrite length_app in E. simpl in E. lia. }
      cbn [runs] in F2, F3. rewrite (Hmark F2 F3).
      unfold put. rewrite !String.eqb_refl. cbn [andb].
      unfold sentToday. rewrite get_set by apply Hel.
      rewrite same_day. apply String.eqb_refl.
Qed.
End OneDay.

(** ** When the check fails *)

Lemma eligibility_rejected (w w1 : World) (e : JsError) :
  eligibility Number env w = (Rejected e, w1) ->
  shouldSendNotification Number env w
  = (Resolved false, printed "Error checking notification status:" w1)
  /\ exists rs, dbRequests w1 = (dbRequests w ++ rs)%list /\ NoDup rs.
Proof.
  intros H. split.
  - rewrite shouldSendNotification_steps, H. reflexivity.
  - revert H. rewrite eligibility_steps. cbv zeta.
    assert (N1 : NoDup [Get "settings" "notifications"])
      by (repeat constructor; simpl; intuition).
    assert (N2 : NoDup [Get "settings" "notifications";
                        Get "stats" "daily"])
      by (repeat constructor; simpl; intuition discriminate).
    repeat match goal with
           | |- context [if ?c then _ else _] => destruct c
           | |- context [match ?v with VStr _ => _ | _ => _ end] =>
               destruct v
           end;
      intros H; try discriminate; injection H as _ Hw; subst w1;
      cbn [tick requested dbRequests];
      rewrite <- ?app_assoc; eexists; (split; [reflexivity|]);
      cbn [app]; assumption.
Qed.

Lemma eligibility_read_fails (w : World) :
  dbFails env (List.length (dbRequests w)) = true
  \/ (toBoolean (db w "settings" "notifications") = true
      /\ toBoolean (get (db w "settings" "notifications") "enabled") = true
      /\ dbFails env (List.length (dbRequests w)) = false
      /\ dbFails env (S (List.length (dbRequests w))) = true) ->
  exists w1, eligibility Number env w = (Rejected dbError, w1).
Proof.
  rewrite eligibility_steps. cbv zeta.
  intros [F0|[S0 [S1 [F0 F1]]]].
  - rewrite F0. eexists; reflexivity.
  - rewrite F0, S0, S1, F1. eexists; reflexivity.
Qed.

End WithEnvironment.

(** C7 (as amended).  In every run of the daily reminder a notification
    is shown only if notifications are enabled in the stored settings,
    the stored stats record no practiced speech for today, no reminder
    was sent today and the clock is at or past the scheduled time; what
    is shown is then one reminder.  When the read and the write of the
    marking succeed, the settings are stored with today's date as
    [lastNotificationDate]; when one of them fails, the error is logged
    and the database stays as it was.  Over runs whose clock readings all
    fall on one day, and in which the read and the write of the marking
    succeed in every run that shows a reminder, at most one reminder is
    shown, whichever other database requests fail. *)
Theorem daily_reminder_once
    (Number : string -> number) (env : Env) (w : World)
    (today : string) (n : nat) :
  (shown (snd (sendDailyReminder Number env w)) <> shown w ->
   eligible Number env w
   /\ (exists message,
          In message MESSAGES
          /\ shown (snd (sendDailyReminder Number env w))
             = (shown w ++ [reminder message])%list)
   /\ (dbFails env (2 + List.length (dbRequests w)) = false ->
       dbFails env (3 + List.length (dbRequests w)) = false ->
       get (db (snd (sendDailyReminder Number env w))
               "settings" "notifications")
           "lastNotificationDate"
       = VStr (toDateString (clock env (2 + clockReads w))))
   /\ (dbFails env (2 + List.length (dbRequests w)) = true
       \/ dbFails env (3 + List.length (dbRequests w)) = true ->
       db (snd (sendDailyReminder Number env w)) = db w
       /\ In "Error updating notification date:"
             (console (snd (sendDailyReminder Number env w)))))
  /\ ((forall k, toDateString (clock env k) = today) ->
      (forall k, (k < n)%nat ->
         shown (snd (sendDailyReminder Number env (runs Number env k w)))
         <> shown (runs Number env k w) ->
         dbFails env (2 + List.length (dbRequests (runs Number env k w)))
         = false
         /\ dbFails env (3 + List.length (dbRequests (runs Number env k w)))
            = false) ->
      (List.length (shown (runs Number env n w))
       <= List.length (shown w) + 1)%nat).
Proof.
  split.
  - intros Hshown.
    destruct (sendDailyReminder_run Number env w)
      as [[Hsh _]|[m [Hin [Hsh [Hel [Hmark Hfail]]]]]]; [contradiction|].
    split; [exact Hel|]. split; [exists m; split; assumption|].
    split; [|exact Hfail].
    intros F2 F3. rewrite (Hmark F2 F3).
    unfold put. rewrite !String.eqb_refl. cbn [andb].
    apply get_set. apply Hel.
  - intros Hday Hmarked.
    apply (runs_at_most_one_marked Number env today Hday n w Hmarked).
Qed.

Lemma daily_reminder_once_witness :
  eligible NumberOfDigits steadyEnv startWorld
  /\ get (db (snd (sendDailyReminder NumberOfDigits steadyEnv startWorld))
             "settings" "notifications")
         "lastNotificationDate"
     = VStr "Mon Nov 02 2026"
  /\ (List.length (shown (runs NumberOfDigits steadyEnv 3 startWorld))
      <= 1)%nat
  /\ (List.length (shown (runs NumberOfDigits slowStartEnv 5 startWorld))
      <= 1)%nat.
Proof.
  destruct (daily_reminder_once NumberOfDigits steadyEnv startWorld
              "Mon Nov 02 2026" 3) as [H1 H2].
  destruct (daily_reminder_once NumberOfDigits slowStartEnv startWorld
              "Mon Nov 02 2026" 5) as [_ H3].
  assert (Hshown : shown (snd (sendDailyReminder NumberOfDigits steadyEnv
                                                 startWorld))
                   <> shown startWorld)
    by (vm_compute; discriminate).
  destruct (H1 Hshown) as [Hel [_ [Hmark _]]].
  split; [exact Hel|]. split; [|split].
  - apply Hmark; reflexivity.
  - apply H2; [intros k; reflexivity|].
    intros k _ _. split; reflexivity.
  - apply H3; [intros k; reflexivity|].
    intros k _ _. split; reflexivity.
Defined.

Example three_runs_one_reminder :
  shown (runs NumberOfDigits steadyEnv 3 startWorld)
  = [reminder "Time to flex your speaking muscles!"].
Proof. vm_compute. reflexivity. Qed.

(** The first run fails on its first read; the second shows the reminder
    and marks it; the three after it show nothing. *)
Example failed_read_one_reminder :
  dbFails slowStartEnv 0 = true
  /\ shown (runs NumberOfDigits slowStartEnv 1 startWorld) = []
  /\ shown (runs NumberOfDigits slowStartEnv 5 startWorld)
     = [reminder "Time to flex your speaking muscles!"].
Proof. repeat split; vm_compute; reflexivity. Qed.

(** C7 as stated fails: when the write of the marking fails, the error is
    caught and logged, [lastNotificationDate] stays unset, and the next
    run of the same day shows a second reminder. *)
Lemma daily_reminder_twice_when_write_fails :
  (forall k, toDateString (clock flakyEnv k) = "Mon Nov 02 2026")
  /\ get (db (runs NumberOfDigits flakyEnv 1 startWorld)
             "settings" "notifications")
         "lastNotificationDate" = VUndefined
  /\ console (runs NumberOfDigits flakyEnv 1 startWorld)
     = ["Error updating notification date:"]
  /\ List.length (shown (runs NumberOfDigits flakyEnv 2 startWorld)) = 2%nat.
Proof.
  split; [intros k; reflexivity|].
  split; [vm_compute; reflexivity|].
  split; vm_compute; reflexivity.
Qed.

End ServiceWorkerFacts.

(* ================================================================== *)
(** * Failure handling *)
(* ================================================================== *)

Module FailureHandling.
Import JSNumber JSString JSValue Effect.
Import HandlersFacts ServiceWorkerFacts.

Local Open Scope string_scope.

(** C5 (as amended).  On the failure paths of the feedback handlers and
    of the notification-eligibility check the error is caught and
    logged, and an error response or the neutral answer is returned: a
    text-only handler whose completion call throws answers 500 with a
    JSON error; the audio handler whose [try] block throws answers with
    a JSON error whose status is the thrown error's own status when it
    has one that is not zero, and 500 otherwise; the eligibility check
    answers [false] when its [try] block throws, as it does when one of
    its two storage reads fails.  No operation is called again after it
    failed: each is called at most once. *)
Theorem failures_are_caught
    (parseFloat : string -> number) (henv : Handlers.Env)
    (req : Handlers.Request) (hw hw1 : Handlers.World)
    (model text : string) (e e1 e2 : JsError)
    (Number : string -> number) (senv : ServiceWorker.Env)
    (sw sw1 : ServiceWorker.World) :
  (Handlers.method req = "POST" ->
   Handlers.transcriptText (Handlers.body_text req) = Some text ->
   Handlers.completion_outcome henv = Rejected e ->
   Handlers.textHandler henv model req hw
   = (Resolved (Handlers.json 500 []
                  (Handlers.errorBody "Failed to generate feedback")),
      Handlers.mkWorld
        (Handlers.console hw
         ++ [Handlers.mkLog Handlers.ConsoleError
                            "Feedback generation failed:"
                            [VStr (message e)]])%list
        (Handlers.calls hw ++ [Handlers.ChatCompletion model])%list))
  /\ (Handlers.method req = "POST" ->
      Handlers.handlerBody parseFloat henv req hw = (Rejected e1, hw1) ->
      exists resp hw2,
        Handlers.handler parseFloat henv req hw = (Resolved resp, hw2)
        /\ Handlers.isErrorResponse resp
        /\ Handlers.code resp
           = match Handlers.truthyStatus e1 with
             | Some st => st
             | None => 500%Z
             end
        /\ Handlers.logged "Feedback generation failed:" hw2
        /\ Handlers.calls hw2 = Handlers.calls hw1
        /\ exists cs, Handlers.calls hw1 = (Handlers.calls hw ++ cs)%list
                      /\ NoDup cs)
  /\ (ServiceWorker.eligibility Number senv sw = (Rejected e2, sw1) ->
      ServiceWorker.shouldSendNotification Number senv sw
      = (Resolved false,
         ServiceWorker.printed "Error checking notification status:" sw1)
      /\ exists rs,
           ServiceWorker.dbRequests sw1
           = (ServiceWorker.dbRequests sw ++ rs)%list
           /\ NoDup rs)
  /\ (ServiceWorker.dbFails senv (List.length (ServiceWorker.dbRequests sw))
      = true
      \/ (ServiceWorker.toBoolean
            (ServiceWorker.db sw "settings" "notifications") = true
          /\ ServiceWorker.toBoolean
               (get (ServiceWorker.db sw "settings" "notifications") "enabled")
             = true
          /\ ServiceWorker.dbFails senv
               (List.length (ServiceWorker.dbRequests sw)) = false
          /\ ServiceWorker.dbFails senv
               (S (List.length (ServiceWorker.dbRequests sw))) = true) ->
      exists sw', ServiceWorker.eligibility Number senv sw
                  = (Rejected ServiceWorker.dbError, sw')).
Proof.
  split; [|split; [|split]].
  - intros Hm Ht Hc. unfold Handlers.textHandler.
    rewrite Hm, Ht. cbn [String.eqb Ascii.eqb Bool.eqb negb].
    unfold tryCatch, bind, Handlers.call. rewrite Hc. reflexivity.
  - intros Hm Hbody.
    destruct (handlerCatch_response henv e1 hw1)
      as [resp [hw2 [Hcatch [Herr [Hcode [Hlog Hcalls]]]]]].
    exists resp, hw2.
    split.
    { rewrite (handler_post parseFloat henv req Hm).
      unfold tryCatch. rewrite Hbody. exact Hcatch. }
    split; [exact Herr|]. split; [exact Hcode|]. split; [exact Hlog|].
    split; [exact Hcalls|].
    pose proof (handlerBody_calls parseFloat henv req hw) as Hcs.
    rewrite Hbody in Hcs. exact Hcs.
  - apply eligibility_rejected.
  - apply eligibility_read_fails.
Qed.

Lemma failures_are_caught_witness :
  Handlers.textHandler Handlers.offlineEnv "gpt-4o" Handlers.textRequest
                       Handlers.emptyWorld
  = (Resolved (Handlers.json 500 []
                 (Handlers.errorBody "Failed to generate feedback")),
     Handlers.mkWorld
       [Handlers.mkLog Handlers.ConsoleError "Feedback generation failed:"
                       [VStr "Connection error."]]
       [Handlers.ChatCompletion "gpt-4o"])
  /\ (exists resp hw2,
         Handlers.handler Handlers.parseDigits (Handlers.refusedEnv 429)
                          Handlers.multipartRequest Handlers.emptyWorld
         = (Resolved resp, hw2)
         /\ Handlers.isErrorResponse resp
         /\ Handlers.code resp = 429%Z
         /\ Handlers.calls hw2
            = [Handlers.ParseForm; Handlers.Transcribe "whisper-1"])
  /\ ServiceWorker.shouldSendNotification
       ServiceWorker.NumberOfDigits ServiceWorker.brokenEnv
       ServiceWorker.startWorld
     = (Resolved false,
        ServiceWorker.printed "Error checking notification status:"
          (ServiceWorker.requested
             (ServiceWorker.Get "settings" "notifications")
             ServiceWorker.startWorld)).
Proof.
  destruct (failures_are_caught
              Handlers.parseDigits (Handlers.refusedEnv 429)
              Handlers.multipartRequest Handlers.emptyWorld
              (snd (Handlers.handlerBody Handlers.parseDigits
                      (Handlers.refusedEnv 429) Handlers.multipartRequest
                      Handlers.emptyWorld))
              "gpt-4o" "Hello everyone."
              (mkError None "Connection error.")
              (mkError (Some 429%Z) "The request was refused")
              ServiceWorker.dbError
              ServiceWorker.NumberOfDigits ServiceWorker.brokenEnv
              ServiceWorker.startWorld
              (ServiceWorker.requested
                 (ServiceWorker.Get "settings" "notifications")
                 ServiceWorker.startWorld))
    as [_ [H2 [H3 _]]].
  split; [|split].
  - apply (failures_are_caught
             Handlers.parseDigits Handlers.offlineEnv Handlers.textRequest
             Handlers.emptyWorld Handlers.emptyWorld
             "gpt-4o" "Hello everyone."
             (mkError None "Connection error.")
             (mkError None "Connection error.")
             ServiceWorker.dbError
             ServiceWorker.NumberOfDigits ServiceWorker.brokenEnv
             ServiceWorker.startWorld ServiceWorker.startWorld);
      reflexivity.
  - destruct H2 as [resp [hw2 [H [Herr [Hcode [_ [Hcalls _]]]]]]];
      [reflexivity | reflexivity |].
    exists resp, hw2.
    split; [exact H|]. split; [exact Herr|]. split; [exact Hcode|].
    rewrite Hcalls. reflexivity.
  - apply H3. reflexivity.
Defined.

(** C5 as stated fails twice.  The audio handler forwards whatever
    status the thrown error carries, a 302 as well as a 429; and in the
    reminder itself a refused [showNotification] is neither caught nor
    logged: the run ends with that error. *)
Lemma failures_not_as_claimed :
  (exists resp hw2,
      Handlers.handlerBody Handlers.parseDigits (Handlers.refusedEnv 302)
                           Handlers.multipartRequest Handlers.emptyWorld
      = (Rejected (mkError (Some 302%Z) "The request was refused"),
         Handlers.mkWorld
           [Handlers.mkLog Handlers.ConsoleLog "Processing audio file"
                           [VStr "speech.webm"; VNum (ofNat 1000)]]
           [Handlers.ParseForm; Handlers.Transcribe "whisper-1"])
      /\ Handlers.handler Handlers.parseDigits (Handlers.refusedEnv 302)
                          Handlers.multipartRequest Handlers.emptyWorld
         = (Resolved resp, hw2)
      /\ Handlers.code resp = 302%Z
      /\ ~ Handlers.isErrorStatus (Handlers.code resp))
  /\ (exists w',
         ServiceWorker.sendDailyReminder
           ServiceWorker.NumberOfDigits ServiceWorker.deniedEnv
           ServiceWorker.startWorld
         = (Rejected ServiceWorker.notAllowed, w')
         /\ ServiceWorker.console w' = []
         /\ ServiceWorker.shown w' = []).
Proof.
  split.
  - do 2 eexists. split; [vm_compute; reflexivity|].
    split; [vm_compute; reflexivity|].
    split; [reflexivity|].
    unfold Handlers.isErrorStatus. cbn [Handlers.code]. lia.
  - eexists. split; [vm_compute; reflexivity|].
    split; reflexivity.
Qed.

End FailureHandling.

(* ================================================================== *)
(** * Properties of the caches, the clients and the schema *)
(* ================================================================== *)

Module WorkerFacts.
Import JSNumber JSString JSValue Effect ServiceWorker Worker.

Local Open Scope string_scope.

(** ** Activation *)

Lemma cacheDelete_all (keys : list string) :
  forall storage,
    fold_left (fun s key => cacheDelete key s) keys storage
    = filter (fun c => negb (existsb (String.eqb (fst c)) keys)) storage.
Proof.
  induction keys as [|k rest IH]; intros storage; simpl.
  - induction storage as [|c s IHs]; simpl; [reflexivity|].
    rewrite <- IHs. reflexivity.
  - rewrite IH. unfold cacheDelete.
    induction storage as [|c s IHs]; simpl; [reflexivity|].
    destruct (fst c =? k); simpl.
    + exact IHs.
    + destruct (existsb (String.eqb (fst c)) rest); simpl;
        [exact IHs | rewrite IHs; reflexivity].
Qed.

Lemma stale_key (storage : CacheStorage) (name : string) :
  In name (cacheKeys storage) ->
  existsb (String.eqb name)
          (filter (fun key => negb (key =? CACHE_NAME)) (cacheKeys storage))
  = negb (name =? CACHE_NAME).
Proof.
  intros Hin.
  destruct (name =? CACHE_NAME) eqn:E; simpl.
  - apply String.eqb_eq in E. subst name.
    destruct (existsb _ _) eqn:X; [|reflexivity].
    apply existsb_exists in X. destruct X as [k [Hk Ek]].
    apply filter_In in Hk. destruct Hk as [_ Hk].
    apply String.eqb_eq in Ek. subst k.
    rewrite String.eqb_refl in Hk. discriminate.
  - apply existsb_exists. exists name. split; [|apply String.eqb_refl].
    apply filter_In. split; [exact Hin | rewrite E; reflexivity].
Qed.

Lemma activate_filter (storage : CacheStorage) :
  activate storage = filter (fun c => fst c =? CACHE_NAME) storage.
Proof.
  unfold activate. rewrite cacheDelete_all.
  apply filter_ext_in. intros c Hc.
  rewrite stale_key by (unfold cacheKeys; apply in_map; exact Hc).
  apply negb_involutive.
Qed.

Lemma cacheNamed_filter (storage : CacheStorage) :
  cacheNamed CACHE_NAME (filter (fun c => fst c =? CACHE_NAME) storage)
  = cacheNamed CACHE_NAME storage.
Proof.
  induction storage as [|[n c] rest IH]; simpl; [reflexivity|].
  destruct (n =? CACHE_NAME) eqn:E; simpl; [rewrite E; reflexivity | exact IH].
Qed.

(** X1.  After activation every cache left is the current one, with the
    content it had; the caches of other names are gone. *)
Theorem activate_keeps_current_cache (storage : CacheStorage) :
  (forall name, In name (cacheKeys (activate storage)) -> name = CACHE_NAME)
  /\ cacheNamed CACHE_NAME (activate storage) = cacheNamed CACHE_NAME storage
  /\ (forall name, name <> CACHE_NAME ->
                   cacheNamed name (activate storage) = None).
Proof.
  rewrite activate_filter. split; [|split].
  - intros name Hin. unfold cacheKeys in Hin.
    apply in_map_iff in Hin. destruct Hin as [c [Hc Hin]].
    apply filter_In in Hin. destruct Hin as [_ E].
    apply String.eqb_eq in E. congruence.
  - apply cacheNamed_filter.
  - intros name Hne.
    induction storage as [|[n c] rest IH]; simpl; [reflexivity|].
    destruct (n =? CACHE_NAME) eqn:E; simpl; [|exact IH].
    apply String.eqb_eq in E. subst n.
    destruct (CACHE_NAME =? name) eqn:E'; [|exact IH].
    apply String.eqb_eq in E'. congruence.
Qed.


(** ** Installation *)

Lemma append_injective (origin a b : string) :
  origin ++ a = origin ++ b -> a = b.
Proof.
  induction origin as [|c origin IH]; simpl; intros H; [exact H|].
  injection H as H. exact (IH H).
Qed.

Lemma fetchAll_fetched (network : Network) (urls : list string) :
  forall responses,
    fetchAll network urls = Some responses ->
    map fst responses = urls
    /\ forall u r, In (u, r) responses -> network u = Some r.
Proof.
  induction urls as [|u rest IH]; simpl; intros responses H.
  - injection H as H. subst responses. split; [reflexivity|].
    intros ? ? [].
  - destruct (network u) as [r|] eqn:N; [|discriminate].
    destruct (fetchAll network rest) as [rs|]; [|discriminate].
    injection H as H. subst responses.
    destruct (IH rs eq_refl) as [Hfst Hin]. split.
    + simpl. rewrite Hfst. reflexivity.
    + intros u' r' [E|E]; [congruence | exact (Hin u' r' E)].
Qed.

Lemma fetchAll_failed (network : Network) (urls : list string) (u : string) :
  In u urls -> network u = None -> fetchAll network urls = None.
Proof.
  induction urls as [|u' rest IH]; simpl; intros Hin N; [contradiction|].
  destruct Hin as [E|Hin].
  - subst u'. rewrite N. reflexivity.
  - rewrite (IH Hin N). destruct (network u'); reflexivity.
Qed.

Lemma cacheMatch_put (u u' : string) (r : Response) (cache : Cache) :
  cacheMatch u (cachePut u' r cache)
  = if u' =? u then Some r else cacheMatch u cache.
Proof.
  induction cache as [|[k v] rest IH]; simpl.
  - reflexivity.
  - destruct (k =? u') eqn:E; simpl.
    + apply String.eqb_eq in E. subst k.
      destruct (u' =? u); reflexivity.
    + rewrite IH. destruct (k =? u) eqn:E'; [|reflexivity].
      apply String.eqb_eq in E'. subst k. rewrite String.eqb_sym, E.
      reflexivity.
Qed.

Lemma cacheMatch_putAll_other (u : string) (responses : list (string * Response)) :
  forall cache,
    ~ In u (map fst responses) ->
    cacheMatch u (fold_left (fun c ur => cachePut (fst ur) (snd ur) c)
                            responses cache)
    = cacheMatch u cache.
Proof.
  induction responses as [|[k v] rest IH]; intros cache Hnot; simpl;
    [reflexivity|].
  rewrite IH by (intros H; apply Hnot; right; exact H).
  rewrite cacheMatch_put. simpl.
  destruct (k =? u) eqn:E; [|reflexivity].
  apply String.eqb_eq in E. exfalso. apply Hnot. left. exact E.
Qed.

Lemma cacheMatch_putAll (u : string) (r : Response)
    (responses : list (string * Response)) :
  forall cache,
    NoDup (map fst responses) ->
    In (u, r) responses ->
    cacheMatch u (fold_left (fun c ur => cachePut (fst ur) (snd ur) c)
                            responses cache)
    = Some r.
Proof.
  induction responses as [|[k v] rest IH]; intros cache Hnd Hin;
    [contradiction|].
  simpl in Hnd. inversion Hnd as [|? ? Hk Hrest]. subst.
  destruct Hin as [E|Hin].
  - injection E as -> ->. simpl.
    rewrite cacheMatch_putAll_other by exact Hk.
    rewrite cacheMatch_put, String.eqb_refl. reflexivity.
  - simpl. apply IH; assumption.
Qed.

Lemma current_first (cache : Cache) (storage : CacheStorage) :
  exists rest,
    filter (fun c => fst c =? CACHE_NAME) (cacheStore CACHE_NAME cache storage)
    = (CACHE_NAME, cache) :: rest.
Proof.
  induction storage as [|[n c] s IH]; simpl.
  - eexists. reflexivity.
  - destruct (n =? CACHE_NAME) eqn:E; simpl.
    + eexists. reflexivity.
    + rewrite E. exact IH.
Qed.

Lemma assets_distinct (origin : string) :
  NoDup (map (append origin) ASSETS).
Proof.
  assert (H : NoDup ASSETS)
    by (unfold ASSETS; repeat constructor; simpl; intuition discriminate).
  induction H as [|a rest Hnot Hnd IH]; simpl; constructor; [|exact IH].
  intros Hin. apply in_map_iff in Hin. destruct Hin as [b [E Hb]].
  apply append_injective in E. subst b. contradiction.
Qed.

(** X2.  Once the installation has succeeded and the worker is activated, a
    GET of any of the assets is answered from the cache with the response
    the network gave at the installation, whatever the network does by
    then. *)
Theorem installed_assets_served_offline
    (origin : string) (network : Network) (storage installed : CacheStorage)
    (asset : string) :
  install origin network storage = (true, installed) ->
  In asset ASSETS ->
  Handlers.contains "/api/" (origin ++ asset) = false ->
  exists r,
    network (origin ++ asset) = Some r
    /\ forall later : Network,
         onFetch (activate installed) later (mkFetch "GET" (origin ++ asset))
         = FromCache r.
Proof.
  intros Hinstall Hasset Hapi. unfold install in Hinstall.
  destruct (fetchAll network (map (append origin) ASSETS))
    as [responses|] eqn:F; [|discriminate].
  injection Hinstall as Hinstalled.
  destruct (fetchAll_fetched _ _ _ F) as [Hfst Hnet].
  assert (Hin : In (origin ++ asset) (map fst responses))
    by (rewrite Hfst; apply in_map; exact Hasset).
  apply in_map_iff in Hin. destruct Hin as [[u r] [Hu Hin]].
  simpl in Hu. subst u.
  exists r. split; [exact (Hnet _ _ Hin)|].
  intros later. unfold onFetch. cbn [fetch_method fetch_url].
  rewrite Hapi. cbn [String.eqb Ascii.eqb Bool.eqb negb orb].
  rewrite activate_filter, <- Hinstalled.
  match goal with
  | |- context [cacheStore CACHE_NAME ?c ?s] =>
      destruct (current_first c s) as [rest ->]
  end.
  cbn [cachesMatch].
  rewrite (cacheMatch_putAll (origin ++ asset) r); [reflexivity| |exact Hin].
  rewrite Hfst. apply assets_distinct.
Qed.

Lemma installed_assets_served_offline_witness :
  exists r,
    (fun url => Some ("response to " ++ url)) ("https://gym.example" ++ "/index.html")
    = Some r
    /\ forall later : Network,
         onFetch
           (activate
              (snd (install "https://gym.example"
                            (fun url => Some ("response to " ++ url))
                            [("speakers-gym-v1", [])])))
           later (mkFetch "GET" ("https://gym.example" ++ "/index.html"))
         = FromCache r.
Proof.
  apply (installed_assets_served_offline
           "https://gym.example" (fun url => Some ("response to " ++ url))
           [("speakers-gym-v1", [])]).
  - reflexivity.
  - simpl. intuition.
  - reflexivity.
Defined.

Lemma cachesMatch_store (url : string) (storage : CacheStorage) :
  cachesMatch url
    (cacheStore CACHE_NAME
       (match cacheNamed CACHE_NAME storage with Some c => c | None => [] end)
       storage)
  = cachesMatch url storage.
Proof.
  induction storage as [|[n c] s IH]; simpl; [reflexivity|].
  destruct (n =? CACHE_NAME) eqn:E; simpl; [reflexivity|].
  rewrite IH. reflexivity.
Qed.

(** X3.  When the request for one of the assets fails, the installation fails
    and no cache answers any request differently from before: none of the
    other responses has been stored. *)
Theorem failed_install_stores_nothing
    (origin : string) (network : Network) (storage : CacheStorage)
    (asset : string) :
  In asset ASSETS ->
  network (origin ++ asset) = None ->
  fst (install origin network storage) = false
  /\ forall url,
       cachesMatch url (snd (install origin network storage))
       = cachesMatch url storage.
Proof.
  intros Hasset Hnone. unfold install.
  rewrite (fetchAll_failed network _ (origin ++ asset));
    [|apply in_map; exact Hasset | exact Hnone].
  split; [reflexivity|]. intros url. cbn [snd]. apply cachesMatch_store.
Qed.

Lemma failed_install_stores_nothing_witness :
  fst (install "https://gym.example"
               (fun url => if url =? "https://gym.example/manifest.json"
                           then None else Some url)
               [("speakers-gym-v1", [("https://gym.example/", "old")])])
  = false
  /\ forall url,
       cachesMatch url
         (snd (install "https://gym.example"
                 (fun url => if url =? "https://gym.example/manifest.json"
                             then None else Some url)
                 [("speakers-gym-v1", [("https://gym.example/", "old")])]))
       = cachesMatch url
           [("speakers-gym-v1", [("https://gym.example/", "old")])].
Proof.
  apply (failed_install_stores_nothing
           "https://gym.example"
           (fun url => if url =? "https://gym.example/manifest.json"
                       then None else Some url)
           [("speakers-gym-v1", [("https://gym.example/", "old")])]
           "/manifest.json").
  - simpl. intuition.
  - reflexivity.
Defined.

(** ** Notification clicks *)

Lemma firstFocusable_first (origin : string) (clientList : list Client) :
  match firstFocusable origin clientList with
  | Some client =>
      exists before after,
        clientList = (before ++ client :: after)%list
        /\ Handlers.contains origin (client_url client) = true
        /\ can_focus client = true
        /\ forall c, In c before ->
             Handlers.contains origin (client_url c) && can_focus c = false
  | None =>
      forall c, In c clientList ->
        Handlers.contains origin (client_url c) && can_focus c = false
  end.
Proof.
  induction clientList as [|c rest IH]; simpl.
  - intros ? [].
  - destruct (Handlers.contains origin (client_url c) && can_focus c) eqn:E.
    + exists [], rest. apply andb_true_iff in E. destruct E as [E1 E2].
      repeat split; try assumption. intros ? [].
    + destruct (firstFocusable origin rest) as [client|].
      * destruct IH as [before [after [Hl [H1 [H2 Hb]]]]].
        exists (c :: before), after. rewrite Hl.
        repeat split; try assumption.
        intros c' [<-|Hin]; [exact E | exact (Hb c' Hin)].
      * intros c' [<-|Hin]; [exact E | exact (IH c' Hin)].
Qed.

(** X4.  A click on a notification focuses the first window of the list that
    is at the worker's origin and can be focused; a new window is opened,
    at ["/"], only when there is no such window; and nothing is done only
    when there is none and windows cannot be opened. *)
Theorem notification_click_focuses_first
    (origin : string) (canOpen : bool) (clientList : list Client) :
  (forall client,
      onNotificationClick origin canOpen clientList = Focus client ->
      exists before after,
        clientList = (before ++ client :: after)%list
        /\ Handlers.contains origin (client_url client) = true
        /\ can_focus client = true
        /\ forall c, In c before ->
             Handlers.contains origin (client_url c) && can_focus c = false)
  /\ (forall url,
        onNotificationClick origin canOpen clientList = OpenWindow url ->
        url = "/" /\ canOpen = true
        /\ forall c, In c clientList ->
             Handlers.contains origin (client_url c) && can_focus c = false)
  /\ (onNotificationClick origin canOpen clientList = NoAction ->
      canOpen = false
      /\ forall c, In c clientList ->
           Handlers.contains origin (client_url c) && can_focus c = false).
Proof.
  unfold onNotificationClick.
  pose proof (firstFocusable_first origin clientList) as H.
  destruct (firstFocusable origin clientList) as [client|].
  - split; [|split]; [|discriminate|discriminate].
    intros c E. injection E as <-. exact H.
  - destruct canOpen; (split; [discriminate|split]);
      try discriminate.
    + intros url E. injection E as <-. repeat split. exact H.
    + intros _. split; [reflexivity | exact H].
Qed.

(** ** The schema *)

Lemma createIfMissing_spec (name : string) (names : list string) :
  In name (createIfMissing name names)
  /\ (exists added, createIfMissing name names = (names ++ added)%list
                    /\ (In name names -> added = [])
                    /\ (~ In name names -> added = [name]))
  /\ (NoDup names -> NoDup (createIfMissing name names)).
Proof.
  unfold createIfMissing.
  destruct (existsb (String.eqb name) names) eqn:E.
  - apply existsb_exists in E. destruct E as [n [Hin E]].
    apply String.eqb_eq in E. subst n.
    split; [exact Hin|]. split; [|tauto].
    exists []. rewrite app_nil_r. split; [reflexivity|].
    split; [reflexivity | intros H; contradiction].
  - assert (Hnot : ~ In name names).
    { intros Hin. apply Bool.not_true_iff_false in E. apply E.
      apply existsb_exists. exists name. split; [exact Hin|].
      apply String.eqb_refl. }
    split; [apply in_or_app; right; left; reflexivity|]. split.
    + exists [name]. split; [reflexivity|].
      split; [intros H; contradiction | reflexivity].
    + intros Hnd. apply NoDup_app; [exact Hnd | repeat constructor; intros [] |].
      intros a Ha [<-|[]]. contradiction.
Qed.

(** X5.  The upgrade leaves a database that has both object stores; it keeps
    the stores there were, in their order, and creates no store twice:
    store names that were distinct stay distinct, and an upgrade of an
    upgraded database changes nothing. *)
Theorem upgrade_creates_both_stores (names : list string) :
  In "settings" (onUpgradeNeeded names)
  /\ In "stats" (onUpgradeNeeded names)
  /\ (exists added, onUpgradeNeeded names = (names ++ added)%list
                    /\ forall n, In n added -> n = "settings" \/ n = "stats")
  /\ (NoDup names -> NoDup (onUpgradeNeeded names))
  /\ onUpgradeNeeded (onUpgradeNeeded names) = onUpgradeNeeded names.
Proof.
  unfold onUpgradeNeeded.
  destruct (createIfMissing_spec "settings" names)
    as [S1 [[a1 [E1 [A1 A1']]] N1]].
  destruct (createIfMissing_spec "stats" (createIfMissing "settings" names))
    as [S2 [[a2 [E2 [A2 A2']]] N2]].
  assert (Hsettings : In "settings"
            (createIfMissing "stats" (createIfMissing "settings" names))).
  { rewrite E2. apply in_or_app. left. exact S1. }
  split; [exact Hsettings|]. split; [exact S2|]. split; [|split].
  - exists (a1 ++ a2)%list. split.
    + rewrite E2, E1, app_assoc. reflexivity.
    + intros n Hn. apply in_app_or in Hn. destruct Hn as [Hn|Hn].
      * left. destruct (in_dec string_dec "settings" names) as [i|i];
          [rewrite (A1 i) in Hn; contradiction|].
        rewrite (A1' i) in Hn. destruct Hn as [<-|[]]. reflexivity.
      * right.
        destruct (in_dec string_dec "stats" (createIfMissing "settings" names))
          as [i|i]; [rewrite (A2 i) in Hn; contradiction|].
        rewrite (A2' i) in Hn. destruct Hn as [<-|[]]. reflexivity.
  - intros Hnd. exact (N2 (N1 Hnd)).
  - destruct (createIfMissing_spec "settings"
                (createIfMissing "stats" (createIfMissing "settings" names)))
      as [_ [[a3 [E3 [A3 _]]] _]].
    rewrite E3, (A3 Hsettings), app_nil_r.
    destruct (createIfMissing_spec "stats"
                (createIfMissing "stats" (createIfMissing "settings" names)))
      as [_ [[a4 [E4 [A4 _]]] _]].
    rewrite E4, (A4 S2), app_nil_r. reflexivity.
Qed.

End WorkerFacts.

(* ================================================================== *)
(** * The order of integers as numbers *)
(* ================================================================== *)

Module IntegerFacts.
Import JSNumber JSNumberFacts.

Local Open Scope Z_scope.

Lemma digits2_pos_upper (p : positive) : Zpos p < 2 ^ Zpos (digits2_pos p).
Proof.
  induction p as [q IH|q IH|]; simpl digits2_pos.
  - rewrite Pos2Z.inj_succ, Z.pow_succ_r by lia. lia.
  - rewrite Pos2Z.inj_succ, Z.pow_succ_r by lia. lia.
  - simpl. lia.
Qed.

(** The number of a positive integer below 2^53: its mantissa is the
    integer shifted to 53 bits. *)
Lemma round_canonical (s : bool) (p : positive) :
  Zpos p < 2 ^ 53 ->
  exists m,
    binary_round prec emax s p 0
    = S754_finite s m (Zpos (digits2_pos p) - 53)
    /\ Zpos m = Zpos p * 2 ^ (53 - Zpos (digits2_pos p)).
Proof.
  intros Hp. pose proof (digits2_pos_bound p Hp) as Hd.
  unfold binary_round, shl_align, fexp, emin, prec, emax.
  replace (Z.max (Zpos (digits2_pos p) + 0 - 53) (3 - 1024 - 53))
    with (Zpos (digits2_pos p) - 53) by lia.
  destruct (Zpos (digits2_pos p) - 53 - 0) as [|q|q] eqn:E; try lia.
  - exists p.
    rewrite (round_aux_exact s p); [|lia|lia].
    replace (Zpos (digits2_pos p) - 53) with 0 by lia.
    split; [reflexivity|].
    replace (53 - Zpos (digits2_pos p)) with 0 by lia. simpl. lia.
  - exists (Pos.iter xO p q).
    rewrite (round_aux_exact s).
    + split; [reflexivity|]. rewrite value_iter. f_equal. f_equal. lia.
    + rewrite digits2_pos_iter. lia.
    + lia.
Qed.

Lemma compare_rounded (p q : positive) :
  Zpos p < 2 ^ 53 -> Zpos q < 2 ^ 53 ->
  SFcompare (binary_round prec emax false p 0)
            (binary_round prec emax false q 0)
  = Some (Pos.compare p q)
  /\ SFcompare (binary_round prec emax true p 0)
               (binary_round prec emax true q 0)
     = Some (Pos.compare q p).
Proof.
  intros Hp Hq.
  destruct (round_canonical false p Hp) as [m1 [E1 V1]].
  destruct (round_canonical false q Hq) as [m2 [E2 V2]].
  destruct (round_canonical true p Hp) as [m1' [E1' V1']].
  destruct (round_canonical true q Hq) as [m2' [E2' V2']].
  rewrite E1, E2, E1', E2'. cbn [SFcompare].
  change (PosDef.Pos.compare_cont Eq m1 m2) with (Pos.compare m1 m2).
  change (PosDef.Pos.compare_cont Eq m1' m2') with (Pos.compare m1' m2').
  pose proof (digits2_pos_lower p) as Lp.
  pose proof (digits2_pos_upper p) as Up.
  pose proof (digits2_pos_lower q) as Lq.
  pose proof (digits2_pos_upper q) as Uq.
  pose proof (digits2_pos_bound p Hp) as Bp.
  pose proof (digits2_pos_bound q Hq) as Bq.
  destruct (Z.compare_spec (Zpos (digits2_pos p) - 53)
                           (Zpos (digits2_pos q) - 53)) as [He|He|He].
  - assert (Hd : digits2_pos p = digits2_pos q) by lia.
    rewrite <- Hd in V2, V2'.
    assert (P : 0 < 2 ^ (53 - Zpos (digits2_pos p)))
      by (apply Z.pow_pos_nonneg; lia).
    set (k := 2 ^ (53 - Zpos (digits2_pos p))) in *.
    split.
    + f_equal. destruct (Pos.compare_spec m1 m2) as [H|H|H];
        symmetry; [apply Pos.compare_eq_iff | apply Pos.compare_lt_iff
                  | apply Pos.compare_gt_iff]; nia.
    + f_equal. destruct (Pos.compare_spec m1' m2') as [H|H|H]; simpl;
        symmetry; [apply Pos.compare_eq_iff | apply Pos.compare_gt_iff
                  | apply Pos.compare_lt_iff]; nia.
  - assert (Hpq : Zpos p < Zpos q).
    { assert (2 ^ Zpos (digits2_pos p) <= 2 ^ (Zpos (digits2_pos q) - 1))
        by (apply Z.pow_le_mono_r; lia).
      lia. }
    split; f_equal; symmetry;
      [apply Pos.compare_lt_iff | apply Pos.compare_gt_iff]; lia.
  - assert (Hpq : Zpos q < Zpos p).
    { assert (2 ^ Zpos (digits2_pos q) <= 2 ^ (Zpos (digits2_pos p) - 1))
        by (apply Z.pow_le_mono_r; lia).
      lia. }
    split; f_equal; symmetry;
      [apply Pos.compare_gt_iff | apply Pos.compare_lt_iff]; lia.
Qed.

Lemma rounded_finite (s : bool) (p : positive) :
  Zpos p < 2 ^ 53 ->
  exists m e, binary_round prec emax s p 0 = S754_finite s m e.
Proof.
  intros Hp. destruct (round_canonical s p Hp) as [m [E _]].
  exists m. eexists. exact E.
Qed.

(** Integers below 2^53 in absolute value compare as numbers the way they
    compare as integers. *)
Lemma compare_ofZ (a b : Z) :
  - 2 ^ 53 < a < 2 ^ 53 -> - 2 ^ 53 < b < 2 ^ 53 ->
  SFcompare (ofZ a) (ofZ b) = Some (a ?= b).
Proof.
  intros Ha Hb. unfold ofZ, binary_normalize.
  destruct a as [|p|p], b as [|q|q]; try reflexivity.
  - destruct (rounded_finite false q) as [m [e E]]; [lia|].
    rewrite E. reflexivity.
  - destruct (rounded_finite true q) as [m [e E]]; [lia|].
    rewrite E. reflexivity.
  - destruct (rounded_finite false p) as [m [e E]]; [lia|].
    rewrite E. reflexivity.
  - apply compare_rounded; lia.
  - destruct (rounded_finite false p) as [m [e E]]; [lia|].
    destruct (rounded_finite true q) as [m' [e' E']]; [lia|].
    rewrite E, E'. reflexivity.
  - destruct (rounded_finite true p) as [m [e E]]; [lia|].
    rewrite E. reflexivity.
  - destruct (rounded_finite true p) as [m [e E]]; [lia|].
    destruct (rounded_finite false q) as [m' [e' E']]; [lia|].
    rewrite E, E'. reflexivity.
  - destruct (compare_rounded p q) as [_ H]; [lia|lia|].
    rewrite H. f_equal. simpl. rewrite Pos.compare_antisym. reflexivity.
Qed.

Lemma gtb_ofZ (a b : Z) :
  - 2 ^ 53 < a < 2 ^ 53 -> - 2 ^ 53 < b < 2 ^ 53 ->
  gtb (ofZ a) (ofZ b) = (b <? a).
Proof.
  intros Ha Hb. unfold gtb, SFltb. rewrite (compare_ofZ b a Hb Ha).
  unfold Z.ltb. destruct (b ?= a); reflexivity.
Qed.

Lemma ltb_ofZ (a b : Z) :
  - 2 ^ 53 < a < 2 ^ 53 -> - 2 ^ 53 < b < 2 ^ 53 ->
  ltb (ofZ a) (ofZ b) = (a <? b).
Proof. intros Ha Hb. exact (gtb_ofZ b a Hb Ha). Qed.

Lemma geb_ofZ (a b : Z) :
  - 2 ^ 53 < a < 2 ^ 53 -> - 2 ^ 53 < b < 2 ^ 53 ->
  geb (ofZ a) (ofZ b) = (b <=? a).
Proof.
  intros Ha Hb. unfold geb, SFleb. rewrite (compare_ofZ b a Hb Ha).
  unfold Z.leb. destruct (b ?= a); reflexivity.
Qed.

Lemma eqb_ofZ (a b : Z) :
  - 2 ^ 53 < a < 2 ^ 53 -> - 2 ^ 53 < b < 2 ^ 53 ->
  eqb (ofZ a) (ofZ b) = (a =? b).
Proof.
  intros Ha Hb. unfold eqb, SFeqb. rewrite (compare_ofZ a b Ha Hb).
  unfold Z.eqb.
  destruct (Z.compare_spec a b) as [E|E|E].
  - subst b. destruct a; try reflexivity; simpl; rewrite Pos.eqb_refl; reflexivity.
  - destruct a, b; try reflexivity; try lia;
      symmetry; apply Pos.eqb_neq; lia.
  - destruct a, b; try reflexivity; try lia;
      symmetry; apply Pos.eqb_neq; lia.
Qed.

End IntegerFacts.

(* ================================================================== *)
(** * Properties of the reminder's parts *)
(* ================================================================== *)

Module ReminderFacts.
Import JSNumber JSString JSValue Effect ServiceWorker Worker.
Import JSNumberFacts IntegerFacts ServiceWorkerFacts.

Local Open Scope string_scope.

(** ** The scheduled time *)

Lemma split_colonFree (s : string) : colonFree s = true -> split s = [s].
Proof.
  induction s as [|c rest IH]; simpl; intros H; [reflexivity|].
  apply andb_true_iff in H. destruct H as [Hc Hrest].
  apply negb_true_iff in Hc. rewrite Hc, (IH Hrest). reflexivity.
Qed.

Lemma split_append (p s : string) :
  colonFree p = true -> split (p ++ String ":" s) = p :: split s.
Proof.
  induction p as [|c rest IH]; simpl; intros H; [reflexivity|].
  apply andb_true_iff in H. destruct H as [Hc Hrest].
  apply negb_true_iff in Hc. rewrite Hc, (IH Hrest). reflexivity.
Qed.

Lemma target_parts (Number : string -> number) (hh mm : string) :
  colonFree hh = true -> colonFree mm = true ->
  target Number (hh ++ String ":" mm) = (Number hh, Number mm).
Proof.
  intros Hh Hm. unfold target.
  rewrite (split_append hh mm Hh), (split_colonFree mm Hm). reflexivity.
Qed.

Lemma isPastTime_integers (now : Date) (th tm : Z) :
  (- 2 ^ 53 < getHours now < 2 ^ 53)%Z ->
  (- 2 ^ 53 < getMinutes now < 2 ^ 53)%Z ->
  (- 2 ^ 53 < th < 2 ^ 53)%Z -> (- 2 ^ 53 < tm < 2 ^ 53)%Z ->
  isPastTime now (ofZ th) (ofZ tm)
  = ((th <? getHours now)%Z
     || ((getHours now =? th)%Z && (tm <=? getMinutes now)%Z)).
Proof.
  intros HH HM Hth Htm. unfold isPastTime.
  rewrite gtb_ofZ, eqb_ofZ, geb_ofZ by assumption. reflexivity.
Qed.

(** X6.  With a scheduled time ["HH:MM"] whose two parts are read as the
    integers [th] and [tm], and minutes below 60 on both sides, the clock
    is past the scheduled time exactly from the scheduled minute of the
    day on. *)
Theorem due_from_scheduled_minute
    (Number : string -> number) (now : Date) (hh mm : string) (th tm : Z) :
  colonFree hh = true -> colonFree mm = true ->
  Number hh = ofZ th -> Number mm = ofZ tm ->
  (- 2 ^ 53 < getHours now < 2 ^ 53)%Z -> (- 2 ^ 53 < th < 2 ^ 53)%Z ->
  (0 <= getMinutes now < 60)%Z -> (0 <= tm < 60)%Z ->
  isPastTime now (fst (target Number (hh ++ ":" ++ mm)))
                 (snd (target Number (hh ++ ":" ++ mm)))
  = (60 * th + tm <=? 60 * getHours now + getMinutes now)%Z.
Proof.
  intros Hh Hm Nh Nm HH Hth HM Htm.
  change (hh ++ ":" ++ mm) with (hh ++ String ":" mm).
  rewrite (target_parts Number hh mm Hh Hm). cbn [fst snd].
  rewrite Nh, Nm, isPastTime_integers by lia.
  destruct (Z.ltb_spec th (getHours now));
    destruct (Z.eqb_spec (getHours now) th);
    destruct (Z.leb_spec tm (getMinutes now));
    destruct (Z.leb_spec (60 * th + tm) (60 * getHours now + getMinutes now));
    try reflexivity; lia.
Qed.

Lemma due_from_scheduled_minute_witness :
  isPastTime tenOClock
             (fst (target NumberOfDigits ("09" ++ ":" ++ "30")))
             (snd (target NumberOfDigits ("09" ++ ":" ++ "30")))
  = (60 * 9 + 30 <=? 60 * getHours tenOClock + getMinutes tenOClock)%Z.
Proof.
  apply (due_from_scheduled_minute NumberOfDigits tenOClock "09" "30" 9 30);
    try reflexivity; cbn; lia.
Defined.

(** X7.  A scheduled time without a colon has no minutes part: the clock is
    past it only when the current hour is strictly after the hour; during
    the scheduled hour itself the reminder is never due. *)
Theorem time_without_minutes
    (Number : string -> number) (now : Date) (time : string) :
  colonFree time = true ->
  isPastTime now (fst (target Number time)) (snd (target Number time))
  = gtb (ofZ (getHours now)) (Number time).
Proof.
  intros Hfree. unfold target. rewrite (split_colonFree time Hfree).
  cbn [map nth fst snd]. unfold isPastTime.
  replace (geb (ofZ (getMinutes now)) NaN) with false by reflexivity.
  rewrite andb_false_r, orb_false_r. reflexivity.
Qed.

Lemma time_without_minutes_witness :
  isPastTime tenOClock (fst (target NumberOfDigits "10"))
                       (snd (target NumberOfDigits "10"))
  = gtb (ofZ (getHours tenOClock)) (NumberOfDigits "10").
Proof.
  apply (time_without_minutes NumberOfDigits tenOClock "10"). reflexivity.
Defined.

Section WithEnvironment.
Variable Number : string -> number.
Variable env : Env.

(** ** The database *)

(** X8.  A value saved under a key is the value read back from that key, when
    the two requests succeed; the records under the other keys and the
    notifications stay as they were. *)
Theorem saved_value_read_back
    (storeName key : string) (v : value) (w : World) :
  dbFails env (List.length (dbRequests w)) = false ->
  dbFails env (S (List.length (dbRequests w))) = false ->
  exists w',
    bind (saveToDB env storeName key v)
         (fun _ => getFromDB env storeName key) w
    = (Resolved v, w')
    /\ (forall s k, (s =? storeName) && (k =? key) = false ->
                    db w' s k = db w s k)
    /\ shown w' = shown w
    /\ dbRequests w'
       = (dbRequests w ++ [Put storeName key; Get storeName key])%list.
Proof.
  intros F0 F1. destruct w as [d sh co cr rq sr dr].
  cbv [saveToDB getFromDB request throw ret bind modify requested stored
       db shown console clockReads dbRequests showRequests draws] in *.
  rewrite F0. rewrite length_app. cbn [List.length]. rewrite Nat.add_1_r, F1.
  eexists. split.
  - unfold put. rewrite !String.eqb_refl. reflexivity.
  - cbn [db shown dbRequests]. split; [|split].
    + intros s k E. unfold put. rewrite E. reflexivity.
    + reflexivity.
    + rewrite <- app_assoc. reflexivity.
Qed.

(** ** The check *)

(** X9.  The eligibility check always ends with an answer, never with an
    error; it reads the settings, then at most the stats, and the clock at
    most twice; it writes nothing, shows nothing and draws no message. *)
Theorem check_only_reads (w : World) :
  exists b w1,
    shouldSendNotification Number env w = (Resolved b, w1)
    /\ db w1 = db w /\ shown w1 = shown w
    /\ showRequests w1 = showRequests w /\ draws w1 = draws w
    /\ (clockReads w <= clockReads w1 <= clockReads w + 2)%nat
    /\ (dbRequests w1
        = (dbRequests w ++ [Get "settings" "notifications"])%list
        \/ dbRequests w1
           = (dbRequests w ++ [Get "settings" "notifications";
                               Get "stats" "daily"])%list).
Proof.
  rewrite shouldSendNotification_steps, eligibility_steps. cbv zeta.
  repeat match goal with
         | |- context [if ?c then _ else _] => destruct c
         | |- context [match ?v with VStr _ => _ | _ => _ end] => destruct v
         end;
    do 2 eexists; (split; [reflexivity|]);
    cbn [printed tick requested db shown console clockReads dbRequests
         showRequests draws];
    rewrite <- ?app_assoc; cbn [app];
    repeat (split; [try reflexivity; lia|]); auto.
Qed.

(** X10.  With notifications disabled, or no settings stored, a run reads the
    settings and does nothing else: it does not read the stats or the
    clock, draws no message and shows nothing. *)
Theorem disabled_reads_settings_only (w : World) :
  toBoolean (db w "settings" "notifications") = false
  \/ toBoolean (get (db w "settings" "notifications") "enabled") = false ->
  dbFails env (List.length (dbRequests w)) = false ->
  sendDailyReminder Number env w
  = (Resolved tt, requested (Get "settings" "notifications") w).
Proof.
  intros Hoff F0.
  rewrite sendDailyReminder_steps, shouldSendNotification_steps,
    eligibility_steps.
  cbv zeta. rewrite F0.
  destruct Hoff as [H|H]; rewrite H; cbn [negb orb]; [reflexivity|].
  rewrite orb_true_r. reflexivity.
Qed.

(** X11.  When the stored settings have no [time] string, the check fails on
    the [split], after its two reads and two readings of the clock; the
    error is caught and logged and the run shows nothing. *)
Theorem missing_time_no_reminder (w : World) :
  toBoolean (get (db w "settings" "notifications") "enabled") = true ->
  practicedToday Number (db w "stats" "daily")
                 (toDateString (clock env (clockReads w))) = false ->
  sentToday (db w "settings" "notifications")
            (toDateString (clock env (clockReads w))) = false ->
  (forall time, get (db w "settings" "notifications") "time" <> VStr time) ->
  dbFails env (List.length (dbRequests w)) = false ->
  dbFails env (S (List.length (dbRequests w))) = false ->
  eligibility Number env w
  = (Rejected typeError,
     tick (tick (requested (Get "stats" "daily")
                   (requested (Get "settings" "notifications") w))))
  /\ sendDailyReminder Number env w
     = (Resolved tt,
        printed "Error checking notification status:"
          (tick (tick (requested (Get "stats" "daily")
                         (requested (Get "settings" "notifications") w))))).
Proof.
  intros Hen Hpr Hsent Htime F0 F1.
  assert (Hset : toBoolean (db w "settings" "notifications") = true).
  { destruct (db w "settings" "notifications"); try discriminate Hen.
    reflexivity. }
  assert (E : eligibility Number env w
              = (Rejected typeError,
                 tick (tick (requested (Get "stats" "daily")
                               (requested (Get "settings" "notifications")
                                          w))))).
  { rewrite eligibility_steps. cbv zeta.
    rewrite F0, Hset, Hen, F1, Hpr, Hsent. cbn [negb orb].
    destruct (get (db w "settings" "notifications") "time") eqn:T;
      try reflexivity.
    exfalso. exact (Htime _ eq_refl). }
  split; [exact E|].
  rewrite sendDailyReminder_steps, shouldSendNotification_steps, E.
  reflexivity.
Qed.

Lemma eligible_check (w : World) :
  eligible Number env w ->
  dbFails env (List.length (dbRequests w)) = false ->
  dbFails env (S (List.length (dbRequests w))) = false ->
  shouldSendNotification Number env w
  = (Resolved true,
     tick (tick (requested (Get "stats" "daily")
                   (requested (Get "settings" "notifications") w)))).
Proof.
  intros [Hen [Hpr [Hsent [time [Htime Hpast]]]]] F0 F1.
  assert (Hset : toBoolean (db w "settings" "notifications") = true).
  { destruct (db w "settings" "notifications"); try discriminate Hen.
    reflexivity. }
  rewrite shouldSendNotification_steps, eligibility_steps. cbv zeta.
  rewrite F0, Hset, Hen, F1, Hpr, Hsent, Htime, Hpast. reflexivity.
Qed.

(** X12.  When the four conditions hold, the two reads of the check succeed and
    the notification is not refused, the run shows exactly one reminder,
    with the message drawn from [MESSAGES], and ends without an error
    whatever the marking does. *)
Theorem reminder_shown_when_due (w : World) :
  eligible Number env w ->
  dbFails env (List.length (dbRequests w)) = false ->
  dbFails env (S (List.length (dbRequests w))) = false ->
  showFails env (showRequests w) = false ->
  exists w',
    sendDailyReminder Number env w = (Resolved tt, w')
    /\ shown w'
       = (shown w
          ++ [reminder (nth (draw env (draws w) mod List.length MESSAGES)
                            MESSAGES EmptyString)])%list
    /\ In (nth (draw env (draws w) mod List.length MESSAGES)
               MESSAGES EmptyString) MESSAGES.
Proof.
  intros Hel F0 F1 Hshow.
  rewrite sendDailyReminder_steps, (eligible_check w Hel F0 F1). cbv zeta.
  cbn [tick requested showRequests draws]. rewrite Hshow.
  rewrite markAsSent_steps. cbv zeta.
  cbn [displayed drawn tick requested db shown console clockReads
       dbRequests showRequests draws].
  repeat match goal with
         | |- context [if ?c then _ else _] => destruct c
         end;
    eexists; (split; [reflexivity|]);
    (split; [reflexivity|]);
    apply nth_In; apply Nat.mod_upper_bound; discriminate.
Qed.

(** X13.  When the notification is refused, the run ends with that error:
    nothing is shown, nothing is logged, the marking is not attempted and
    the database stays as it was, so that the next run tries again. *)
Theorem refused_reminder_not_marked (w : World) :
  eligible Number env w ->
  dbFails env (List.length (dbRequests w)) = false ->
  dbFails env (S (List.length (dbRequests w))) = false ->
  showFails env (showRequests w) = true ->
  exists w',
    sendDailyReminder Number env w = (Rejected notAllowed, w')
    /\ shown w' = shown w /\ console w' = console w /\ db w' = db w
    /\ dbRequests w'
       = (dbRequests w ++ [Get "settings" "notifications";
                           Get "stats" "daily"])%list.
Proof.
  intros Hel F0 F1 Hshow.
  rewrite sendDailyReminder_steps, (eligible_check w Hel F0 F1). cbv zeta.
  cbn [tick requested showRequests draws]. rewrite Hshow.
  eexists. split; [reflexivity|].
  cbn [refused drawn tick requested db shown console dbRequests].
  rewrite <- app_assoc. repeat split.
Qed.

Lemma lookup_assign_other
    (fields : list (string * value)) (k k' : string) (v : value) :
  k' <> k -> lookup k' (assign fields k v) = lookup k' fields.
Proof.
  intros Hne. induction fields as [|[k0 v0] rest IH]; simpl.
  - destruct (k' =? k) eqn:E; [|reflexivity].
    apply String.eqb_eq in E. contradiction.
  - destruct (k =? k0) eqn:E; simpl.
    + apply String.eqb_eq in E. subst k0.
      destruct (k' =? k) eqn:E'; [|reflexivity].
      apply String.eqb_eq in E'. contradiction.
    + rewrite IH. reflexivity.
Qed.

(** X14.  The marking changes [lastNotificationDate] only: after a run that
    showed a reminder and whose marking succeeded, every other property
    of the stored settings, [enabled] and [time] among them, and every
    other record of the database is as before. *)
Theorem marking_keeps_settings (w : World) (k : string) :
  shown (snd (sendDailyReminder Number env w)) <> shown w ->
  dbFails env (2 + List.length (dbRequests w)) = false ->
  dbFails env (3 + List.length (dbRequests w)) = false ->
  k <> "lastNotificationDate" ->
  get (db (snd (sendDailyReminder Number env w)) "settings" "notifications") k
  = get (db w "settings" "notifications") k
  /\ forall storeName key,
       (storeName =? "settings") && (key =? "notifications") = false ->
       db (snd (sendDailyReminder Number env w)) storeName key
       = db w storeName key.
Proof.
  intros Hshown F2 F3 Hk.
  destruct (sendDailyReminder_run Number env w)
    as [[Hsh _]|[m [_ [_ [_ [Hmark _]]]]]]; [contradiction|].
  rewrite (Hmark F2 F3). split.
  - unfold put. rewrite !String.eqb_refl. cbn [andb].
    destruct (db w "settings" "notifications"); try reflexivity.
    cbn [set get]. apply lookup_assign_other. exact Hk.
  - intros storeName key E. unfold put. rewrite E. reflexivity.
Qed.

End WithEnvironment.

Lemma disabled_reads_settings_only_witness :
  sendDailyReminder NumberOfDigits steadyEnv
    (mkWorld emptyDB [] [] 0 [] 0 0)
  = (Resolved tt,
     requested (Get "settings" "notifications")
               (mkWorld emptyDB [] [] 0 [] 0 0)).
Proof.
  apply (disabled_reads_settings_only NumberOfDigits steadyEnv
           (mkWorld emptyDB [] [] 0 [] 0 0)).
  - left. reflexivity.
  - reflexivity.
Defined.

Lemma saved_value_read_back_witness :
  exists w',
    bind (saveToDB steadyEnv "stats" "daily" (VNum (ofZ 3)))
         (fun _ => getFromDB steadyEnv "stats" "daily") startWorld
    = (Resolved (VNum (ofZ 3)), w')
    /\ (forall s k, (s =? "stats") && (k =? "daily") = false ->
                    db w' s k = db startWorld s k)
    /\ shown w' = shown startWorld
    /\ dbRequests w'
       = (dbRequests startWorld
          ++ [Put "stats" "daily"; Get "stats" "daily"])%list.
Proof.
  apply (saved_value_read_back steadyEnv "stats" "daily" (VNum (ofZ 3))
           startWorld); reflexivity.
Defined.

Lemma missing_time_no_reminder_witness :
  sendDailyReminder NumberOfDigits steadyEnv untimedWorld
  = (Resolved tt,
     printed "Error checking notification status:"
       (tick (tick (requested (Get "stats" "daily")
                      (requested (Get "settings" "notifications")
                                 untimedWorld))))).
Proof.
  apply (missing_time_no_reminder NumberOfDigits steadyEnv untimedWorld);
    try reflexivity.
  intros time. discriminate.
Defined.

Lemma startWorld_eligible : eligible NumberOfDigits steadyEnv startWorld.
Proof.
  unfold eligible. cbv zeta.
  split; [reflexivity|]. split; [reflexivity|]. split; [reflexivity|].
  exists "09:00". split; reflexivity.
Defined.

Lemma reminder_shown_when_due_witness :
  exists w',
    sendDailyReminder NumberOfDigits steadyEnv startWorld = (Resolved tt, w')
    /\ shown w'
       = (shown startWorld
          ++ [reminder
                (nth (draw steadyEnv (draws startWorld)
                      mod List.length MESSAGES)
                     MESSAGES EmptyString)])%list
    /\ In (nth (draw steadyEnv (draws startWorld) mod List.length MESSAGES)
               MESSAGES EmptyString) MESSAGES.
Proof.
  apply (reminder_shown_when_due NumberOfDigits steadyEnv startWorld);
    [exact startWorld_eligible | reflexivity | reflexivity | reflexivity].
Defined.

Lemma startWorld_eligible_denied :
  eligible NumberOfDigits deniedEnv startWorld.
Proof.
  unfold eligible. cbv zeta.
  split; [reflexivity|]. split; [reflexivity|]. split; [reflexivity|].
  exists "09:00". split; reflexivity.
Defined.

Lemma refused_reminder_not_marked_witness :
  exists w',
    sendDailyReminder NumberOfDigits deniedEnv startWorld
    = (Rejected (notAllowed), w')
    /\ shown w' = shown startWorld /\ console w' = console startWorld
    /\ db w' = db startWorld
    /\ dbRequests w'
       = (dbRequests startWorld ++ [Get "settings" "notifications";
                                    Get "stats" "daily"])%list.
Proof.
  apply (refused_reminder_not_marked NumberOfDigits deniedEnv startWorld);
    [exact startWorld_eligible_denied | reflexivity | reflexivity
    | reflexivity].
Defined.

Lemma marking_keeps_settings_witness :
  get (db (snd (sendDailyReminder NumberOfDigits steadyEnv startWorld))
          "settings" "notifications") "time"
  = get (db startWorld "settings" "notifications") "time"
  /\ forall storeName key,
       (storeName =? "settings") && (key =? "notifications") = false ->
       db (snd (sendDailyReminder NumberOfDigits steadyEnv startWorld))
          storeName key
       = db startWorld storeName key.
Proof.
  apply (marking_keeps_settings NumberOfDigits steadyEnv startWorld "time");
    try reflexivity.
  - vm_compute. discriminate.
  - discriminate.
Defined.

End ReminderFacts.

(* ================================================================== *)
(** * Properties of the event listeners *)
(* ================================================================== *)

Module EventFacts.
Import JSNumber JSString JSValue Effect ServiceWorker Worker.
Import ServiceWorkerFacts.

Local Open Scope string_scope.

Section OneDay.
Variable Number : string -> number.
Variable env : Env.
Variable today : string.
Hypothesis same_day : forall n, toDateString (clock env n) = today.
Hypothesis no_failure : forall k, dbFails env k = false.






End OneDay.



End EventFacts.

(* ================================================================== *)
(** * Bounds and edge cases of the metrics *)
(* ================================================================== *)

Module MetricsBounds.
Import JSNumber JSString JSValue Metrics Prompt.
Import JSNumberFacts IntegerFacts MetricsFacts.

Local Open Scope string_scope.

(** ** The counts *)

Lemma flat_map_short {A B : Type} (f : A -> list B) (l : list A) :
  (forall x, List.length (f x) <= 1)%nat ->
  (List.length (flat_map f l) <= List.length l)%nat.
Proof.
  intros Hf. induction l as [|x rest IH]; simpl; [lia|].
  rewrite length_app. specialize (Hf x). lia.
Qed.

Lemma pauseGaps_length (ws : list Word) :
  (List.length (pauseGaps ws) <= List.length ws - 1)%nat.
Proof.
  unfold pauseGaps.
  rewrite <- (length_seq (List.length ws - 1) 1) at 2.
  apply flat_map_short. intros i. unfold pauseAt.
  destruct (gapAt ws i) as [g|]; [destruct (isPause g)|]; simpl; lia.
Qed.

Lemma countStep_bound (ws : list Word) :
  forall c, (c <= fold_left countStep ws c <= c + List.length ws)%nat.
Proof.
  induction ws as [|w rest IH]; intros c; simpl; [lia|].
  unfold countStep at 2 4.
  destruct (includes fillerWords (trim (toLowerCase (word w))));
    [specialize (IH (S c)) | specialize (IH c)]; lia.
Qed.

(** X16.  For a non-empty word sequence [pauseCount] and [fillerWordCount] are
    the numbers of two counts: at most one pause for each pair of
    consecutive words, so fewer pauses than words, and at most as many
    filler words as words. *)
Theorem counts_bounded (ws : list Word) (duration : number) :
  ws <> [] ->
  exists p f : nat,
    get (analyzeMetrics (WordsArray ws) duration) "pauseCount"
    = VNum (ofNat p)
    /\ get (analyzeMetrics (WordsArray ws) duration) "fillerWordCount"
       = VNum (ofNat f)
    /\ (p < List.length ws)%nat /\ (f <= List.length ws)%nat.
Proof.
  intros Hne.
  destruct ws as [|w0 rest]; [contradiction Hne; reflexivity|].
  rewrite analyzeMetrics_nonempty. cbv zeta.
  rewrite collectPauses_pauseGaps.
  exists (List.length (pauseGaps (w0 :: rest))), (countFillers (w0 :: rest)).
  split; [reflexivity|]. split; [reflexivity|]. split.
  - pose proof (pauseGaps_length (w0 :: rest)) as H. simpl in H |- *. lia.
  - pose proof (countStep_bound (w0 :: rest) 0) as H.
    unfold countFillers. lia.
Qed.

Lemma counts_bounded_witness :
  exists p f : nat,
    get (analyzeMetrics (WordsArray sampleWords) (ofZ 4)) "pauseCount"
    = VNum (ofNat p)
    /\ get (analyzeMetrics (WordsArray sampleWords) (ofZ 4)) "fillerWordCount"
       = VNum (ofNat f)
    /\ (p < List.length sampleWords)%nat
    /\ (f <= List.length sampleWords)%nat.
Proof.
  apply (counts_bounded sampleWords (ofZ 4)). discriminate.
Defined.

(** ** The sign of a rounded number *)

Lemma shr_1_nonneg (mrs : shr_record) :
  (0 <= shr_m mrs)%Z -> (0 <= shr_m (shr_1 mrs))%Z.
Proof.
  destruct mrs as [m r s]. simpl.
  destruct m as [|p|p]; try destruct p; simpl; lia.
Qed.

Lemma iter_shr_1_nonneg (p : positive) :
  forall mrs, (0 <= shr_m mrs)%Z -> (0 <= shr_m (iter_pos shr_1 p mrs))%Z.
Proof.
  induction p as [q IH|q IH|]; intros mrs H; simpl.
  - apply IH, IH, shr_1_nonneg, H.
  - apply IH, IH, H.
  - apply shr_1_nonneg, H.
Qed.

Lemma shr_fexp_nonneg (m e : Z) (l : location) :
  (0 <= m)%Z -> (0 <= shr_m (fst (shr_fexp prec emax m e l)))%Z.
Proof.
  intros H. unfold shr_fexp, shr.
  assert (H0 : (0 <= shr_m (shr_record_of_loc m l))%Z)
    by (destruct l as [|[ | | ]]; exact H).
  destruct (fexp prec emax (Zdigits2 m + e) - e)%Z; simpl;
    [exact H0 | apply iter_shr_1_nonneg; exact H0 | exact H0].
Qed.

Lemma round_nearest_even_nonneg (m : Z) (l : location) :
  (0 <= m)%Z -> (0 <= round_nearest_even m l)%Z.
Proof.
  intros H. unfold round_nearest_even.
  destruct l as [|[ | | ]]; try destruct (IntDef.Z.even m); lia.
Qed.

Lemma binary_round_aux_signed (s : bool) (m e : Z) (l : location) :
  (0 <= m)%Z -> signed s (binary_round_aux prec emax s m e l).
Proof.
  intros H. unfold binary_round_aux.
  pose proof (shr_fexp_nonneg m e l H) as H1.
  destruct (shr_fexp prec emax m e l) as [mrs' e'].
  cbn [fst] in H1.
  pose proof (shr_fexp_nonneg
                (round_nearest_even (shr_m mrs') (loc_of_shr_record mrs'))
                e' loc_Exact
                (round_nearest_even_nonneg _ _ H1)) as H2.
  destruct (shr_fexp prec emax
              (round_nearest_even (shr_m mrs') (loc_of_shr_record mrs'))
              e' loc_Exact) as [mrs'' e''].
  cbn [fst] in H2.
  destruct (shr_m mrs'') as [|p|p]; [reflexivity| |lia].
  destruct (e'' <=? emax - prec)%Z; reflexivity.
Qed.

Lemma ofNat_signed (n : nat) : signed false (ofNat n).
Proof.
  unfold ofNat, ofZ, binary_normalize.
  destruct (Z.of_nat n) as [|p|p] eqn:E; [reflexivity| |lia].
  unfold binary_round.
  destruct (shl_align p 0 (fexp prec emax (Zpos (digits2_pos p) + 0)))
    as [mz ez].
  apply binary_round_aux_signed. lia.
Qed.

Lemma mul_signed (x : number) (m : positive) (e : Z) :
  signed false x -> signed false (mul x (S754_finite false m e)).
Proof.
  destruct x as [s|s| |s mx ex]; simpl; intros H; try contradiction;
    subst s; try reflexivity.
  apply binary_round_aux_signed. lia.
Qed.

Lemma zero_not_above (y : number) :
  signed false y -> gtb (S754_zero false) y = false.
Proof.
  destruct y as [s|s| |s m e]; simpl; intros H; try contradiction;
    subst s; reflexivity.
Qed.

(** X17.  A result is ['halting'] only when there is a pause: some word starts
    more than 0.2 seconds after the word before it ended.  A sequence
    without such a gap, a single word in particular, is never halting. *)
Theorem halting_needs_a_pause (ws : list Word) (duration : number) :
  ws <> [] ->
  get (analyzeMetrics (WordsArray ws) duration) "pacingVariation"
  = VStr "halting" ->
  exists i g,
    (1 <= i < List.length ws)%nat
    /\ gapAt ws i = Some g /\ gtb g lit_0_2 = true.
Proof.
  intros Hne.
  destruct ws as [|w0 rest]; [contradiction Hne; reflexivity|].
  rewrite analyzeMetrics_nonempty. cbv zeta.
  rewrite collectPauses_pauseGaps.
  destruct (pauseGaps (w0 :: rest)) as [|g gs] eqn:P.
  - cbn [get lookup String.eqb Ascii.eqb Bool.eqb List.length].
    change (ofNat 0) with (S754_zero false).
    rewrite zero_not_above by (apply mul_signed, ofNat_signed).
    destruct (_ && _); discriminate.
  - intros _.
    assert (Hin : In g (pauseGaps (w0 :: rest))) by (rewrite P; left; reflexivity).
    apply pauseGaps_In in Hin. destruct Hin as [i [Hi [Hgap Hp]]].
    exists i, g. split; [exact Hi|]. split; [exact Hgap | exact Hp].
Qed.

Lemma halting_needs_a_pause_witness :
  exists i g,
    (1 <= i < List.length sampleWords)%nat
    /\ gapAt sampleWords i = Some g /\ gtb g lit_0_2 = true.
Proof.
  apply (halting_needs_a_pause sampleWords (ofZ 4));
    [discriminate | vm_compute; reflexivity].
Defined.

(** ** The pace and its label *)

Lemma paceLabel_ofZ (z : Z) :
  (- 2 ^ 53 < z < 2 ^ 53)%Z -> paceLabel (ofZ z) = labelOf z.
Proof.
  intros Hz. unfold paceLabel, labelOf.
  rewrite ltb_ofZ, gtb_ofZ by lia. reflexivity.
Qed.

(** X18.  The label of a rounded pace is decided by the integer it was rounded
    to: ['slow'] below 120, ['fast'] above 160, ['moderate'] from 120 to
    160, both included. *)
Theorem pace_label_thresholds (s : bool) (m k : positive) :
  (Zpos m < 2 ^ 53)%Z ->
  paceLabel (Math_round (S754_finite s m (Zneg k)))
  = labelOf (round_half_up (cond_Zopp s (Zpos m)) (Zneg k)).
Proof.
  intros Hm. unfold Math_round.
  assert (Hz : (- 2 ^ 53 < round_half_up (cond_Zopp s (Zpos m)) (Zneg k)
                < 2 ^ 53)%Z).
  { apply round_half_up_small. destruct s; cbn [cond_Zopp]; lia. }
  destruct (round_half_up (cond_Zopp s (Zpos m)) (Zneg k) =? 0)%Z eqn:E.
  - apply Z.eqb_eq in E. rewrite E. destruct s; reflexivity.
  - apply paceLabel_ofZ. exact Hz.
Qed.

Lemma pace_label_thresholds_witness :
  paceLabel (Math_round (S754_finite false 321 (Zneg 1)))
  = labelOf (round_half_up (cond_Zopp false (Zpos 321)) (Zneg 1)).
Proof.
  apply (pace_label_thresholds false 321 1). reflexivity.
Defined.

(** X19.  With a duration that is not a number, as an unreadable [duration]
    field gives, the pace of a non-empty word sequence is [NaN]: both
    comparisons of the label fail, so it is labelled ['moderate'], and
    the pacing is never ['rushed']. *)
Theorem pace_of_unknown_duration (ws : list Word) :
  ws <> [] ->
  get (analyzeMetrics (WordsArray ws) NaN) "wordsPerMinute" = VNum NaN
  /\ paceLabel NaN = "moderate"
  /\ get (analyzeMetrics (WordsArray ws) NaN) "pacingVariation"
     <> VStr "rushed".
Proof.
  intros Hne.
  destruct ws as [|w0 rest]; [contradiction Hne; reflexivity|].
  rewrite analyzeMetrics_nonempty. cbv zeta.
  assert (E : Math_round (mul (div (ofNat (List.length (w0 :: rest))) NaN)
                              (ofZ 60)) = NaN).
  { destruct (ofNat (List.length (w0 :: rest))); reflexivity. }
  rewrite E.
  split; [reflexivity|]. split; [reflexivity|].
  cbn [get lookup String.eqb Ascii.eqb Bool.eqb].
  replace (gtb NaN (ofZ 150)) with false by reflexivity.
  rewrite andb_false_r.
  destruct (gtb _ _); discriminate.
Qed.

Lemma pace_of_unknown_duration_witness :
  get (analyzeMetrics (WordsArray sampleWords) NaN) "wordsPerMinute"
  = VNum NaN
  /\ paceLabel NaN = "moderate"
  /\ get (analyzeMetrics (WordsArray sampleWords) NaN) "pacingVariation"
     <> VStr "rushed".
Proof.
  apply (pace_of_unknown_duration sampleWords). discriminate.
Defined.

Lemma ofNat_finite (n : nat) :
  (0 < n)%nat -> (Z.of_nat n < 2 ^ 53)%Z ->
  exists m e, ofNat n = S754_finite false m e.
Proof.
  intros Hpos Hn. unfold ofNat, ofZ, binary_normalize.
  destruct (Z.of_nat n) as [|p|p] eqn:E; try lia.
  apply rounded_finite. lia.
Qed.

(** X20.  With a duration of zero the pace of a non-empty word sequence is
    infinite, of the sign of the zero: [Infinity], labelled ['fast'], for
    the [0] the handler falls back to, and [-Infinity], labelled
    ['slow'], for [-0]. *)
Theorem pace_of_zero_duration (ws : list Word) (s : bool) :
  ws <> [] ->
  (Z.of_nat (List.length ws) < 2 ^ 53)%Z ->
  get (analyzeMetrics (WordsArray ws) (S754_zero s)) "wordsPerMinute"
  = VNum (S754_infinity s)
  /\ paceLabel (S754_infinity s) = (if s then "slow" else "fast").
Proof.
  intros Hne Hlen.
  destruct ws as [|w0 rest]; [contradiction Hne; reflexivity|].
  rewrite analyzeMetrics_nonempty. cbv zeta.
  destruct (ofNat_finite (List.length (w0 :: rest))) as [m [e E]];
    [simpl; lia | exact Hlen |].
  rewrite E. split; [|destruct s; reflexivity].
  remember (ofZ 60) as sixty eqn:S60. vm_compute in S60. subst sixty.
  destruct s; reflexivity.
Qed.

Lemma pace_of_zero_duration_witness :
  get (analyzeMetrics (WordsArray sampleWords) (S754_zero false))
      "wordsPerMinute"
  = VNum (S754_infinity false)
  /\ paceLabel (S754_infinity false) = "fast".
Proof.
  apply (pace_of_zero_duration sampleWords false);
    [discriminate | reflexivity].
Defined.

(** ** The longest pause *)

(** X21.  When every pause is a finite number below 10^21, [longestPause] is
    written without a sign, with at least one digit before the point and
    exactly two after it. *)
Theorem longest_pause_format (ws : list Word) (duration : number) :
  ws <> [] -> pauseGaps ws <> [] ->
  (forall g, In g (pauseGaps ws) -> fixedRange g = true) ->
  exists a b,
    get (analyzeMetrics (WordsArray ws) duration) "longestPause"
    = VStr (a ++ "." ++ b)
    /\ (1 <= String.length a)%nat /\ allDigits a = true
    /\ String.length b = 2%nat /\ allDigits b = true.
Proof.
  intros Hne Hps Hfin.
  destruct ws as [|w0 rest]; [contradiction Hne; reflexivity|].
  rewrite analyzeMetrics_nonempty. cbv zeta.
  rewrite collectPauses_pauseGaps.
  cbn [get lookup String.eqb Ascii.eqb Bool.eqb].
  rewrite (nonempty_length _ Hps).
  destruct (Math_max_maximum (pauseGaps (w0 :: rest)) Hps
              (pauseGaps_not_nan (w0 :: rest))) as [Hin _].
  pose proof (Hfin _ Hin) as Hrange.
  apply pauseGaps_In in Hin. destruct Hin as [i [_ [_ Hp]]].
  unfold isPause in Hp.
  destruct (Math_max (pauseGaps (w0 :: rest))) as [s|s| |s m e];
    try discriminate Hrange; try discriminate Hp.
  destruct s; [discriminate Hp|].
  unfold fixedRange in Hrange. apply negb_true_iff in Hrange.
  unfold toFixed. rewrite Hrange.
  destruct (fixed_digits_two (round_half_up (Zpos m * 10 ^ Z.of_nat 2) e))
    as [a [b [E R]]].
  exists a, b. split; [|exact R].
  rewrite E. reflexivity.
Qed.

Lemma longest_pause_format_witness :
  exists a b,
    get (analyzeMetrics (WordsArray sampleWords) (ofZ 4)) "longestPause"
    = VStr (a ++ "." ++ b)
    /\ (1 <= String.length a)%nat /\ allDigits a = true
    /\ String.length b = 2%nat /\ allDigits b = true.
Proof.
  apply (longest_pause_format sampleWords (ofZ 4)).
  - discriminate.
  - vm_compute. discriminate.
  - intros g Hg. vm_compute in Hg. destruct Hg as [<-|[]]. reflexivity.
Defined.

End MetricsBounds.

(* ================================================================== *)
(** * What the handlers answer and call *)
(* ================================================================== *)

Module ResponseFacts.
Import JSNumber JSString JSValue Metrics Effect Handlers.
Import HandlersFacts.

Local Open Scope string_scope.

Lemma feedbackOf_nonempty (content : option string) :
  feedbackOf content <> EmptyString.
Proof.
  unfold feedbackOf. destruct content as [c|]; [|discriminate].
  destruct (trim c) eqn:E; discriminate.
Qed.

Lemma handlerCatch_headers (env : Env) (e : JsError) (w : World) :
  exists resp w',
    handlerCatch env e w = (Resolved resp, w')
    /\ headers resp = cors /\ calls w' = calls w
    /\ exists v, body resp = Some v /\ get v "feedback" = VUndefined.
Proof.
  unfold handlerCatch, bind, logLine, modify, ret.
  destruct (truthyStatus e) as [st|]; [|destruct (OPENAI_API_KEY env)];
    cbn [negb fst snd console calls];
    do 2 eexists; (split; [reflexivity|]);
    (split; [reflexivity|]); (split; [reflexivity|]);
    eexists; split; reflexivity.
Qed.

(** The [try] block, by the answers of the calls. *)
Lemma handlerBody_cases
    (parseFloat : string -> number) (env : Env) (req : Request) (w : World) :
  let multipart :=
    contains "multipart/form-data"
             (match content_type req with
              | Some c => c
              | None => EmptyString
              end) in
  exists cs,
    calls (snd (handlerBody parseFloat env req w)) = (calls w ++ cs)%list
    /\ match fst (handlerBody parseFloat env req w) with
       | Resolved resp =>
           headers resp = cors
           /\ exists v,
                body resp = Some v
                /\ ((code resp = 400%Z /\ get v "feedback" = VUndefined
                     /\ (cs = [] /\ multipart = false
                         /\ transcriptText (body_text req) = None
                         \/ cs = [ParseForm] /\ multipart = true
                            /\ exists form,
                                 form_outcome env = Resolved form
                                 /\ audio form = None))
                    \/ (code resp = 200%Z
                        /\ exists c,
                             completion_outcome env = Resolved c
                             /\ get v "feedback" = VStr (feedbackOf c)
                             /\ (cs = [ChatCompletion "gpt-5.1"]
                                 /\ multipart = false
                                 /\ transcriptText (body_text req) <> None
                                 \/ cs = [ParseForm; Transcribe "whisper-1";
                                          ChatCompletion "gpt-5.1"]
                                    /\ multipart = true
                                    /\ exists form file t,
                                         form_outcome env = Resolved form
                                         /\ audio form = Some file
                                         /\ transcription_outcome env
                                            = Resolved t
                                         /\ get v "transcript"
                                            = VStr (t_text t))))
       | Rejected e =>
           (cs = [ChatCompletion "gpt-5.1"] /\ multipart = false
            /\ completion_outcome env = Rejected e)
           \/ (cs = [ParseForm] /\ multipart = true
               /\ form_outcome env = Rejected e)
           \/ (cs = [ParseForm; Transcribe "whisper-1"] /\ multipart = true
               /\ transcription_outcome env = Rejected e
               /\ exists form file,
                    form_outcome env = Resolved form
                    /\ audio form = Some file)
           \/ (cs = [ParseForm; Transcribe "whisper-1";
                     ChatCompletion "gpt-5.1"] /\ multipart = true
               /\ completion_outcome env = Rejected e
               /\ exists form file t,
                    form_outcome env = Resolved form
                    /\ audio form = Some file
                    /\ transcription_outcome env = Resolved t)
       end.
Proof.
  cbv zeta. unfold handlerBody.
  destruct (contains "multipart/form-data"
              (match content_type req with
               | Some c => c
               | None => EmptyString
               end)).
  - unfold bind, call, logLine, modify, analyzeMetricsIn, ret.
    destruct (form_outcome env) as [form|e] eqn:F;
      cbn [fst snd console calls].
    + destruct (audio form) as [audioFile|] eqn:A;
        cbn [fst snd console calls].
      * destruct (transcription_outcome env) as [t|e] eqn:T;
          [destruct (completion_outcome env) as [c|e] eqn:C|];
          cbn [fst snd console calls];
          rewrite <- ?app_assoc; eexists; (split; [reflexivity|]).
        -- split; [reflexivity|]. eexists. split; [reflexivity|].
           right. split; [reflexivity|]. exists c.
           split; [reflexivity|]. split; [reflexivity|].
           right. split; [reflexivity|]. split; [reflexivity|].
           exists form, audioFile, t. repeat split; assumption.
        -- right. right. right.
           split; [reflexivity|]. split; [reflexivity|].
           split; [reflexivity|].
           exists form, audioFile, t. repeat split; assumption.
        -- right. right. left.
           split; [reflexivity|]. split; [reflexivity|].
           split; [reflexivity|].
           exists form, audioFile. split; [reflexivity | exact A].
      * exists [ParseForm]. split; [reflexivity|].
        cbn [json headers body code].
        split; [reflexivity|]. eexists. split; [reflexivity|].
        left. split; [reflexivity|]. split; [reflexivity|].
        right. split; [reflexivity|]. split; [reflexivity|].
        exists form. split; [reflexivity | exact A].
    + exists [ParseForm]. split; [reflexivity|].
      right. left. repeat split.
  - destruct (transcriptText (body_text req)) as [t|] eqn:Tx.
    + unfold bind, call, ret.
      destruct (completion_outcome env) as [c|e] eqn:C;
        exists [ChatCompletion "gpt-5.1"]; (split; [reflexivity|]);
        cbn [fst].
      * split; [reflexivity|]. eexists. split; [reflexivity|].
        right. split; [reflexivity|]. exists c.
        split; [reflexivity|]. split; [reflexivity|].
        left. repeat split. discriminate.
      * left. repeat split.
    + exists []. split; [simpl; rewrite app_nil_r; reflexivity|].
      cbn [fst ret json headers body code].
      split; [reflexivity|]. eexists. split; [reflexivity|].
      left. split; [reflexivity|]. split; [reflexivity|].
      left. repeat split.
Qed.

(** X22.  The audio handler always answers, never throws, and every answer
    carries the four CORS headers.  Requests other than POST are answered
    without any call or console line: OPTIONS with an empty 200, the
    others with 405 and an [Allow] header. *)
Theorem handler_always_answers
    (parseFloat : string -> number) (env : Env) (req : Request) (w : World) :
  exists resp w',
    handler parseFloat env req w = (Resolved resp, w')
    /\ (forall h, In h cors -> In h (headers resp))
    /\ (method req = "OPTIONS" ->
        w' = w /\ code resp = 200%Z /\ body resp = None)
    /\ (method req <> "OPTIONS" -> method req <> "POST" ->
        w' = w /\ code resp = 405%Z /\ In ("Allow", "POST") (headers resp)
        /\ body resp = Some (errorBody "Method not allowed"))
    /\ (method req = "POST" -> body resp <> None).
Proof.
  unfold handler.
  destruct (method req =? "OPTIONS") eqn:Eo.
  - apply String.eqb_eq in Eo.
    do 2 eexists. split; [reflexivity|].
    cbn [headers code body]. split; [auto|].
    split; [auto|]. split; [congruence|].
    intros Hp. rewrite Hp in Eo. discriminate.
  - apply String.eqb_neq in Eo.
    destruct (method req =? "POST") eqn:Ep; cbn [negb].
    + apply String.eqb_eq in Ep.
      pose proof (handlerBody_cases parseFloat env req w) as Hb.
      cbv zeta in Hb. destruct Hb as [cs [_ Hb]].
      unfold tryCatch.
      destruct (handlerBody parseFloat env req w) as [[resp|e] w1];
        cbn [fst] in Hb.
      * destruct Hb as [Hh [v [Hv _]]].
        exists resp, w1. split; [reflexivity|].
        split; [rewrite Hh; auto|].
        split; [congruence|]. split; [congruence|].
        intros _. rewrite Hv. discriminate.
      * destruct (handlerCatch_headers env e w1)
          as [resp [w2 [Hc [Hh [_ [v [Hv _]]]]]]].
        exists resp, w2. split; [exact Hc|].
        split; [rewrite Hh; auto|].
        split; [congruence|]. split; [congruence|].
        intros _. rewrite Hv. discriminate.
    + apply String.eqb_neq in Ep.
      do 2 eexists. split; [reflexivity|].
      cbn [json headers code body].
      split; [intros h Hh; apply in_or_app; left; exact Hh|].
      split; [congruence|].
      split; [|congruence].
      intros _ _. repeat split.
      apply in_or_app. right. left. reflexivity.
Qed.

(** X23.  The audio handler calls outside in one order only: the form parser,
    then the transcription, then the completion, each after the one
    before it has succeeded, or the completion alone for a request that
    is not multipart.  It never transcribes without an audio file and
    never asks for feedback after a failed transcription. *)
Theorem handler_calls_in_order
    (parseFloat : string -> number) (env : Env) (req : Request) (w : World) :
  exists cs,
    calls (snd (handler parseFloat env req w)) = (calls w ++ cs)%list
    /\ (cs = [] \/ cs = [ChatCompletion "gpt-5.1"]
        \/ cs = [ParseForm] \/ cs = [ParseForm; Transcribe "whisper-1"]
        \/ cs = [ParseForm; Transcribe "whisper-1"; ChatCompletion "gpt-5.1"])
    /\ (cs <> [] -> method req = "POST")
    /\ (In (Transcribe "whisper-1") cs ->
        exists form file,
          form_outcome env = Resolved form /\ audio form = Some file)
    /\ (In ParseForm cs -> In (ChatCompletion "gpt-5.1") cs ->
        exists t, transcription_outcome env = Resolved t).
Proof.
  unfold handler.
  destruct (method req =? "OPTIONS") eqn:Eo;
    [|destruct (method req =? "POST") eqn:Ep; cbn [negb]].
  - exists []. cbn [ret snd]. rewrite app_nil_r.
    split; [reflexivity|]. split; [auto|].
    split; [congruence|]. split; intros [].
  - apply String.eqb_eq in Ep.
    pose proof (handlerBody_cases parseFloat env req w) as Hb.
    cbv zeta in Hb. destruct Hb as [cs [Hcalls Hb]].
    exists cs. split.
    { unfold tryCatch.
      destruct (handlerBody parseFloat env req w) as [[resp|e] w1];
        cbn [snd] in *; [exact Hcalls|].
      destruct (handlerCatch_headers env e w1) as [r [w2 [Hc [_ [Hk _]]]]].
      rewrite Hc. cbn [snd]. rewrite Hk. exact Hcalls. }
    split; [|split; [intros _; exact Ep|]].
    { destruct (fst (handlerBody parseFloat env req w)) as [resp|e].
      - destruct Hb as [_ [v [_ [[_ [_ [[H _]|[H _]]]]
                                |[_ [c [_ [_ [[H _]|[H _]]]]]]]]]];
          rewrite H; auto.
      - destruct Hb as [[H _]|[[H _]|[[H _]|[H _]]]]; rewrite H; auto 6. }
    destruct (fst (handlerBody parseFloat env req w)) as [resp|e].
    + destruct Hb as [_ [v [_ [[_ [_ [[H _]|[H [_ [form [Hf Ha]]]]]]]
                              |[_ [c [_ [_ [[H _]
                                 |[H [_ [form [file [t [Hf [Ha [Ht _]]]]]]]]]]]]]]]]];
        rewrite H; split; simpl; try intuition discriminate.
      * intros _. exists form, file. split; assumption.
      * intros _ _. exists t. exact Ht.
    + destruct Hb as [[H _]|[[H _]
                            |[[H [_ [_ [form [file [Hf Ha]]]]]]
                             |[H [_ [_ [form [file [t [Hf [Ha Ht]]]]]]]]]]];
        rewrite H; split; simpl; try intuition discriminate.
      * intros _. exists form, file. split; assumption.
      * intros _. exists form, file. split; assumption.
      * intros _ _. exists t. exact Ht.
  - exists []. cbn [ret snd]. rewrite app_nil_r.
    split; [reflexivity|]. split; [auto|].
    split; [congruence|]. split; intros [].
Qed.

(** X24.  An answer of the audio handler that carries a [feedback] property is
    a 200 answer to a POST whose completion call succeeded, and the
    feedback is the completion's trimmed content or the fixed fallback
    text, never the empty string; the error answers carry none. *)
Theorem feedback_only_from_completion
    (parseFloat : string -> number) (env : Env) (req : Request)
    (w w' : World) (resp : Response) (v : value) :
  handler parseFloat env req w = (Resolved resp, w') ->
  body resp = Some v ->
  get v "feedback" <> VUndefined ->
  method req = "POST" /\ code resp = 200%Z
  /\ exists c,
       completion_outcome env = Resolved c
       /\ get v "feedback" = VStr (feedbackOf c)
       /\ feedbackOf c <> EmptyString
       /\ In (ChatCompletion "gpt-5.1") (calls w').
Proof.
  unfold handler.
  destruct (method req =? "OPTIONS") eqn:Eo;
    [|destruct (method req =? "POST") eqn:Ep; cbn [negb]].
  - intros H. injection H as <- _. discriminate.
  - apply String.eqb_eq in Ep.
    pose proof (handlerBody_cases parseFloat env req w) as Hb.
    cbv zeta in Hb. destruct Hb as [cs [Hcalls Hb]].
    unfold tryCatch.
    destruct (handlerBody parseFloat env req w) as [[r|e] w1];
      cbn [fst snd] in *.
    + intros H. injection H as <- <-. intros Hv Hf.
      destruct Hb as [_ [v0 [Hv0 Hb]]].
      rewrite Hv in Hv0. injection Hv0 as <-.
      destruct Hb as [[_ [Hnone _]]|[Hcode [c [Hc [Hfeed Hcs]]]]];
        [contradiction|].
      split; [exact Ep|]. split; [exact Hcode|].
      exists c. split; [exact Hc|]. split; [exact Hfeed|].
      split; [apply feedbackOf_nonempty|].
      rewrite Hcalls. apply in_or_app. right.
      destruct Hcs as [[-> _]|[-> _]]; simpl; auto.
    + destruct (handlerCatch_headers env e w1)
        as [r [w2 [Hc [_ [_ [v0 [Hv0 Hnone]]]]]]].
      rewrite Hc. intros H. injection H as <- _. intros Hv Hf.
      rewrite Hv in Hv0. injection Hv0 as <-. contradiction.
  - intros H. injection H as <- _. intros Hv.
    cbn [json body] in Hv. injection Hv as <-. intros Hf.
    exfalso. apply Hf. reflexivity.
Qed.

Lemma feedback_only_from_completion_witness :
  exists c,
    completion_outcome zeroDurationEnv = Resolved c
    /\ feedbackOf c <> EmptyString
    /\ In (ChatCompletion "gpt-5.1")
          (calls (snd (handler parseDigits zeroDurationEnv multipartRequest
                               emptyWorld))).
Proof.
  destruct (feedback_only_from_completion
              parseDigits zeroDurationEnv multipartRequest emptyWorld
              (snd (handler parseDigits zeroDurationEnv multipartRequest
                            emptyWorld))
              (json 200 cors
                 (VObj [ ("feedback", VStr "Summary: fine.");
                         ("transcript", VStr "Um well like");
                         ("metrics",
                           analyzeMetrics (WordsArray sampleWords) zero) ]))
              (VObj [ ("feedback", VStr "Summary: fine.");
                      ("transcript", VStr "Um well like");
                      ("metrics",
                        analyzeMetrics (WordsArray sampleWords) zero) ]))
    as [_ [_ [c [Hc [_ [Hne Hin]]]]]].
  - reflexivity.
  - reflexivity.
  - discriminate.
  - exists c. split; [exact Hc|]. split; [exact Hne | exact Hin].
Defined.

(** X25.  Each of the two text-only handlers always answers, with 200, 400,
    405 or 500, and calls the completion at most once: not at all unless
    the request is a POST with a text that is not blank.  It answers 200
    exactly when that call succeeds, with a feedback that is not empty,
    and a JSON error otherwise; the 400 and 405 answers leave no trace. *)
Theorem text_handler_answers
    (env : Env) (model : string) (req : Request) (w : World) :
  exists resp w' cs,
    textHandler env model req w = (Resolved resp, w')
    /\ calls w' = (calls w ++ cs)%list
    /\ ((code resp = 405%Z /\ method req <> "POST" /\ cs = [] /\ w' = w
         /\ In ("Allow", "POST") (headers resp) /\ isErrorResponse resp)
        \/ (code resp = 400%Z /\ method req = "POST"
            /\ transcriptText (body_text req) = None
            /\ cs = [] /\ w' = w /\ isErrorResponse resp)
        \/ (code resp = 500%Z /\ method req = "POST"
            /\ cs = [ChatCompletion model]
            /\ (exists e, completion_outcome env = Rejected e)
            /\ logged "Feedback generation failed:" w'
            /\ isErrorResponse resp)
        \/ (code resp = 200%Z /\ method req = "POST"
            /\ cs = [ChatCompletion model]
            /\ console w' = console w
            /\ exists c,
                 completion_outcome env = Resolved c
                 /\ body resp
                    = Some (VObj [("feedback", VStr (feedbackOf c))])
                 /\ feedbackOf c <> EmptyString)).
Proof.
  unfold textHandler.
  destruct (method req =? "POST") eqn:Ep; cbn [negb].
  - apply String.eqb_eq in Ep.
    destruct (transcriptText (body_text req)) as [t|] eqn:Tx.
    + unfold tryCatch, bind, call, logLine, modify, ret.
      destruct (completion_outcome env) as [c|e] eqn:C;
        cbn [fst snd console calls].
      * do 3 eexists. split; [reflexivity|]. split; [reflexivity|].
        right. right. right.
        split; [reflexivity|]. split; [exact Ep|].
        split; [reflexivity|]. split; [reflexivity|].
        exists c. split; [reflexivity|]. split; [reflexivity|].
        apply feedbackOf_nonempty.
      * do 3 eexists. split; [reflexivity|]. split; [reflexivity|].
        right. right. left.
        split; [reflexivity|]. split; [exact Ep|].
        split; [reflexivity|]. split; [exists e; reflexivity|].
        split.
        -- exists [VStr (message e)]. cbn [console].
           apply in_or_app. right. left. reflexivity.
        -- do 2 eexists. split; reflexivity.
    + exists (json 400 [] (errorBody "Missing transcript text")), w, [].
      split; [reflexivity|]. split; [rewrite app_nil_r; reflexivity|].
      right. left. repeat split; try assumption.
      do 2 eexists. split; reflexivity.
  - apply String.eqb_neq in Ep.
    exists (json 405 [("Allow", "POST")] (errorBody "Method not allowed")),
           w, [].
    split; [reflexivity|]. split; [rewrite app_nil_r; reflexivity|].
    left. repeat split; try assumption.
    + left. reflexivity.
    + do 2 eexists. split; reflexivity.
Qed.

End ResponseFacts.

(* ================================================================== *)
(** * Properties of the form parser *)
(* ================================================================== *)

Module MultipartFacts.
Import JSNumber JSString JSValue Metrics Effect Handlers Multipart.
Import JSNumberFacts HandlersFacts.

Local Open Scope string_scope.

(** ** Without a boundary *)

Lemma splitFrom_absent (sep s : string) :
  contains sep s = false -> splitFrom sep 0 s = [s].
Proof.
  induction s as [|c rest IH]; intros H; [reflexivity|].
  cbn [contains] in H. apply orb_false_iff in H. destruct H as [Hp Hc].
  cbn [splitFrom]. rewrite Hp, (IH Hc). reflexivity.
Qed.

Lemma boundaryOf_absent (ct : string) :
  contains "boundary=" ct = false -> boundaryOf (Some ct) = None.
Proof.
  intros H. unfold boundaryOf, splitOn.
  rewrite (splitFrom_absent _ _ H). reflexivity.
Qed.

(** X26.  A multipart request whose content type names no boundary: the parser
    rejects with ['No boundary found'] whatever the body is, and the
    handler answers 500 after that one call; nothing is transcribed. *)
Theorem upload_without_boundary
    (parseFloat : string -> number) (req : Request) (ct payload : string)
    (transcription : outcome Transcription)
    (completion : outcome (option string)) (key : bool) (w : World) :
  method req = "POST" ->
  content_type req = Some ct ->
  contains "multipart/form-data" ct = true ->
  contains "boundary=" ct = false ->
  parseMultipartForm (content_type req) payload
  = Rejected (mkError None "No boundary found")
  /\ exists resp w',
       handler parseFloat (uploadEnv req payload transcription completion key)
               req w
       = (Resolved resp, w')
       /\ code resp = 500%Z
       /\ calls w' = (calls w ++ [ParseForm])%list
       /\ exists v,
            body resp = Some v
            /\ get v "details"
               = VStr (if key then "No boundary found"
                       else "OPENAI_API_KEY environment variable is missing").
Proof.
  intros Hm Hct Hmulti Hb.
  assert (Hparse : parseMultipartForm (content_type req) payload
                   = Rejected (mkError None "No boundary found")).
  { unfold parseMultipartForm. rewrite Hct, (boundaryOf_absent ct Hb).
    reflexivity. }
  split; [exact Hparse|].
  rewrite (handler_post parseFloat _ req Hm).
  unfold tryCatch, handlerBody. rewrite Hct, Hmulti.
  unfold bind at 1, call at 1, uploadEnv at 1. cbn [form_outcome].
  rewrite Hparse.
  unfold handlerCatch, bind, logLine, modify, ret, truthyStatus.
  cbn [status message OPENAI_API_KEY uploadEnv fst snd console calls].
  destruct key; cbn [negb];
    do 2 eexists; (split; [reflexivity|]);
    (split; [reflexivity|]); (split; [reflexivity|]);
    eexists; split; reflexivity.
Qed.

Lemma upload_without_boundary_witness :
  parseMultipartForm (content_type unboundedRequest) sampleUpload
  = Rejected (mkError None "No boundary found").
Proof.
  apply (upload_without_boundary
           parseDigits unboundedRequest "multipart/form-data" sampleUpload
           (Rejected (mkError None "unused")) (Resolved None) true
           emptyWorld); reflexivity.
Defined.

(** ** The names that are stored *)

Lemma untilQuote_without (s run : string) :
  untilQuote s = Some run -> without quote run = true.
Proof.
  revert run. induction s as [|c rest IH]; intros run; simpl;
    [discriminate|].
  destruct (Ascii.eqb c quote) eqn:E.
  - intros H. injection H as <-. reflexivity.
  - destruct (untilQuote rest) as [r|]; [|discriminate].
    intros H. injection H as <-. simpl. rewrite E, (IH r eq_refl).
    reflexivity.
Qed.

Lemma matchQuoted_group (opening s group : string) :
  matchQuoted opening s = Some group ->
  group <> EmptyString /\ without quote group = true.
Proof.
  induction s as [|c rest IH]; cbn [matchQuoted]; unfold matchHere.
  - destruct (afterPrefix opening EmptyString) as [tail|]; [|discriminate].
    destruct (untilQuote tail) as [[|c0 run]|] eqn:U; try discriminate.
    intros H. injection H as <-.
    split; [discriminate | exact (untilQuote_without _ _ U)].
  - destruct (afterPrefix opening (String c rest)) as [tail|]; [|exact IH].
    destruct (untilQuote tail) as [[|c0 run]|] eqn:U; try exact IH.
    intros H. injection H as <-.
    split; [discriminate | exact (untilQuote_without _ _ U)].
Qed.

Lemma setOwn_In {A : Type} (k : string) (v : A) (o : list (string * A)) :
  forall k' v', In (k', v') (setOwn k v o) ->
                (k', v') = (k, v) \/ In (k', v') o.
Proof.
  induction o as [|[k0 v0] rest IH]; simpl; intros k' v' H.
  - destruct H as [H|[]]. left. symmetry. exact H.
  - destruct (k =? k0); simpl in H.
    + destruct H as [H|H]; [left; symmetry; exact H | right; right; exact H].
    + destruct H as [H|H]; [right; left; exact H|].
      destruct (IH k' v' H) as [E|E]; [left; exact E | right; right; exact E].
Qed.

Lemma setOwn_NoDup {A : Type} (k : string) (v : A) (o : list (string * A)) :
  NoDup (map fst o) -> NoDup (map fst (setOwn k v o)).
Proof.
  induction o as [|[k0 v0] rest IH]; simpl; intros H.
  - constructor; [intros [] | constructor].
  - inversion H as [|? ? Hnot Hrest]. subst.
    destruct (k =? k0) eqn:E; simpl.
    + apply String.eqb_eq in E. subst k0. constructor; assumption.
    + constructor; [|exact (IH Hrest)].
      intros Hin. apply in_map_iff in Hin. destruct Hin as [[k1 v1] [E1 Hin]].
      simpl in E1. subst k1.
      destruct (setOwn_In k v rest k0 v1 Hin) as [H1|H1].
      * injection H1 as H1 _. subst k0. rewrite String.eqb_refl in E.
        discriminate.
      * apply Hnot. apply in_map_iff. exists (k0, v1). split; [reflexivity|].
        exact H1.
Qed.

Lemma assignProperty_In {A : Type} (k : string) (v : A)
    (o : list (string * A)) :
  forall k' v', In (k', v') (assignProperty k v o) ->
                ((k', v') = (k, v) /\ k <> "__proto__") \/ In (k', v') o.
Proof.
  unfold assignProperty. intros k' v' H.
  destruct (k =? "__proto__") eqn:E; [right; exact H|].
  apply String.eqb_neq in E.
  destruct (setOwn_In k v o k' v' H) as [H1|H1];
    [left; split; assumption | right; exact H1].
Qed.

Lemma assignProperty_NoDup {A : Type} (k : string) (v : A)
    (o : list (string * A)) :
  NoDup (map fst o) -> NoDup (map fst (assignProperty k v o)).
Proof.
  unfold assignProperty. destruct (k =? "__proto__"); [auto|].
  apply setOwn_NoDup.
Qed.

Lemma parsePart_names (result : Parsed) (part : string) :
  let good := fun k : string =>
    k <> EmptyString /\ without quote k = true /\ k <> "__proto__" in
  ((forall k v, In (k, v) (fields result) -> good k)
   /\ (forall k f, In (k, f) (files result) ->
         good k /\ file_name f <> EmptyString
         /\ without quote (file_name f) = true)
   /\ NoDup (map fst (fields result)) /\ NoDup (map fst (files result))) ->
  ((forall k v, In (k, v) (fields (parsePart result part)) -> good k)
   /\ (forall k f, In (k, f) (files (parsePart result part)) ->
         good k /\ file_name f <> EmptyString
         /\ without quote (file_name f) = true)
   /\ NoDup (map fst (fields (parsePart result part)))
   /\ NoDup (map fst (files (parsePart result part)))).
Proof.
  cbv zeta. intros [Hf [Hg [Nf Ng]]]. unfold parsePart.
  destruct (contains "Content-Disposition" part); [|tauto].
  destruct (nameMatch part) as [name|] eqn:N; [|tauto].
  destruct (matchQuoted_group _ _ _ N) as [N1 N2].
  destruct (filenameMatch part) as [filename|] eqn:F; cbn [fields files].
  - destruct (matchQuoted_group _ _ _ F) as [F1 F2].
    split; [exact Hf|]. split; [|split; [exact Nf|]].
    + intros k f Hin.
      destruct (assignProperty_In _ _ _ _ _ Hin) as [[E Hp]|Hold];
        [|exact (Hg k f Hold)].
      injection E as -> ->. cbn [file_name]. tauto.
    + apply assignProperty_NoDup. exact Ng.
  - split; [|split; [exact Hg|split; [|exact Ng]]].
    + intros k v Hin.
      destruct (assignProperty_In _ _ _ _ _ Hin) as [[E Hp]|Hold];
        [|exact (Hf k v Hold)].
      injection E as -> _. tauto.
    + apply assignProperty_NoDup. exact Nf.
Qed.

Lemma parseParts_names (parts : list string) :
  forall result,
    ((forall k v, In (k, v) (fields result) ->
        k <> EmptyString /\ without quote k = true /\ k <> "__proto__")
     /\ (forall k f, In (k, f) (files result) ->
           (k <> EmptyString /\ without quote k = true /\ k <> "__proto__")
           /\ file_name f <> EmptyString
           /\ without quote (file_name f) = true)
     /\ NoDup (map fst (fields result))
     /\ NoDup (map fst (files result))) ->
    ((forall k v, In (k, v) (fields (fold_left parsePart parts result)) ->
        k <> EmptyString /\ without quote k = true /\ k <> "__proto__")
     /\ (forall k f, In (k, f) (files (fold_left parsePart parts result)) ->
           (k <> EmptyString /\ without quote k = true /\ k <> "__proto__")
           /\ file_name f <> EmptyString
           /\ without quote (file_name f) = true)
     /\ NoDup (map fst (fields (fold_left parsePart parts result)))
     /\ NoDup (map fst (files (fold_left parsePart parts result)))).
Proof.
  induction parts as [|part rest IH]; intros result H; [exact H|].
  cbn [fold_left]. apply IH. apply (parsePart_names result part). exact H.
Qed.

Lemma own_setOwn {A : Type} (k k' : string) (v : A) (o : list (string * A)) :
  own k' (setOwn k v o) = if k' =? k then Some v else own k' o.
Proof.
  induction o as [|[k0 v0] rest IH]; simpl.
  - reflexivity.
  - destruct (k =? k0) eqn:E; simpl.
    + apply String.eqb_eq in E. subst k0.
      destruct (k' =? k); reflexivity.
    + rewrite IH. destruct (k' =? k0) eqn:E0; [|reflexivity].
      apply String.eqb_eq in E0. subst k0.
      destruct (k' =? k) eqn:E1; [|reflexivity].
      apply String.eqb_eq in E1. subst k'. rewrite String.eqb_refl in E.
      discriminate E.
Qed.

Lemma own_assignProperty {A : Type} (k k' : string) (v : A)
    (o : list (string * A)) :
  k' <> "__proto__" ->
  own k' (assignProperty k v o) = if k' =? k then Some v else own k' o.
Proof.
  intros Hk. unfold assignProperty.
  destruct (k =? "__proto__") eqn:E; [|apply own_setOwn].
  apply String.eqb_eq in E. subst k.
  apply String.eqb_neq in Hk. rewrite Hk. reflexivity.
Qed.

(** The loop body, by what the part is stored as. *)
Lemma parsePart_stored (result : Parsed) (part : string) :
  parsePart result part
  = match partKey part with
    | Some (false, name) =>
        mkParsed (assignProperty name (partContent part) (fields result))
                 (files result)
    | Some (true, name) =>
        match filenameMatch part with
        | Some filename =>
            mkParsed (fields result)
                     (assignProperty name (mkFile filename (partContent part))
                                     (files result))
        | None => result
        end
    | None => result
    end.
Proof.
  unfold parsePart, partKey, partContent.
  destruct (contains "Content-Disposition" part); [|reflexivity].
  destruct (nameMatch part) as [name|]; [|reflexivity].
  destruct (filenameMatch part) as [filename|]; reflexivity.
Qed.

Lemma later_parts_keep (kind : bool) (name : string) (after : list string) :
  name <> "__proto__" ->
  (forall later, In later after -> partKey later <> Some (kind, name)) ->
  forall result,
    (kind = false ->
     own name (fields (fold_left parsePart after result))
     = own name (fields result))
    /\ (kind = true ->
        own name (files (fold_left parsePart after result))
        = own name (files result)).
Proof.
  intros Hname. induction after as [|later rest IH]; intros Hafter result;
    [split; reflexivity|].
  cbn [fold_left].
  assert (Hrest : forall l, In l rest -> partKey l <> Some (kind, name))
    by (intros l Hl; apply Hafter; right; exact Hl).
  destruct (IH Hrest (parsePart result later)) as [IHf IHg].
  pose proof (Hafter later (or_introl eq_refl)) as Hlater.
  rewrite parsePart_stored.
  rewrite parsePart_stored in IHf, IHg.
  destruct (partKey later) as [[[|] k]|].
  - destruct (filenameMatch later) as [filename|];
      [|split; [exact IHf | exact IHg]].
    cbn [fields files] in IHf, IHg. split; [exact IHf|].
    intros Hk. rewrite (IHg Hk), own_assignProperty by exact Hname.
    destruct (name =? k) eqn:E; [|reflexivity].
    apply String.eqb_eq in E. subst k kind.
    contradiction Hlater; reflexivity.
  - cbn [fields files] in IHf, IHg. split; [|exact IHg].
    intros Hk. rewrite (IHf Hk), own_assignProperty by exact Hname.
    destruct (name =? k) eqn:E; [|reflexivity].
    apply String.eqb_eq in E. subst k kind.
    contradiction Hlater; reflexivity.
  - split; [exact IHf | exact IHg].
Qed.

(** X27.  Whatever the body is, the names under which fields and files are
    stored, and the file names, are not empty and hold no quote; each
    name is stored once, and what is stored under it is the content of
    the last part of that name and kind: a later part replaces an earlier
    one of the same name. *)
Theorem parsed_names_are_quoted_text
    (contentType : option string) (payload : string) (result : Parsed) :
  parseMultipartForm contentType payload = Resolved result ->
  (forall k v, In (k, v) (fields result) ->
     k <> EmptyString /\ without quote k = true /\ k <> "__proto__")
  /\ (forall k f, In (k, f) (files result) ->
        (k <> EmptyString /\ without quote k = true /\ k <> "__proto__")
        /\ file_name f <> EmptyString
        /\ without quote (file_name f) = true)
  /\ NoDup (map fst (fields result)) /\ NoDup (map fst (files result))
  /\ (forall boundary before part after name,
        boundaryOf contentType = Some boundary ->
        splitOn (delimiter boundary) payload = (before ++ part :: after)%list ->
        name <> "__proto__" ->
        partKey part = Some (false, name) ->
        (forall later, In later after ->
                       partKey later <> Some (false, name)) ->
        own name (fields result) = Some (partContent part))
  /\ (forall boundary before part after name,
        boundaryOf contentType = Some boundary ->
        splitOn (delimiter boundary) payload = (before ++ part :: after)%list ->
        name <> "__proto__" ->
        partKey part = Some (true, name) ->
        (forall later, In later after ->
                       partKey later <> Some (true, name)) ->
        exists filename,
          filenameMatch part = Some filename
          /\ own name (files result)
             = Some (mkFile filename (partContent part))).
Proof.
  unfold parseMultipartForm.
  destruct (boundaryOf contentType) as [boundary|]; [|discriminate].
  intros H. injection H as <-.
  assert (Hnames := parseParts_names (splitOn (delimiter boundary) payload)
                      (mkParsed [] [])).
  destruct Hnames as [N1 [N2 [N3 N4]]].
  { cbn [fields files map]. repeat split; try constructor; contradiction. }
  split; [exact N1|]. split; [exact N2|]. split; [exact N3|].
  split; [exact N4|]. split.
  - intros boundary' before part after name Hb Hsplit Hname Hkey Hafter.
    injection Hb as <-. rewrite Hsplit, fold_left_app. cbn [fold_left].
    destruct (later_parts_keep false name after Hname Hafter
                (parsePart (fold_left parsePart before (mkParsed [] []))
                           part)) as [Hkeep _].
    rewrite (Hkeep eq_refl), parsePart_stored, Hkey. cbn [fields].
    rewrite own_assignProperty by exact Hname.
    rewrite String.eqb_refl. reflexivity.
  - intros boundary' before part after name Hb Hsplit Hname Hkey Hafter.
    injection Hb as <-. rewrite Hsplit, fold_left_app. cbn [fold_left].
    destruct (later_parts_keep true name after Hname Hafter
                (parsePart (fold_left parsePart before (mkParsed [] []))
                           part)) as [_ Hkeep].
    rewrite (Hkeep eq_refl), parsePart_stored, Hkey.
    unfold partKey in Hkey.
    destruct (contains "Content-Disposition" part); [|discriminate Hkey].
    destruct (nameMatch part) as [nm|]; [|discriminate Hkey].
    destruct (filenameMatch part) as [filename|]; [|discriminate Hkey].
    exists filename. split; [reflexivity|]. cbn [files].
    rewrite own_assignProperty by exact Hname.
    rewrite String.eqb_refl. reflexivity.
Qed.

Lemma parsed_names_are_quoted_text_witness :
  NoDup (map fst [("duration", "30")])
  /\ own "duration" [("duration", "30")]
     = Some (partContent (fieldPart "duration" "30"))
  /\ partContent (fieldPart "duration" "30") = "30".
Proof.
  destruct (parsed_names_are_quoted_text
              (Some "multipart/form-data; boundary=XYZ") repeatedUpload
              (mkParsed [("duration", "30")] []))
    as [_ [_ [Hnodup [_ [Hfield _]]]]].
  - vm_compute. reflexivity.
  - split; [exact Hnodup|]. split; [|vm_compute; reflexivity].
    apply (Hfield "XYZ" [EmptyString; fieldPart "duration" "12"]
                  (fieldPart "duration" "30") ["--" ++ CRLF] "duration").
    + vm_compute. reflexivity.
    + vm_compute. reflexivity.
    + discriminate.
    + vm_compute. reflexivity.
    + intros later [<-|[]]. vm_compute. discriminate.
Defined.

(** ** Splitting at the delimiter *)

Lemma append_assoc (a b c : string) : (a ++ b) ++ c = a ++ b ++ c.
Proof.
  induction a as [|x a IH]; simpl; [reflexivity | rewrite IH; reflexivity].
Qed.

Lemma prefix_append (s t : string) : prefix s (s ++ t) = true.
Proof.
  induction s as [|a s IH]; simpl; [destruct t; reflexivity|].
  destruct (ascii_dec a a) as [_|N]; [exact IH | contradiction N; reflexivity].
Qed.

Lemma prefix_long (sep : string) :
  forall x y,
    (String.length sep <= String.length x)%nat ->
    prefix sep (x ++ y) = prefix sep x.
Proof.
  induction sep as [|a sep IH]; intros x y H.
  - destruct x; destruct y; reflexivity.
  - destruct x as [|b x]; simpl in H; [lia|].
    simpl. destruct (ascii_dec a b); [|reflexivity].
    apply IH. lia.
Qed.

Lemma splitFrom_skip (sep x rest : string) :
  splitFrom sep (String.length x) (x ++ rest) = splitFrom sep 0 rest.
Proof.
  induction x as [|c x IH]; [reflexivity|].
  cbn [String.length append splitFrom]. exact IH.
Qed.

Lemma splitFrom_sep (c : ascii) (sep rest : string) :
  splitFrom (String c sep) 0 (String c sep ++ rest)
  = EmptyString :: splitFrom (String c sep) 0 rest.
Proof.
  pose proof (prefix_append (String c sep) rest) as H.
  cbn [append] in H |- *. cbn [splitFrom]. rewrite H.
  cbn [String.length]. rewrite Nat.sub_1_r. cbn [Nat.pred].
  rewrite splitFrom_skip. reflexivity.
Qed.

Lemma splitFrom_piece (sep : string) (p rest : string) :
  sep <> EmptyString -> endsPart sep p = true ->
  splitFrom sep 0 (p ++ sep ++ rest) = p :: splitFrom sep 0 rest.
Proof.
  intros Hsep. destruct sep as [|c0 sep']; [contradiction Hsep; reflexivity|].
  induction p as [|c p IH]; intros Hend.
  - apply splitFrom_sep.
  - unfold endsPart in Hend. cbn [append indexOf] in Hend.
    destruct (prefix (String c0 sep') (String c (p ++ String c0 sep')))
      eqn:P; [discriminate Hend|].
    assert (Hp : endsPart (String c0 sep') p = true).
    { unfold endsPart.
      destruct (indexOf (String c0 sep') (p ++ String c0 sep')) as [i|];
        [|discriminate Hend].
      exact Hend. }
    assert (P' : prefix (String c0 sep')
                        (String c (p ++ String c0 sep' ++ rest)) = false).
    { rewrite <- P.
      change (String c (p ++ String c0 sep' ++ rest))
        with (String c (p ++ (String c0 sep' ++ rest))).
      rewrite <- append_assoc.
      change (String c ((p ++ String c0 sep') ++ rest))
        with (String c (p ++ String c0 sep') ++ rest).
      apply prefix_long. cbn [String.length]. rewrite length_append.
      cbn [String.length]. lia. }
    change (splitFrom (String c0 sep') 0
                      (String c (p ++ String c0 sep' ++ rest))
            = String c p :: splitFrom (String c0 sep') 0 rest).
    cbn [splitFrom]. rewrite P', (IH Hp). reflexivity.
Qed.

(** ** Searching past a head *)

Lemma clash_prefix (needle : string) :
  forall s t, clash needle s = true -> prefix needle (s ++ t) = false.
Proof.
  induction needle as [|a needle IH]; intros s t H;
    [destruct s; discriminate H|].
  destruct s as [|b s]; [discriminate H|].
  cbn [clash] in H. cbn [append prefix].
  destruct (ascii_dec a b) as [E|N].
  - subst b. rewrite Ascii.eqb_refl in H. apply IH. exact H.
  - reflexivity.
Qed.

Lemma indexOf_clashes (needle h : string) :
  forall t,
    clashes needle h = true ->
    indexOf needle (h ++ t)
    = option_map (Nat.add (String.length h)) (indexOf needle t).
Proof.
  induction h as [|c h IH]; intros t H.
  - cbn [append String.length]. destruct (indexOf needle t); reflexivity.
  - cbn [clashes] in H. apply andb_true_iff in H. destruct H as [H1 H2].
    pose proof (clash_prefix needle (String c h) t H1) as P.
    cbn [append] in P |- *. cbn [indexOf]. rewrite P, (IH t H2).
    destruct (indexOf needle t); reflexivity.
Qed.

Lemma without_clashes (c : ascii) (needle f : string) :
  without c f = true -> clashes (String c needle) f = true.
Proof.
  induction f as [|b f IH]; intros H; [reflexivity|].
  cbn [without] in H. apply andb_true_iff in H. destruct H as [H1 H2].
  cbn [clashes clash]. apply negb_true_iff in H1.
  rewrite Ascii.eqb_sym, H1. cbn [andb]. exact (IH H2).
Qed.

Lemma indexOf_here (needle t : string) : indexOf needle (needle ++ t) = Some 0%nat.
Proof.
  destruct needle as [|a needle]; [destruct t; reflexivity|].
  pose proof (prefix_append (String a needle) t) as P.
  cbn [append] in P |- *. cbn [indexOf]. rewrite P. reflexivity.
Qed.

Lemma lastIndexOf_end (x : string) :
  lastIndexOf CRLF (x ++ CRLF) = Some (String.length x).
Proof.
  induction x as [|c x IH]; [reflexivity|].
  cbn [append lastIndexOf String.length]. rewrite IH. reflexivity.
Qed.

Lemma substring_prefix (b c : string) :
  substring 0 (String.length b) (b ++ c) = b.
Proof.
  induction b as [|x b IH]; [destruct c; reflexivity|].
  cbn [String.length append substring]. rewrite IH. reflexivity.
Qed.

Lemma substring_middle (a b c : string) :
  substring (String.length a) (String.length b) (a ++ b ++ c) = b.
Proof.
  induction a as [|x a IH];
    [cbn [String.length append]; apply substring_prefix|].
  cbn [String.length append substring]. exact IH.
Qed.

Lemma substringJS_middle (a b c : string) :
  substringJS (a ++ b ++ c) (Z.of_nat (String.length a))
              (Z.of_nat (String.length a + String.length b))
  = b.
Proof.
  unfold substringJS. rewrite !length_append.
  set (la := String.length a). set (lb := String.length b).
  set (lc := String.length c).
  rewrite (Z.max_l (Z.of_nat la) 0) by lia.
  rewrite (Z.max_l (Z.of_nat (la + lb)) 0) by lia.
  rewrite (Z.min_l (Z.of_nat la)) by lia.
  rewrite (Z.min_l (Z.of_nat (la + lb))) by lia.
  rewrite Z.min_l, Z.max_r by lia.
  replace (Z.to_nat (Z.of_nat (la + lb) - Z.of_nat la)) with lb by lia.
  rewrite Nat2Z.id. apply substring_middle.
Qed.

(** The content of a part: what lies between the first empty line and the
    last line break. *)
Lemma content_of_part (head' content : string) :
  indexOf (CRLF ++ CRLF) (head' ++ (CRLF ++ CRLF) ++ content ++ CRLF)
  = Some (String.length head') ->
  substringJS
    (head' ++ (CRLF ++ CRLF) ++ content ++ CRLF)
    (match indexOf (CRLF ++ CRLF)
                   (head' ++ (CRLF ++ CRLF) ++ content ++ CRLF) with
     | Some i => Z.of_nat i + 4
     | None => 3
     end)%Z
    (match lastIndexOf CRLF (head' ++ (CRLF ++ CRLF) ++ content ++ CRLF) with
     | Some i => Z.of_nat i
     | None => -1
     end)%Z
  = content.
Proof.
  intros Hi. rewrite Hi.
  assert (E : head' ++ (CRLF ++ CRLF) ++ content ++ CRLF
              = (head' ++ CRLF ++ CRLF) ++ content ++ CRLF).
  { rewrite !append_assoc. reflexivity. }
  assert (E' : head' ++ (CRLF ++ CRLF) ++ content ++ CRLF
               = ((head' ++ CRLF ++ CRLF) ++ content) ++ CRLF).
  { rewrite !append_assoc. reflexivity. }
  rewrite E' at 2. rewrite lastIndexOf_end. rewrite E.
  replace (Z.of_nat (String.length head') + 4)%Z
    with (Z.of_nat (String.length (head' ++ CRLF ++ CRLF)))
    by (rewrite length_append; cbn [String.length CRLF append]; lia).
  rewrite (length_append (head' ++ CRLF ++ CRLF) content).
  apply substringJS_middle.
Qed.

(** ** Matching past a head *)

Lemma without_append (c : ascii) (s t : string) :
  without c (s ++ t) = without c s && without c t.
Proof.
  induction s as [|b s IH]; [reflexivity|].
  cbn [append without]. rewrite IH, andb_assoc. reflexivity.
Qed.

Lemma afterPrefix_clash (opening : string) :
  forall s t, clash opening s = true -> afterPrefix opening (s ++ t) = None.
Proof.
  induction opening as [|a opening IH]; intros s t H;
    [destruct s; discriminate H|].
  destruct s as [|b s]; [discriminate H|].
  cbn [clash] in H. cbn [append afterPrefix].
  destruct (Ascii.eqb a b); [apply IH; exact H | reflexivity].
Qed.

Lemma afterPrefix_append (opening t : string) :
  afterPrefix opening (opening ++ t) = Some t.
Proof.
  induction opening as [|a opening IH]; [reflexivity|].
  cbn [append afterPrefix]. rewrite Ascii.eqb_refl. exact IH.
Qed.

Lemma afterPrefix_quote (opening : string) :
  forall s,
    without quote opening = false -> without quote s = true ->
    afterPrefix opening s = None.
Proof.
  induction opening as [|a opening IH]; intros s Ho Hs; [discriminate Ho|].
  destruct s as [|b s]; [reflexivity|].
  cbn [afterPrefix]. destruct (Ascii.eqb a b) eqn:E; [|reflexivity].
  apply Ascii.eqb_eq in E. subst b.
  cbn [without] in Ho, Hs. apply andb_true_iff in Hs. destruct Hs as [H1 H2].
  rewrite H1 in Ho. cbn [andb] in Ho. exact (IH s Ho H2).
Qed.

Lemma matchQuoted_clashes (opening h : string) :
  forall t,
    clashes opening h = true ->
    matchQuoted opening (h ++ t) = matchQuoted opening t.
Proof.
  induction h as [|c h IH]; intros t H; [reflexivity|].
  cbn [clashes] in H. apply andb_true_iff in H. destruct H as [H1 H2].
  pose proof (afterPrefix_clash opening (String c h) t H1) as P.
  cbn [append] in P |- *. cbn [matchQuoted]. unfold matchHere at 1.
  rewrite P. exact (IH t H2).
Qed.

Lemma matchQuoted_without (opening : string) :
  forall s,
    without quote opening = false -> without quote s = true ->
    matchQuoted opening s = None.
Proof.
  intros s Ho. induction s as [|c s IH]; intros Hs.
  - cbn [matchQuoted]. unfold matchHere.
    rewrite (afterPrefix_quote opening EmptyString Ho Hs). reflexivity.
  - cbn [matchQuoted]. unfold matchHere at 1.
    rewrite (afterPrefix_quote opening (String c s) Ho Hs).
    apply IH. cbn [without] in Hs. apply andb_true_iff in Hs. apply Hs.
Qed.

Lemma untilQuote_append (run rest : string) :
  without quote run = true ->
  untilQuote (run ++ String quote rest) = Some run.
Proof.
  induction run as [|c run IH]; intros H; [reflexivity|].
  cbn [without] in H. apply andb_true_iff in H. destruct H as [H1 H2].
  apply negb_true_iff in H1.
  cbn [append untilQuote]. rewrite H1, (IH H2). reflexivity.
Qed.

Lemma matchQuoted_open (opening group rest : string) :
  group <> EmptyString -> without quote group = true ->
  matchQuoted opening (opening ++ group ++ String quote rest) = Some group.
Proof.
  intros Hne Hq.
  assert (H : matchHere opening (opening ++ group ++ String quote rest)
              = Some group).
  { unfold matchHere. rewrite afterPrefix_append, (untilQuote_append _ _ Hq).
    destruct group; [contradiction Hne; reflexivity | reflexivity]. }
  destruct (opening ++ group ++ String quote rest);
    cbn [matchQuoted]; rewrite H; reflexivity.
Qed.

(** ** The two parts of an upload *)

Lemma parsePart_field (result : Parsed) (value : string) :
  without quote value = true ->
  parsePart result (fieldPart "duration" value)
  = mkParsed (assignProperty "duration" value (fields result))
             (files result).
Proof.
  intros Hq. unfold parsePart.
  replace (contains "Content-Disposition" (fieldPart "duration" value))
    with true by reflexivity.
  replace (nameMatch (fieldPart "duration" value))
    with (Some "duration") by reflexivity.
  replace (filenameMatch (fieldPart "duration" value))
    with (matchQuoted ("filename=" ++ q) (value ++ CRLF)) by reflexivity.
  rewrite matchQuoted_without;
    [|reflexivity | rewrite without_append, Hq; reflexivity].
  change (fieldPart "duration" value)
    with ((CRLF ++ "Content-Disposition: form-data; name=" ++ q
           ++ "duration" ++ q)
          ++ (CRLF ++ CRLF) ++ value ++ CRLF).
  rewrite content_of_part; [reflexivity|].
  rewrite indexOf_clashes by reflexivity.
  rewrite indexOf_here. cbn [option_map]. rewrite Nat.add_0_r. reflexivity.
Qed.

Lemma filePart_layout (filename content : string) :
  filePart "audio" filename "audio/webm" content
  = (CRLF ++ "Content-Disposition: form-data; name=" ++ q ++ "audio" ++ q
     ++ "; ")
    ++ ("filename=" ++ q) ++ filename
    ++ String quote (CRLF ++ "Content-Type: audio/webm")
    ++ (CRLF ++ CRLF) ++ content ++ CRLF.
Proof.
  unfold filePart, fileHead. rewrite !append_assoc. reflexivity.
Qed.

Lemma parsePart_file (result : Parsed) (filename content : string) :
  filename <> EmptyString ->
  without quote filename = true -> without CR filename = true ->
  parsePart result (filePart "audio" filename "audio/webm" content)
  = mkParsed (fields result)
             (assignProperty "audio" (mkFile filename content)
                             (files result)).
Proof.
  intros Hne Hq Hcr. unfold parsePart.
  replace (contains "Content-Disposition"
                    (filePart "audio" filename "audio/webm" content))
    with true by reflexivity.
  replace (nameMatch (filePart "audio" filename "audio/webm" content))
    with (Some "audio") by reflexivity.
  assert (F : filenameMatch (filePart "audio" filename "audio/webm" content)
              = Some filename).
  { rewrite filePart_layout. unfold filenameMatch.
    rewrite matchQuoted_clashes by reflexivity.
    change (String quote (CRLF ++ "Content-Type: audio/webm")
            ++ (CRLF ++ CRLF) ++ content ++ CRLF)
      with (String quote ((CRLF ++ "Content-Type: audio/webm")
                          ++ (CRLF ++ CRLF) ++ content ++ CRLF)).
    apply matchQuoted_open; assumption. }
  rewrite F.
  set (h1 := CRLF ++ "Content-Disposition: form-data; name=" ++ q
             ++ "audio" ++ q ++ "; filename=" ++ q).
  set (h2 := String quote (CRLF ++ "Content-Type: audio/webm")).
  assert (L : filePart "audio" filename "audio/webm" content
              = (h1 ++ filename ++ h2) ++ (CRLF ++ CRLF) ++ content ++ CRLF).
  { subst h1 h2. unfold filePart, fileHead. rewrite !append_assoc.
    reflexivity. }
  rewrite L. rewrite content_of_part; [reflexivity|].
  rewrite (append_assoc h1), (append_assoc filename).
  rewrite (indexOf_clashes _ h1) by reflexivity.
  rewrite (indexOf_clashes _ filename) by (apply without_clashes; exact Hcr).
  rewrite (indexOf_clashes _ h2) by reflexivity.
  rewrite indexOf_here. cbn [option_map].
  rewrite !length_append. f_equal; lia.
Qed.

(** ** A well-formed upload *)

Lemma boundaryOf_named (boundary : string) :
  boundary <> EmptyString -> contains "boundary=" boundary = false ->
  boundaryOf (Some ("multipart/form-data; boundary=" ++ boundary))
  = Some boundary.
Proof.
  intros Hne Hc. unfold boundaryOf, splitOn.
  change ("multipart/form-data; boundary=" ++ boundary)
    with ("multipart/form-data; " ++ "boundary=" ++ boundary).
  rewrite splitFrom_piece; [|discriminate | reflexivity].
  rewrite (splitFrom_absent _ _ Hc). cbn [nth_error].
  destruct boundary; [contradiction Hne; reflexivity | reflexivity].
Qed.

Lemma splitFrom_first (sep rest : string) :
  sep <> EmptyString ->
  splitFrom sep 0 (sep ++ rest) = EmptyString :: splitFrom sep 0 rest.
Proof.
  destruct sep as [|c sep]; intros H; [contradiction H; reflexivity|].
  apply splitFrom_sep.
Qed.

Lemma upload_split (boundary duration filename content : string) :
  endsPart (delimiter boundary) (fieldPart "duration" duration) = true ->
  endsPart (delimiter boundary)
           (filePart "audio" filename "audio/webm" content) = true ->
  contains (delimiter boundary) ("--" ++ CRLF) = false ->
  splitOn (delimiter boundary) (upload boundary duration filename content)
  = [ EmptyString; fieldPart "duration" duration;
      filePart "audio" filename "audio/webm" content; "--" ++ CRLF ].
Proof.
  intros H1 H2 H3. unfold splitOn, upload.
  assert (Hsep : delimiter boundary <> EmptyString) by discriminate.
  set (sep := delimiter boundary) in *.
  rewrite (splitFrom_first sep _ Hsep).
  rewrite (splitFrom_piece sep _ _ Hsep H1).
  rewrite (splitFrom_piece sep _ _ Hsep H2).
  rewrite (splitFrom_absent sep _ H3). reflexivity.
Qed.

Lemma upload_parsed (boundary duration filename content : string) :
  wellFormedUpload boundary duration filename content = true ->
  parseMultipartForm (Some ("multipart/form-data; boundary=" ++ boundary))
                     (upload boundary duration filename content)
  = Resolved (mkParsed [("duration", duration)]
                       [("audio", mkFile filename content)]).
Proof.
  unfold wellFormedUpload. intros H.
  apply andb_true_iff in H. destruct H as [H Hcr].
  apply andb_true_iff in H. destruct H as [H Hfq].
  apply andb_true_iff in H. destruct H as [H Hfne].
  apply andb_true_iff in H. destruct H as [H Hdq].
  apply andb_true_iff in H. destruct H as [H Hlast].
  apply andb_true_iff in H. destruct H as [H Hp2].
  apply andb_true_iff in H. destruct H as [H Hp1].
  apply andb_true_iff in H. destruct H as [Hbne Hb].
  apply negb_true_iff in Hbne, Hb, Hlast, Hfne.
  apply String.eqb_neq in Hbne, Hfne.
  unfold parseMultipartForm.
  rewrite (boundaryOf_named boundary Hbne Hb).
  rewrite (upload_split boundary duration filename content Hp1 Hp2 Hlast).
  cbn [fold_left].
  replace (parsePart (mkParsed [] []) EmptyString)
    with (mkParsed [] []) by reflexivity.
  rewrite (parsePart_field _ duration Hdq).
  rewrite (parsePart_file _ filename content Hfne Hfq Hcr).
  reflexivity.
Qed.

(** X28.  An upload of a recording with its duration, in the usual layout, is
    taken apart into exactly what was put in: the field [duration] with
    its value and the file [audio] with its name and its content, byte
    for byte, whatever bytes the content holds beside the delimiter. *)
Theorem well_formed_upload_parsed
    (boundary duration filename content : string) :
  wellFormedUpload boundary duration filename content = true ->
  exists result,
    parseMultipartForm (Some ("multipart/form-data; boundary=" ++ boundary))
                       (upload boundary duration filename content)
    = Resolved result
    /\ fields result = [("duration", duration)]
    /\ files result = [("audio", mkFile filename content)]
    /\ formOf result
       = mkForm (Some duration)
                (Some (mkAudio filename (String.length content))).
Proof.
  intros H. eexists. split; [exact (upload_parsed _ _ _ _ H)|].
  repeat split.
Qed.

Lemma well_formed_upload_parsed_witness :
  exists result,
    parseMultipartForm (Some ("multipart/form-data; boundary=" ++ "XYZ"))
                       (upload "XYZ" "12" "speech.webm" "RIFF-data")
    = Resolved result
    /\ fields result = [("duration", "12")]
    /\ files result = [("audio", mkFile "speech.webm" "RIFF-data")]
    /\ formOf result
       = mkForm (Some "12") (Some (mkAudio "speech.webm" 9)).
Proof.
  apply (well_formed_upload_parsed "XYZ" "12" "speech.webm" "RIFF-data").
  vm_compute. reflexivity.
Defined.

(** X29.  The handler on such an upload: the form parser, the transcription and
    the completion are called in this order, the file is logged with its
    name and its size in bytes, and the metrics are computed with the
    duration of the form, read by [parseFloat], whatever duration the
    transcription reports. *)
Theorem well_formed_upload_answered
    (parseFloat : string -> number) (req : Request)
    (boundary duration filename content : string)
    (t : Transcription) (completion : option string) (key : bool)
    (w : World) :
  wellFormedUpload boundary duration filename content = true ->
  duration <> EmptyString ->
  method req = "POST" ->
  content_type req = Some ("multipart/form-data; boundary=" ++ boundary) ->
  exists w',
    handler parseFloat
            (uploadEnv req (upload boundary duration filename content)
                       (Resolved t) (Resolved completion) key)
            req w
    = (Resolved
         (json 200 cors
            (VObj [ ("feedback", VStr (feedbackOf completion));
                    ("transcript", VStr (t_text t));
                    ("metrics",
                      analyzeMetrics
                        (WordsArray (match t_words t with
                                     | Some ws => ws
                                     | None => []
                                     end))
                        (parseFloat duration)) ])),
       w')
    /\ calls w'
       = (calls w ++ [ParseForm; Transcribe "whisper-1";
                      ChatCompletion "gpt-5.1"])%list
    /\ In (mkLog ConsoleLog "Processing audio file"
                 [VStr filename; VNum (ofNat (String.length content))])
          (console w').
Proof.
  intros Hwf Hd Hm Hct.
  rewrite (handler_post parseFloat _ req Hm).
  unfold tryCatch, handlerBody. rewrite Hct.
  replace (contains "multipart/form-data"
                    ("multipart/form-data; boundary=" ++ boundary))
    with true by reflexivity.
  unfold bind, call, logLine, modify, analyzeMetricsIn, ret, uploadEnv.
  cbn [form_outcome transcription_outcome completion_outcome].
  rewrite Hct, (upload_parsed _ _ _ _ Hwf).
  cbn [formOf fields files own String.eqb Ascii.eqb Bool.eqb option_map
       audio duration_field file_name data size Handlers.filename fst snd
       console calls].
  unfold durationOf. cbn [duration_field].
  destruct duration as [|c0 rest]; [contradiction Hd; reflexivity|].
  eexists. split; [reflexivity|]. split.
  - cbn [calls]. rewrite <- !app_assoc. reflexivity.
  - cbn [console]. apply in_or_app. left. apply in_or_app. left.
    apply in_or_app. right. left. reflexivity.
Qed.

Lemma well_formed_upload_answered_witness :
  exists w',
    handler parseDigits
            (uploadEnv uploadRequest (upload "XYZ" "12" "speech.webm" "RIFF-data")
                       (Resolved (mkTranscription "Um well like"
                                                  (Some sampleWords) None))
                       (Resolved (Some "Summary: fine.")) true)
            uploadRequest emptyWorld
    = (Resolved
         (json 200 cors
            (VObj [ ("feedback", VStr (feedbackOf (Some "Summary: fine.")));
                    ("transcript", VStr "Um well like");
                    ("metrics",
                      analyzeMetrics (WordsArray sampleWords)
                                     (parseDigits "12")) ])),
       w')
    /\ calls w'
       = ([] ++ [ParseForm; Transcribe "whisper-1";
                 ChatCompletion "gpt-5.1"])%list
    /\ In (mkLog ConsoleLog "Processing audio file"
                 [VStr "speech.webm"; VNum (ofNat (String.length "RIFF-data"))])
          (console w').
Proof.
  apply (well_formed_upload_answered
           parseDigits uploadRequest "XYZ" "12" "speech.webm" "RIFF-data"
           (mkTranscription "Um well like" (Some sampleWords) None)
           (Some "Summary: fine.") true emptyWorld).
  - vm_compute. reflexivity.
  - discriminate.
  - reflexivity.
  - reflexivity.
Defined.

(** ** A file name before the name *)

Lemma prefix_head (needle : string) :
  forall h t, prefix needle h = true -> prefix needle (h ++ t) = true.
Proof.
  induction needle as [|a needle IH]; intros h t H.
  - destruct (h ++ t); reflexivity.
  - destruct h as [|b h]; [discriminate H|].
    cbn [append prefix] in H |- *.
    destruct (ascii_dec a b); [apply IH; exact H | discriminate H].
Qed.

Lemma contains_head (needle h t : string) :
  contains needle h = true -> contains needle (h ++ t) = true.
Proof.
  induction h as [|c h IH]; intros H.
  - cbn [contains] in H. rewrite orb_false_r in H.
    destruct needle; [|discriminate H].
    destruct (EmptyString ++ t); reflexivity.
  - cbn [contains] in H. apply orb_true_iff in H.
    change (String c h ++ t) with (String c (h ++ t)).
    cbn [contains]. apply orb_true_iff. destruct H as [H|H].
    + left. exact (prefix_head needle (String c h) t H).
    + right. exact (IH H).
Qed.

(** X30.  The pattern for the name also matches inside [filename="..."].  In a
    part that gives the file name first, with nothing before it that
    could start either pattern, the file is stored under its file name,
    whatever name the part gives after it. *)
Theorem file_name_taken_for_name
    (result : Parsed) (h f rest : string) :
  contains "Content-Disposition" h = true ->
  clashes ("name=" ++ q) h = true ->
  clashes ("filename=" ++ q) h = true ->
  f <> EmptyString -> without quote f = true ->
  nameMatch (h ++ "filename=" ++ q ++ f ++ q ++ rest) = Some f
  /\ exists content,
       parsePart result (h ++ "filename=" ++ q ++ f ++ q ++ rest)
       = mkParsed (fields result)
                  (assignProperty f (mkFile f content) (files result)).
Proof.
  intros Hc Hn Hf Hne Hq.
  assert (N : nameMatch (h ++ "filename=" ++ q ++ f ++ q ++ rest) = Some f).
  { unfold nameMatch. rewrite (matchQuoted_clashes _ h _ Hn).
    change ("filename=" ++ q ++ f ++ q ++ rest)
      with ("file" ++ ("name=" ++ q) ++ f ++ String quote rest).
    rewrite (matchQuoted_clashes _ "file") by reflexivity.
    apply matchQuoted_open; assumption. }
  split; [exact N|].
  unfold parsePart. rewrite (contains_head _ h _ Hc), N.
  assert (F : filenameMatch (h ++ "filename=" ++ q ++ f ++ q ++ rest)
              = Some f).
  { unfold filenameMatch. rewrite (matchQuoted_clashes _ h _ Hf).
    change ("filename=" ++ q ++ f ++ q ++ rest)
      with (("filename=" ++ q) ++ f ++ String quote rest).
    apply matchQuoted_open; assumption. }
  rewrite F. eexists. reflexivity.
Qed.

Lemma file_name_taken_for_name_witness :
  nameMatch (reversedPart "speech.webm") = Some "speech.webm"
  /\ exists content,
       parsePart (mkParsed [] []) (reversedPart "speech.webm")
       = mkParsed []
                  (assignProperty "speech.webm"
                                  (mkFile "speech.webm" content) []).
Proof.
  apply (file_name_taken_for_name
           (mkParsed [] [])
           (CRLF ++ "Content-Disposition: form-data; ") "speech.webm"
           ("; name=" ++ q ++ "audio" ++ q ++ CRLF ++ CRLF ++ "RIFF-data"
            ++ CRLF));
    try reflexivity; discriminate.
Defined.

End MultipartFacts.
